(** * plot.py: the conditional VAE, its loss and the data preparation script

    A shallow embedding of [06_4주차/plot.py].

    - [Shapes]: the tensor-shape arithmetic of [Encoder], [Decoder] and
      [CVAE] (Python integers as [Z], [//] as [Z.div]).
    - [Model]: the value-level parts of the model that do not depend on
      learned weights: [CVAE.reparameterize], the output stage of
      [Decoder.forward] and [loss_function], over the real numbers.
    - [Prep]: the module-level data preparation: numpy arrays in a store
      with views, the min-max scalers, the channel-group loops and the
      top-level statement sequence with its [exit()] calls, over [Q].

    Floating-point numbers are idealised: as reals in [Model] (where [exp]
    is needed) and as rationals in [Prep] (so that the script can be run on
    concrete arrays). *)

From Stdlib Require Import String ZArith QArith List Bool Lia.
From Stdlib Require Import Reals Lra.
Import ListNotations.

(** ** Tensor shapes *)

Module Shapes.

Local Open Scope Z_scope.

(** A shape is [tensor.shape]: the list of dimension sizes. A layer maps the
    shape of its input to the shape of its output, or raises. *)
Definition shape := list Z.

Definition obind {A B} (o : option A) (f : A -> option B) : option B :=
  match o with Some a => f a | None => None end.

Notation "x <- e ;; k" := (obind e (fun x => k))
  (at level 61, e at next level, right associativity).
Notation "' ( x , y ) <- e ;; k" := (obind e (fun p => let '(x, y) := p in k))
  (at level 61, x name, y name, e at next level, right associativity).

Definition guard (b : bool) : option unit := if b then Some tt else None.

(** *** torch.nn layers, at the level of shapes

    Only the constructor arguments that the source passes are fields; stride,
    dilation and output padding keep their defaults (1, 1, 0). *)

Record Conv1d := { conv_in : Z; conv_out : Z; conv_kernel : Z; conv_padding : Z }.
Record ConvTranspose1d :=
  { tconv_in : Z; tconv_out : Z; tconv_kernel : Z; tconv_padding : Z }.
Record MaxPool1d := { pool_kernel : Z; pool_stride : Z }.
Record BatchNorm1d := { num_features : Z }.
Record Linear := { in_features : Z; out_features : Z }.
Inductive Upsample := UpScale (scale_factor : Z) | UpSize (size : Z).

(** [nn.Conv1d]: L_out = (L + 2*padding - (kernel - 1) - 1) // 1 + 1, on a
    batched input (N, C_in, L) or an unbatched one (C_in, L). *)
Definition Conv1d_forward (m : Conv1d) (x : shape) : option shape :=
  match x with
  | [n; c; l] =>
      _ <- guard ((c =? conv_in m) && (conv_kernel m <=? l + 2 * conv_padding m)) ;;
      Some [n; conv_out m; (l + 2 * conv_padding m - (conv_kernel m - 1) - 1) / 1 + 1]
  | [c; l] =>
      _ <- guard ((c =? conv_in m) && (conv_kernel m <=? l + 2 * conv_padding m)) ;;
      Some [conv_out m; (l + 2 * conv_padding m - (conv_kernel m - 1) - 1) / 1 + 1]
  | _ => None
  end.

(** [nn.MaxPool1d]: L_out = (L - kernel) // stride + 1, on (N, C, L) or
    (C, L). *)
Definition MaxPool1d_forward (m : MaxPool1d) (x : shape) : option shape :=
  match x with
  | [n; c; l] =>
      _ <- guard (pool_kernel m <=? l) ;;
      Some [n; c; (l - pool_kernel m) / pool_stride m + 1]
  | [c; l] =>
      _ <- guard (pool_kernel m <=? l) ;;
      Some [c; (l - pool_kernel m) / pool_stride m + 1]
  | _ => None
  end.

(** [nn.BatchNorm1d] takes (N, C) or (N, C, L) with C = num_features and
    keeps the shape. In training mode it refuses an input with exactly one
    value per channel. *)
Definition BatchNorm1d_forward (training : bool) (m : BatchNorm1d) (x : shape)
  : option shape :=
  match x with
  | [n; c] =>
      _ <- guard ((c =? num_features m) && (negb training || negb (n =? 1))) ;;
      Some x
  | [n; c; l] =>
      _ <- guard ((c =? num_features m) && (negb training || negb (n * l =? 1))) ;;
      Some x
  | _ => None
  end.

(** [nn.Linear] acts on the last dimension. *)
Fixpoint Linear_forward (m : Linear) (x : shape) : option shape :=
  match x with
  | [] => None
  | [f] => _ <- guard (f =? in_features m) ;; Some [out_features m]
  | d :: x' => r <- Linear_forward m x' ;; Some (d :: r)
  end.

(** [nn.Upsample] on (N, C, L): L_out = floor(L * scale_factor), or the
    requested size. *)
Definition Upsample_forward (m : Upsample) (x : shape) : option shape :=
  match x with
  | [n; c; l] =>
      match m with
      | UpScale f => Some [n; c; l * f]
      | UpSize s => Some [n; c; s]
      end
  | _ => None
  end.

(** [nn.ConvTranspose1d]:
    L_out = (L - 1) * 1 - 2*padding + (kernel - 1) + 0 + 1. *)
Definition ConvTranspose1d_forward (m : ConvTranspose1d) (x : shape) : option shape :=
  match x with
  | [n; c; l] =>
      let l' := (l - 1) * 1 - 2 * tconv_padding m + (tconv_kernel m - 1) + 0 + 1 in
      _ <- guard ((c =? tconv_in m) && (0 <? l')) ;;
      Some [n; tconv_out m; l']
  | _ => None
  end.

Definition numel (x : shape) : Z := fold_right Z.mul 1 x.

(** [x.view(x.size(0), -1)]: the inferred dimension needs a non-zero first
    dimension. *)
Definition view_flatten (x : shape) : option shape :=
  match x with
  | [] => None
  | n :: rest => _ <- guard (negb (n =? 0)) ;; Some [n; numel rest]
  end.

(** [h.view(h.size(0), c, -1)]. *)
Definition view_channels (c : Z) (x : shape) : option shape :=
  match x with
  | [] => None
  | n :: rest =>
      _ <- guard (negb (n =? 0) && negb (c =? 0) && (numel rest mod c =? 0)) ;;
      Some [n; c; numel rest / c]
  end.

Fixpoint shape_eqb (x y : shape) : bool :=
  match x, y with
  | [], [] => true
  | a :: x', b :: y' => (a =? b) && shape_eqb x' y'
  | _, _ => false
  end.

(** [torch.cat([x, c], dim=-1)]: same rank, same sizes except in the last
    dimension. *)
Definition cat_last (x c : shape) : option shape :=
  match rev x, rev c with
  | lx :: px, lc :: pc =>
      _ <- guard (shape_eqb px pc) ;; Some (rev px ++ [lx + lc])
  | _, _ => None
  end.

(** Elementwise operations ([torch.relu], [torch.sigmoid], [nn.Dropout])
    keep the shape. *)
Definition elementwise (x : shape) : option shape := Some x.

(** *** class Encoder *)

Record Encoder := {
  e_conv1 : Conv1d; e_bn1 : BatchNorm1d; e_pool1 : MaxPool1d;
  e_conv2 : Conv1d; e_bn2 : BatchNorm1d; e_pool2 : MaxPool1d;
  e_conv3 : Conv1d; e_bn3 : BatchNorm1d; e_pool3 : MaxPool1d;
  e_seq_len : Z;
  e_fc : Linear; e_fc_mu : Linear; e_fc_logvar : Linear;
  e_bn0 : BatchNorm1d
}.

Definition calc_seq_len (seq_len : Z) : Z :=
  let seq_len := (seq_len + 2 * 6 - 12) / 1 + 1 in  (* conv1 *)
  let seq_len := (seq_len - 2) / 2 + 1 in           (* pool1 *)
  let seq_len := (seq_len + 2 * 6 - 12) / 1 + 1 in  (* conv2 *)
  let seq_len := (seq_len - 2) / 2 + 1 in           (* pool2 *)
  let seq_len := (seq_len + 2 * 6 - 12) / 1 + 1 in  (* conv3 *)
  let seq_len := (seq_len - 2) / 2 + 1 in           (* pool3 *)
  seq_len.

Definition Encoder_init (input_dim seq_len latent_dim condition_dim : Z) : Encoder :=
  let conv1 := {| conv_in := input_dim; conv_out := 128; conv_kernel := 12; conv_padding := 6 |} in
  let conv := {| conv_in := 128; conv_out := 128; conv_kernel := 12; conv_padding := 6 |} in
  let bn := {| num_features := 128 |} in
  let pool := {| pool_kernel := 2; pool_stride := 2 |} in
  let self_seq_len := calc_seq_len seq_len in
  {| e_conv1 := conv1; e_bn1 := bn; e_pool1 := pool;
     e_conv2 := conv; e_bn2 := bn; e_pool2 := pool;
     e_conv3 := conv; e_bn3 := bn; e_pool3 := pool;
     e_seq_len := self_seq_len;
     e_fc := {| in_features := 128 * self_seq_len; out_features := 512 |};
     e_fc_mu := {| in_features := 512 + condition_dim; out_features := latent_dim |};
     e_fc_logvar := {| in_features := 512 + condition_dim; out_features := latent_dim |};
     e_bn0 := {| num_features := 512 + condition_dim |} |}.

(** [Encoder.forward(x, c)]: the shapes of [mu] and [logvar]. *)
Definition Encoder_forward (training : bool) (self : Encoder) (x c : shape)
  : option (shape * shape) :=
  (* CNN Block1 *)
  x <- Conv1d_forward (e_conv1 self) x ;;
  x <- BatchNorm1d_forward training (e_bn1 self) x ;;
  x <- MaxPool1d_forward (e_pool1 self) x ;;
  x <- elementwise x ;;
  x <- elementwise x ;;
  (* CNN Block2 *)
  x <- Conv1d_forward (e_conv2 self) x ;;
  x <- BatchNorm1d_forward training (e_bn2 self) x ;;
  x <- MaxPool1d_forward (e_pool2 self) x ;;
  x <- elementwise x ;;
  x <- elementwise x ;;
  (* CNN Block3 *)
  x <- Conv1d_forward (e_conv3 self) x ;;
  x <- BatchNorm1d_forward training (e_bn3 self) x ;;
  x <- MaxPool1d_forward (e_pool3 self) x ;;
  x <- elementwise x ;;
  x <- elementwise x ;;
  (* Flatten *)
  x <- view_flatten x ;;
  x <- Linear_forward (e_fc self) x ;;
  x <- cat_last x c ;;
  x <- BatchNorm1d_forward training (e_bn0 self) x ;;
  x <- elementwise x ;;
  x <- elementwise x ;;
  mu <- Linear_forward (e_fc_mu self) x ;;
  logvar <- Linear_forward (e_fc_logvar self) x ;;
  Some (mu, logvar).

(** *** class Decoder *)

Record Decoder := {
  d_fc1 : Linear; d_fc2 : Linear; d_bn0 : BatchNorm1d;
  d_up1 : Upsample; d_bn1 : BatchNorm1d; d_trans_conv1 : ConvTranspose1d;
  d_up2 : Upsample; d_bn2 : BatchNorm1d; d_trans_conv2 : ConvTranspose1d;
  d_up3 : Upsample; d_bn3 : BatchNorm1d; d_trans_conv3 : ConvTranspose1d
}.

Definition Decoder_init (latent_dim seq_len output_dim condition_dim : Z) : Decoder :=
  let bn := {| num_features := 128 |} in
  let tconv := {| tconv_in := 128; tconv_out := 128; tconv_kernel := 12; tconv_padding := 6 |} in
  {| d_fc1 := {| in_features := latent_dim + condition_dim; out_features := 512 |};
     d_fc2 := {| in_features := 512; out_features := 128 * seq_len |};
     d_bn0 := bn;
     d_up1 := UpScale 2; d_bn1 := bn; d_trans_conv1 := tconv;
     d_up2 := UpScale 2; d_bn2 := bn; d_trans_conv2 := tconv;
     d_up3 := UpSize 4501; d_bn3 := bn;
     d_trans_conv3 :=
       {| tconv_in := 128; tconv_out := output_dim; tconv_kernel := 12; tconv_padding := 6 |} |}.

(** [Decoder.forward(z, c)]: the shape of [x_recon]. *)
Definition Decoder_forward (training : bool) (self : Decoder) (z c : shape)
  : option shape :=
  z <- cat_last z c ;;
  h <- Linear_forward (d_fc1 self) z ;;
  h <- Linear_forward (d_fc2 self) h ;;
  h <- view_channels 128 h ;;
  h <- BatchNorm1d_forward training (d_bn0 self) h ;;
  h <- elementwise h ;;
  h <- Upsample_forward (d_up1 self) h ;;
  h <- BatchNorm1d_forward training (d_bn1 self) h ;;
  h <- ConvTranspose1d_forward (d_trans_conv1 self) h ;;
  h <- elementwise h ;;
  h <- Upsample_forward (d_up2 self) h ;;
  h <- BatchNorm1d_forward training (d_bn2 self) h ;;
  h <- ConvTranspose1d_forward (d_trans_conv2 self) h ;;
  h <- elementwise h ;;
  h <- Upsample_forward (d_up3 self) h ;;
  h <- BatchNorm1d_forward training (d_bn3 self) h ;;
  h <- ConvTranspose1d_forward (d_trans_conv3 self) h ;;
  x_recon <- elementwise h ;;
  Some x_recon.

(** *** class CVAE *)

Record CVAE := { encoder : Encoder; decoder : Decoder }.

Definition CVAE_init (input_dim seq_len latent_dim condition_dim : Z) : CVAE :=
  let enc := Encoder_init input_dim seq_len latent_dim condition_dim in
  {| encoder := enc;
     decoder := Decoder_init latent_dim (e_seq_len enc) input_dim condition_dim |}.

(** [reparameterize] is elementwise on [mu] and [logvar]; equal shapes are
    required here (no broadcasting is modelled). *)
Definition reparameterize_shape (mu logvar : shape) : option shape :=
  _ <- guard (shape_eqb mu logvar) ;; Some mu.

(** [CVAE.forward(x, c)]: the shapes of [(x_recon, mu, logvar)]. *)
Definition CVAE_forward (training : bool) (self : CVAE) (x c : shape)
  : option (shape * shape * shape) :=
  '(mu, logvar) <- Encoder_forward training (encoder self) x c ;;
  z <- reparameterize_shape mu logvar ;;
  x_recon <- Decoder_forward training (decoder self) z c ;;
  Some (x_recon, mu, logvar).

(** The configuration of the script: [CVAE(input_dim, hidden_dim,
    latent_dim, condition_dim)]. *)
Definition input_dim : Z := 14.
Definition hidden_dim : Z := 4500.
Definition latent_dim : Z := 512.
Definition condition_dim : Z := 4.
Definition model : CVAE := CVAE_init input_dim hidden_dim latent_dim condition_dim.

End Shapes.

(** ** The model at the level of values *)

Module Model.

Local Open Scope R_scope.

(** A tensor is the list of its elements (row-major); elementwise operations
    act position by position on tensors of one shape. *)
Definition tensor := list R.

Fixpoint tzip (f : R -> R -> R) (a b : tensor) : tensor :=
  match a, b with
  | x :: a', y :: b' => f x y :: tzip f a' b'
  | _, _ => []
  end.

Definition tmap (f : R -> R) (a : tensor) : tensor := map f a.

(** [torch.sum]. *)
Definition tsum (a : tensor) : R := fold_right Rplus 0 a.

(** *** The random number generator

    The global torch generator is threaded explicitly: a stream of normal
    draws, a stream of keep/drop draws for dropout, and the number of draws
    consumed so far. *)
Record Generator := {
  normal_draw : nat -> R;
  keep_draw : nat -> bool;
  consumed : nat
}.

Definition advance (n : nat) (g : Generator) : Generator :=
  {| normal_draw := normal_draw g; keep_draw := keep_draw g;
     consumed := (consumed g + n)%nat |}.

(** [torch.randn_like(t)]: one normal draw per element of [t]. *)
Definition randn_like (t : tensor) (g : Generator) : tensor * Generator :=
  (map (fun k => normal_draw g (consumed g + k)%nat) (seq 0 (length t)),
   advance (length t) g).

(** *** CVAE.reparameterize *)
Definition reparameterize (mu logvar : tensor) (g : Generator) : tensor * Generator :=
  let std := tmap (fun l => exp (0.5 * l)) logvar in
  let '(eps, g) := randn_like std g in
  (tzip Rplus mu (tzip Rmult eps std), g).

(** *** nn.Dropout

    In training mode every element is kept with probability 1 - p and the
    kept elements are scaled by 1 / (1 - p); in evaluation mode the layer is
    the identity and draws nothing. *)
Record Dropout := { p : R }.

Fixpoint dropout_from (m : Dropout) (keep : nat -> bool) (k : nat) (x : tensor) : tensor :=
  match x with
  | [] => []
  | v :: x' =>
      (if keep k then v * (1 / (1 - p m)) else 0) :: dropout_from m keep (S k) x'
  end.

Definition Dropout_forward (training : bool) (m : Dropout) (x : tensor) (g : Generator)
  : tensor * Generator :=
  if training
  then (dropout_from m (keep_draw g) (consumed g) x, advance (length x) g)
  else (x, g).

(** [torch.sigmoid]. *)
Definition sigmoid (x : R) : R := 1 / (1 + exp (- x)).

(** The default [dropout_prob=0.2] of [Decoder.__init__]. *)
Definition dropout_prob : R := 0.2.
Definition conv3_dropout : Dropout := {| p := dropout_prob |}.

Section Forward.

(** The learned part of the network. The weights are not in the source
    (they come from training or a checkpoint), so the layers that use them
    are parameters: [encoder_forward] is [Encoder.forward], and
    [trans_conv3_out] is [Decoder.forward] up to and including
    [self.trans_conv3(h)], the value the final sigmoid is applied to. Both
    may consume random draws (dropout) in training mode. *)
Variable encoder_forward :
  bool -> tensor -> tensor -> Generator -> (tensor * tensor) * Generator.
Variable trans_conv3_out :
  bool -> tensor -> tensor -> Generator -> tensor * Generator.

(** The last line of [Decoder.forward]:
    [x_recon = self.conv3_dropout(torch.sigmoid(self.trans_conv3(h)))]. *)
Definition Decoder_forward (training : bool) (z c : tensor) (g : Generator)
  : tensor * Generator :=
  let '(a, g) := trans_conv3_out training z c g in
  Dropout_forward training conv3_dropout (tmap sigmoid a) g.

(** [CVAE.forward]. *)
Definition CVAE_forward (training : bool) (x c : tensor) (g : Generator)
  : (tensor * tensor * tensor) * Generator :=
  let '((mu, logvar), g) := encoder_forward training x c g in
  let '(z, g) := reparameterize mu logvar g in
  let '(x_recon, g) := Decoder_forward training z c g in
  ((x_recon, mu, logvar), g).

End Forward.

(** *** loss_function *)

(** [nn.functional.mse_loss(input, target, reduction='sum')]. *)
Definition mse_loss_sum (input target : tensor) : R :=
  tsum (tzip (fun a b => (a - b) ^ 2) input target).

(** The local [KLD] of [loss_function]:
    [-0.5 * torch.sum(1 + logvar - mu.pow(2) - logvar.exp() + 1e-8)]. *)
Definition KLD (mu logvar : tensor) : R :=
  let t := tmap (fun l => 1 + l) logvar in
  let t := tzip Rminus t (tmap (fun m => m ^ 2) mu) in
  let t := tzip Rminus t (tmap exp logvar) in
  let t := tmap (fun v => v + 1e-8) t in
  -0.5 * tsum t.

Definition loss_function (x_recon x mu logvar : tensor) : R :=
  let BCE := mse_loss_sum x_recon x in
  BCE + 1 * KLD mu logvar.

(** *** Notions used to state properties *)

(** The sum of [f i] over the indices [i] below [n]. *)
Definition big_sum (n : nat) (f : nat -> R) : R :=
  fold_right Rplus 0 (map f (seq 0 n)).

(** [torch.zeros(n)]. *)
Definition zeros (n : nat) : tensor := repeat 0 n.

(** The term summed by [KLD] for one latent element. *)
Definition kl_term (m l : R) : R := 1 + l - m ^ 2 - exp l + 1e-8.

(** Every element lies between [lo] and [hi]. *)
Definition all_within (lo hi : R) (t : tensor) : Prop :=
  Forall (fun v => lo <= v <= hi) t.

End Model.

(** ** The data preparation script *)

Module Prep.

Local Open Scope string_scope.
Local Open Scope list_scope.
Local Open Scope nat_scope.

(** *** numpy arrays

    A waveform array has shape (N, T, C): samples, time steps, channels. The
    trailing dimensions are kept with the data, as numpy does, so that an
    array without samples still has a shape. A label array has shape
    (N, ncols) and holds strings. *)
Definition row := list Q.
Definition sample := list row.
Record ndarray := { nT : nat; nC : nat; samples : list sample }.
Record labels := { ncols : nat; rows : list (list string) }.

Definition empty_array : ndarray := {| nT := 0; nC := 0; samples := [] |}.
Definition with_samples (a : ndarray) (l : list sample) : ndarray :=
  {| nT := nT a; nC := nC a; samples := l |}.

(** All numpy buffers live in a store; a variable holds a view
    [buffer[start:stop, :, :]] of one of them. Basic slicing makes a view of
    the same buffer, fancy indexing, [np.concatenate], [np.array] and
    [np.zeros] allocate a new one. *)
Record view := { base : nat; start : nat; stop : nat }.

Definition no_view : view := {| base := 0; start := 0; stop := 0 |}.

Definition buffer (st : list ndarray) (v : view) : ndarray :=
  nth (base v) st empty_array.

Definition read (st : list ndarray) (v : view) : ndarray :=
  let b := buffer st v in
  with_samples b (firstn (stop v - start v) (skipn (start v) (samples b))).

Fixpoint set_nth {A} (l : list A) (i : nat) (x : A) : list A :=
  match l, i with
  | [], _ => []
  | _ :: l', O => x :: l'
  | y :: l', S i' => y :: set_nth l' i' x
  end.

(** Writing through a view replaces the viewed samples of the buffer. *)
Definition write (st : list ndarray) (v : view) (new : list sample) : list ndarray :=
  let b := buffer st v in
  set_nth st (base v)
    (with_samples b (firstn (start v) (samples b) ++ new ++ skipn (stop v) (samples b))).

(** [v[lo:hi, :, :]]: slice bounds are clamped to the length. *)
Definition slice (v : view) (lo hi : nat) : view :=
  let n := stop v - start v in
  {| base := base v; start := start v + Nat.min lo n;
     stop := start v + Nat.max (Nat.min lo n) (Nat.min hi n) |}.

(** *** Scalers (sklearn.preprocessing)

    [fit] discards what an earlier [fit] computed. [fit_calls] is a ghost
    field: it counts the calls of [fit] (directly or through [fit_transform])
    on the object, and nothing reads it. *)
Record MinMaxParams := { data_min_ : Q; data_max_ : Q; scale_ : Q; min_ : Q }.
Record MinMaxScaler := { mm_params : option MinMaxParams; mm_fit_calls : nat }.
Record StandardParams := { mean_ : Q; var_ : Q; std_scale_ : Q }.
Record StandardScaler := { std_params : option StandardParams; std_fit_calls : nat }.

Definition Qminimum (x : Q) (l : list Q) : Q :=
  fold_left (fun m y => if Qle_bool y m then y else m) l x.
Definition Qmaximum (x : Q) (l : list Q) : Q :=
  fold_left (fun m y => if Qle_bool m y then y else m) l x.
Definition Qsum (l : list Q) : Q := fold_right Qplus 0%Q l.

(** A zero range or deviation is replaced by 1 ([_handle_zeros_in_scale]). *)
Definition handle_zeros_in_scale (s : Q) : Q := if Qeq_bool s 0 then 1%Q else s.

(** [MinMaxScaler()] with the default [feature_range=(0, 1)], fitted on one
    column; [None] on an empty column, where sklearn raises. *)
Definition MinMax_fit_params (col : list Q) : option MinMaxParams :=
  match col with
  | [] => None
  | x :: l =>
      let lo := Qminimum x l in
      let hi := Qmaximum x l in
      let scale := ((1 - 0) / handle_zeros_in_scale (hi - lo))%Q in
      Some {| data_min_ := lo; data_max_ := hi; scale_ := scale;
              min_ := (0 - lo * scale)%Q |}
  end.

Definition MinMax_transform1 (p : MinMaxParams) (x : Q) : Q :=
  (x * scale_ p + min_ p)%Q.

Section Sqrt.

(** The floating-point square root of [StandardScaler] has no rational
    counterpart and is a parameter. *)
Variable sqrtQ : Q -> Q.

Definition Standard_fit_params (col : list Q) : option StandardParams :=
  match col with
  | [] => None
  | _ =>
      let n := inject_Z (Z.of_nat (length col)) in
      let mean := (Qsum col / n)%Q in
      let var := (Qsum (map (fun x => (x - mean) * (x - mean)) col) / n)%Q in
      Some {| mean_ := mean; var_ := var;
              std_scale_ := handle_zeros_in_scale (sqrtQ var) |}
  end.

End Sqrt.

Definition Standard_transform1 (p : StandardParams) (x : Q) : Q :=
  ((x - mean_ p) / std_scale_ p)%Q.

(** *** Module globals *)

(** The variables the script keeps for each of the four systems. *)
Record SystemData := {
  X : view; Y : labels; sys_labels : list nat;
  fault_indices : list nat; normal_indices : list nat;
  Xnormal : view; Xanomaly : view;
  Ynormal : labels; Yanomaly : labels
}.

Definition set_X (v : view) (d : SystemData) : SystemData :=
  {| X := v; Y := Y d; sys_labels := sys_labels d; fault_indices := fault_indices d;
     normal_indices := normal_indices d; Xnormal := Xnormal d; Xanomaly := Xanomaly d;
     Ynormal := Ynormal d; Yanomaly := Yanomaly d |}.
Definition set_Y (v : labels) (d : SystemData) : SystemData :=
  {| X := X d; Y := v; sys_labels := sys_labels d; fault_indices := fault_indices d;
     normal_indices := normal_indices d; Xnormal := Xnormal d; Xanomaly := Xanomaly d;
     Ynormal := Ynormal d; Yanomaly := Yanomaly d |}.
Definition set_sys_labels (v : list nat) (d : SystemData) : SystemData :=
  {| X := X d; Y := Y d; sys_labels := v; fault_indices := fault_indices d;
     normal_indices := normal_indices d; Xnormal := Xnormal d; Xanomaly := Xanomaly d;
     Ynormal := Ynormal d; Yanomaly := Yanomaly d |}.
Definition set_fault_indices (v : list nat) (d : SystemData) : SystemData :=
  {| X := X d; Y := Y d; sys_labels := sys_labels d; fault_indices := v;
     normal_indices := normal_indices d; Xnormal := Xnormal d; Xanomaly := Xanomaly d;
     Ynormal := Ynormal d; Yanomaly := Yanomaly d |}.
Definition set_normal_indices (v : list nat) (d : SystemData) : SystemData :=
  {| X := X d; Y := Y d; sys_labels := sys_labels d; fault_indices := fault_indices d;
     normal_indices := v; Xnormal := Xnormal d; Xanomaly := Xanomaly d;
     Ynormal := Ynormal d; Yanomaly := Yanomaly d |}.
Definition set_Xnormal (v : view) (d : SystemData) : SystemData :=
  {| X := X d; Y := Y d; sys_labels := sys_labels d; fault_indices := fault_indices d;
     normal_indices := normal_indices d; Xnormal := v; Xanomaly := Xanomaly d;
     Ynormal := Ynormal d; Yanomaly := Yanomaly d |}.
Definition set_Xanomaly (v : view) (d : SystemData) : SystemData :=
  {| X := X d; Y := Y d; sys_labels := sys_labels d; fault_indices := fault_indices d;
     normal_indices := normal_indices d; Xnormal := Xnormal d; Xanomaly := v;
     Ynormal := Ynormal d; Yanomaly := Yanomaly d |}.
Definition set_Ynormal (v : labels) (d : SystemData) : SystemData :=
  {| X := X d; Y := Y d; sys_labels := sys_labels d; fault_indices := fault_indices d;
     normal_indices := normal_indices d; Xnormal := Xnormal d; Xanomaly := Xanomaly d;
     Ynormal := v; Yanomaly := Yanomaly d |}.
Definition set_Yanomaly (v : labels) (d : SystemData) : SystemData :=
  {| X := X d; Y := Y d; sys_labels := sys_labels d; fault_indices := fault_indices d;
     normal_indices := normal_indices d; Xnormal := Xnormal d; Xanomaly := Xanomaly d;
     Ynormal := Ynormal d; Yanomaly := v |}.

(** The four channel groups, which name the per-group scaler objects. *)
Inductive group := IGBT | FLUX | CAP | MOD.

Definition group_eqb (a b : group) : bool :=
  match a, b with
  | IGBT, IGBT | FLUX, FLUX | CAP, CAP | MOD, MOD => true
  | _, _ => false
  end.

(** A figure is the list of the curves plotted on it. *)
Definition figure := list (list Q).

Record Globals := {
  store : list ndarray;
  (* matplotlib: the current figure and the files written by savefig *)
  current_figure : figure;
  saved : list (string * figure);
  features : list string;
  RFQ : SystemData; DTL : SystemData; CCL : SystemData; SCL : SystemData;
  Xnormal_concat : view; Xanomaly_concat : view; Xnormal_concat_tmp : view;
  labels_one_hot : list (list Q);
  standard : StandardScaler;
  standard_of : group -> StandardScaler;
  scaler_of : group -> MinMaxScaler;
  avg_RFQ_Xnormal : view;
  avg_RFQ_Xnormal_plot : view;
  data_test : view;
  model : option Shapes.CVAE;
  loaded_state_dict : option string;
  reconstructed : option Shapes.shape
}.

Definition Xnormal_RFQ (g : Globals) : view := Xnormal (RFQ g).
Definition Xnormal_DTL (g : Globals) : view := Xnormal (DTL g).
Definition Xnormal_CCL (g : Globals) : view := Xnormal (CCL g).
Definition Xnormal_SCL (g : Globals) : view := Xnormal (SCL g).
Definition scaler_IGBT (g : Globals) : MinMaxScaler := scaler_of g IGBT.
Definition scaler_FLUX (g : Globals) : MinMaxScaler := scaler_of g FLUX.
Definition scaler_CAP (g : Globals) : MinMaxScaler := scaler_of g CAP.
Definition scaler_MOD (g : Globals) : MinMaxScaler := scaler_of g MOD.
Definition standard_IGBT (g : Globals) : StandardScaler := standard_of g IGBT.
Definition standard_FLUX (g : Globals) : StandardScaler := standard_of g FLUX.
Definition standard_CAP (g : Globals) : StandardScaler := standard_of g CAP.
Definition standard_MOD (g : Globals) : StandardScaler := standard_of g MOD.

Definition no_system : SystemData :=
  {| X := no_view; Y := {| ncols := 0; rows := [] |}; sys_labels := [];
     fault_indices := []; normal_indices := [];
     Xnormal := no_view; Xanomaly := no_view;
     Ynormal := {| ncols := 0; rows := [] |}; Yanomaly := {| ncols := 0; rows := [] |} |}.

(** The globals before the first statement: no buffer, nothing bound, and
    the [features] list of the source. Address 0 of the store is a
    placeholder for the views that are not bound yet. *)
Definition initial : Globals :=
  {| store := [empty_array]; current_figure := []; saved := [];
     features := ["A+IGBT-I"; "A+*IGBT-I"; "B+IGBT-I"; "B+*IGBT-I"; "C+IGBT-I";
                  "C+*IGBT-I"; "A-FLUX"; "B-FLUX"; "C-FLUX"; "CB-I"; "CB-V";
                  "MOD-V"; "MOD-I"; "DV/DT"];
     RFQ := no_system; DTL := no_system; CCL := no_system; SCL := no_system;
     Xnormal_concat := no_view; Xanomaly_concat := no_view;
     Xnormal_concat_tmp := no_view;
     labels_one_hot := [];
     standard := {| std_params := None; std_fit_calls := 0 |};
     standard_of := fun _ => {| std_params := None; std_fit_calls := 0 |};
     scaler_of := fun _ => {| mm_params := None; mm_fit_calls := 0 |};
     avg_RFQ_Xnormal := no_view; avg_RFQ_Xnormal_plot := no_view;
     data_test := no_view;
     model := None; loaded_state_dict := None; reconstructed := None |}.

(** Field updates. *)
Definition set_store (v : list ndarray) (g : Globals) : Globals :=
  {| store := v; current_figure := current_figure g; saved := saved g;
     features := features g; RFQ := RFQ g; DTL := DTL g; CCL := CCL g; SCL := SCL g;
     Xnormal_concat := Xnormal_concat g; Xanomaly_concat := Xanomaly_concat g;
     Xnormal_concat_tmp := Xnormal_concat_tmp g; labels_one_hot := labels_one_hot g;
     standard := standard g; standard_of := standard_of g; scaler_of := scaler_of g;
     avg_RFQ_Xnormal := avg_RFQ_Xnormal g;
     avg_RFQ_Xnormal_plot := avg_RFQ_Xnormal_plot g; data_test := data_test g;
     model := model g; loaded_state_dict := loaded_state_dict g;
     reconstructed := reconstructed g |}.
Definition set_current_figure (v : figure) (g : Globals) : Globals :=
  {| store := store g; current_figure := v; saved := saved g; features := features g;
     RFQ := RFQ g; DTL := DTL g; CCL := CCL g; SCL := SCL g;
     Xnormal_concat := Xnormal_concat g; Xanomaly_concat := Xanomaly_concat g;
     Xnormal_concat_tmp := Xnormal_concat_tmp g; labels_one_hot := labels_one_hot g;
     standard := standard g; standard_of := standard_of g; scaler_of := scaler_of g;
     avg_RFQ_Xnormal := avg_RFQ_Xnormal g;
     avg_RFQ_Xnormal_plot := avg_RFQ_Xnormal_plot g; data_test := data_test g;
     model := model g; loaded_state_dict := loaded_state_dict g;
     reconstructed := reconstructed g |}.
Definition set_saved (v : list (string * figure)) (g : Globals) : Globals :=
  {| store := store g; current_figure := current_figure g; saved := v;
     features := features g; RFQ := RFQ g; DTL := DTL g; CCL := CCL g; SCL := SCL g;
     Xnormal_concat := Xnormal_concat g; Xanomaly_concat := Xanomaly_concat g;
     Xnormal_concat_tmp := Xnormal_concat_tmp g; labels_one_hot := labels_one_hot g;
     standard := standard g; standard_of := standard_of g; scaler_of := scaler_of g;
     avg_RFQ_Xnormal := avg_RFQ_Xnormal g;
     avg_RFQ_Xnormal_plot := avg_RFQ_Xnormal_plot g; data_test := data_test g;
     model := model g; loaded_state_dict := loaded_state_dict g;
     reconstructed := reconstructed g |}.
Definition set_features (v : list string) (g : Globals) : Globals :=
  {| store := store g; current_figure := current_figure g; saved := saved g;
     features := v; RFQ := RFQ g; DTL := DTL g; CCL := CCL g; SCL := SCL g;
     Xnormal_concat := Xnormal_concat g; Xanomaly_concat := Xanomaly_concat g;
     Xnormal_concat_tmp := Xnormal_concat_tmp g; labels_one_hot := labels_one_hot g;
     standard := standard g; standard_of := standard_of g; scaler_of := scaler_of g;
     avg_RFQ_Xnormal := avg_RFQ_Xnormal g;
     avg_RFQ_Xnormal_plot := avg_RFQ_Xnormal_plot g; data_test := data_test g;
     model := model g; loaded_state_dict := loaded_state_dict g;
     reconstructed := reconstructed g |}.
Definition set_RFQ (v : SystemData) (g : Globals) : Globals :=
  {| store := store g; current_figure := current_figure g; saved := saved g;
     features := features g; RFQ := v; DTL := DTL g; CCL := CCL g; SCL := SCL g;
     Xnormal_concat := Xnormal_concat g; Xanomaly_concat := Xanomaly_concat g;
     Xnormal_concat_tmp := Xnormal_concat_tmp g; labels_one_hot := labels_one_hot g;
     standard := standard g; standard_of := standard_of g; scaler_of := scaler_of g;
     avg_RFQ_Xnormal := avg_RFQ_Xnormal g;
     avg_RFQ_Xnormal_plot := avg_RFQ_Xnormal_plot g; data_test := data_test g;
     model := model g; loaded_state_dict := loaded_state_dict g;
     reconstructed := reconstructed g |}.
Definition set_DTL (v : SystemData) (g : Globals) : Globals :=
  {| store := store g; current_figure := current_figure g; saved := saved g;
     features := features g; RFQ := RFQ g; DTL := v; CCL := CCL g; SCL := SCL g;
     Xnormal_concat := Xnormal_concat g; Xanomaly_concat := Xanomaly_concat g;
     Xnormal_concat_tmp := Xnormal_concat_tmp g; labels_one_hot := labels_one_hot g;
     standard := standard g; standard_of := standard_of g; scaler_of := scaler_of g;
     avg_RFQ_Xnormal := avg_RFQ_Xnormal g;
     avg_RFQ_Xnormal_plot := avg_RFQ_Xnormal_plot g; data_test := data_test g;
     model := model g; loaded_state_dict := loaded_state_dict g;
     reconstructed := reconstructed g |}.
Definition set_CCL (v : SystemData) (g : Globals) : Globals :=
  {| store := store g; current_figure := current_figure g; saved := saved g;
     features := features g; RFQ := RFQ g; DTL := DTL g; CCL := v; SCL := SCL g;
     Xnormal_concat := Xnormal_concat g; Xanomaly_concat := Xanomaly_concat g;
     Xnormal_concat_tmp := Xnormal_concat_tmp g; labels_one_hot := labels_one_hot g;
     standard := standard g; standard_of := standard_of g; scaler_of := scaler_of g;
     avg_RFQ_Xnormal := avg_RFQ_Xnormal g;
     avg_RFQ_Xnormal_plot := avg_RFQ_Xnormal_plot g; data_test := data_test g;
     model := model g; loaded_state_dict := loaded_state_dict g;
     reconstructed := reconstructed g |}.
Definition set_SCL (v : SystemData) (g : Globals) : Globals :=
  {| store := store g; current_figure := current_figure g; saved := saved g;
     features := features g; RFQ := RFQ g; DTL := DTL g; CCL := CCL g; SCL := v;
     Xnormal_concat := Xnormal_concat g; Xanomaly_concat := Xanomaly_concat g;
     Xnormal_concat_tmp := Xnormal_concat_tmp g; labels_one_hot := labels_one_hot g;
     standard := standard g; standard_of := standard_of g; scaler_of := scaler_of g;
     avg_RFQ_Xnormal := avg_RFQ_Xnormal g;
     avg_RFQ_Xnormal_plot := avg_RFQ_Xnormal_plot g; data_test := data_test g;
     model := model g; loaded_state_dict := loaded_state_dict g;
     reconstructed := reconstructed g |}.
Definition set_Xnormal_concat (v : view) (g : Globals) : Globals :=
  {| store := store g; current_figure := current_figure g; saved := saved g;
     features := features g; RFQ := RFQ g; DTL := DTL g; CCL := CCL g; SCL := SCL g;
     Xnormal_concat := v; Xanomaly_concat := Xanomaly_concat g;
     Xnormal_concat_tmp := Xnormal_concat_tmp g; labels_one_hot := labels_one_hot g;
     standard := standard g; standard_of := standard_of g; scaler_of := scaler_of g;
     avg_RFQ_Xnormal := avg_RFQ_Xnormal g;
     avg_RFQ_Xnormal_plot := avg_RFQ_Xnormal_plot g; data_test := data_test g;
     model := model g; loaded_state_dict := loaded_state_dict g;
     reconstructed := reconstructed g |}.
Definition set_Xanomaly_concat (v : view) (g : Globals) : Globals :=
  {| store := store g; current_figure := current_figure g; saved := saved g;
     features := features g; RFQ := RFQ g; DTL := DTL g; CCL := CCL g; SCL := SCL g;
     Xnormal_concat := Xnormal_concat g; Xanomaly_concat := v;
     Xnormal_concat_tmp := Xnormal_concat_tmp g; labels_one_hot := labels_one_hot g;
     standard := standard g; standard_of := standard_of g; scaler_of := scaler_of g;
     avg_RFQ_Xnormal := avg_RFQ_Xnormal g;
     avg_RFQ_Xnormal_plot := avg_RFQ_Xnormal_plot g; data_test := data_test g;
     model := model g; loaded_state_dict := loaded_state_dict g;
     reconstructed := reconstructed g |}.
Definition set_Xnormal_concat_tmp (v : view) (g : Globals) : Globals :=
  {| store := store g; current_figure := current_figure g; saved := saved g;
     features := features g; RFQ := RFQ g; DTL := DTL g; CCL := CCL g; SCL := SCL g;
     Xnormal_concat := Xnormal_concat g; Xanomaly_concat := Xanomaly_concat g;
     Xnormal_concat_tmp := v; labels_one_hot := labels_one_hot g;
     standard := standard g; standard_of := standard_of g; scaler_of := scaler_of g;
     avg_RFQ_Xnormal := avg_RFQ_Xnormal g;
     avg_RFQ_Xnormal_plot := avg_RFQ_Xnormal_plot g; data_test := data_test g;
     model := model g; loaded_state_dict := loaded_state_dict g;
     reconstructed := reconstructed g |}.
Definition set_labels_one_hot (v : list (list Q)) (g : Globals) : Globals :=
  {| store := store g; current_figure := current_figure g; saved := saved g;
     features := features g; RFQ := RFQ g; DTL := DTL g; CCL := CCL g; SCL := SCL g;
     Xnormal_concat := Xnormal_concat g; Xanomaly_concat := Xanomaly_concat g;
     Xnormal_concat_tmp := Xnormal_concat_tmp g; labels_one_hot := v;
     standard := standard g; standard_of := standard_of g; scaler_of := scaler_of g;
     avg_RFQ_Xnormal := avg_RFQ_Xnormal g;
     avg_RFQ_Xnormal_plot := avg_RFQ_Xnormal_plot g; data_test := data_test g;
     model := model g; loaded_state_dict := loaded_state_dict g;
     reconstructed := reconstructed g |}.
Definition set_standard (v : StandardScaler) (g : Globals) : Globals :=
  {| store := store g; current_figure := current_figure g; saved := saved g;
     features := features g; RFQ := RFQ g; DTL := DTL g; CCL := CCL g; SCL := SCL g;
     Xnormal_concat := Xnormal_concat g; Xanomaly_concat := Xanomaly_concat g;
     Xnormal_concat_tmp := Xnormal_concat_tmp g; labels_one_hot := labels_one_hot g;
     standard := v; standard_of := standard_of g; scaler_of := scaler_of g;
     avg_RFQ_Xnormal := avg_RFQ_Xnormal g;
     avg_RFQ_Xnormal_plot := avg_RFQ_Xnormal_plot g; data_test := data_test g;
     model := model g; loaded_state_dict := loaded_state_dict g;
     reconstructed := reconstructed g |}.
Definition set_standard_of (v : group -> StandardScaler) (g : Globals) : Globals :=
  {| store := store g; current_figure := current_figure g; saved := saved g;
     features := features g; RFQ := RFQ g; DTL := DTL g; CCL := CCL g; SCL := SCL g;
     Xnormal_concat := Xnormal_concat g; Xanomaly_concat := Xanomaly_concat g;
     Xnormal_concat_tmp := Xnormal_concat_tmp g; labels_one_hot := labels_one_hot g;
     standard := standard g; standard_of := v; scaler_of := scaler_of g;
     avg_RFQ_Xnormal := avg_RFQ_Xnormal g;
     avg_RFQ_Xnormal_plot := avg_RFQ_Xnormal_plot g; data_test := data_test g;
     model := model g; loaded_state_dict := loaded_state_dict g;
     reconstructed := reconstructed g |}.
Definition set_scaler_of (v : group -> MinMaxScaler) (g : Globals) : Globals :=
  {| store := store g; current_figure := current_figure g; saved := saved g;
     features := features g; RFQ := RFQ g; DTL := DTL g; CCL := CCL g; SCL := SCL g;
     Xnormal_concat := Xnormal_concat g; Xanomaly_concat := Xanomaly_concat g;
     Xnormal_concat_tmp := Xnormal_concat_tmp g; labels_one_hot := labels_one_hot g;
     standard := standard g; standard_of := standard_of g; scaler_of := v;
     avg_RFQ_Xnormal := avg_RFQ_Xnormal g;
     avg_RFQ_Xnormal_plot := avg_RFQ_Xnormal_plot g; data_test := data_test g;
     model := model g; loaded_state_dict := loaded_state_dict g;
     reconstructed := reconstructed g |}.
Definition set_avg_RFQ_Xnormal (v : view) (g : Globals) : Globals :=
  {| store := store g; current_figure := current_figure g; saved := saved g;
     features := features g; RFQ := RFQ g; DTL := DTL g; CCL := CCL g; SCL := SCL g;
     Xnormal_concat := Xnormal_concat g; Xanomaly_concat := Xanomaly_concat g;
     Xnormal_concat_tmp := Xnormal_concat_tmp g; labels_one_hot := labels_one_hot g;
     standard := standard g; standard_of := standard_of g; scaler_of := scaler_of g;
     avg_RFQ_Xnormal := v; avg_RFQ_Xnormal_plot := avg_RFQ_Xnormal_plot g;
     data_test := data_test g; model := model g;
     loaded_state_dict := loaded_state_dict g; reconstructed := reconstructed g |}.
Definition set_avg_RFQ_Xnormal_plot (v : view) (g : Globals) : Globals :=
  {| store := store g; current_figure := current_figure g; saved := saved g;
     features := features g; RFQ := RFQ g; DTL := DTL g; CCL := CCL g; SCL := SCL g;
     Xnormal_concat := Xnormal_concat g; Xanomaly_concat := Xanomaly_concat g;
     Xnormal_concat_tmp := Xnormal_concat_tmp g; labels_one_hot := labels_one_hot g;
     standard := standard g; standard_of := standard_of g; scaler_of := scaler_of g;
     avg_RFQ_Xnormal := avg_RFQ_Xnormal g; avg_RFQ_Xnormal_plot := v;
     data_test := data_test g; model := model g;
     loaded_state_dict := loaded_state_dict g; reconstructed := reconstructed g |}.
Definition set_data_test (v : view) (g : Globals) : Globals :=
  {| store := store g; current_figure := current_figure g; saved := saved g;
     features := features g; RFQ := RFQ g; DTL := DTL g; CCL := CCL g; SCL := SCL g;
     Xnormal_concat := Xnormal_concat g; Xanomaly_concat := Xanomaly_concat g;
     Xnormal_concat_tmp := Xnormal_concat_tmp g; labels_one_hot := labels_one_hot g;
     standard := standard g; standard_of := standard_of g; scaler_of := scaler_of g;
     avg_RFQ_Xnormal := avg_RFQ_Xnormal g;
     avg_RFQ_Xnormal_plot := avg_RFQ_Xnormal_plot g; data_test := v; model := model g;
     loaded_state_dict := loaded_state_dict g; reconstructed := reconstructed g |}.
Definition set_model (v : option Shapes.CVAE) (g : Globals) : Globals :=
  {| store := store g; current_figure := current_figure g; saved := saved g;
     features := features g; RFQ := RFQ g; DTL := DTL g; CCL := CCL g; SCL := SCL g;
     Xnormal_concat := Xnormal_concat g; Xanomaly_concat := Xanomaly_concat g;
     Xnormal_concat_tmp := Xnormal_concat_tmp g; labels_one_hot := labels_one_hot g;
     standard := standard g; standard_of := standard_of g; scaler_of := scaler_of g;
     avg_RFQ_Xnormal := avg_RFQ_Xnormal g;
     avg_RFQ_Xnormal_plot := avg_RFQ_Xnormal_plot g; data_test := data_test g;
     model := v; loaded_state_dict := loaded_state_dict g;
     reconstructed := reconstructed g |}.
Definition set_loaded_state_dict (v : option string) (g : Globals) : Globals :=
  {| store := store g; current_figure := current_figure g; saved := saved g;
     features := features g; RFQ := RFQ g; DTL := DTL g; CCL := CCL g; SCL := SCL g;
     Xnormal_concat := Xnormal_concat g; Xanomaly_concat := Xanomaly_concat g;
     Xnormal_concat_tmp := Xnormal_concat_tmp g; labels_one_hot := labels_one_hot g;
     standard := standard g; standard_of := standard_of g; scaler_of := scaler_of g;
     avg_RFQ_Xnormal := avg_RFQ_Xnormal g;
     avg_RFQ_Xnormal_plot := avg_RFQ_Xnormal_plot g; data_test := data_test g;
     model := model g; loaded_state_dict := v; reconstructed := reconstructed g |}.
Definition set_reconstructed (v : option Shapes.shape) (g : Globals) : Globals :=
  {| store := store g; current_figure := current_figure g; saved := saved g;
     features := features g; RFQ := RFQ g; DTL := DTL g; CCL := CCL g; SCL := SCL g;
     Xnormal_concat := Xnormal_concat g; Xanomaly_concat := Xanomaly_concat g;
     Xnormal_concat_tmp := Xnormal_concat_tmp g; labels_one_hot := labels_one_hot g;
     standard := standard g; standard_of := standard_of g; scaler_of := scaler_of g;
     avg_RFQ_Xnormal := avg_RFQ_Xnormal g;
     avg_RFQ_Xnormal_plot := avg_RFQ_Xnormal_plot g; data_test := data_test g;
     model := model g; loaded_state_dict := loaded_state_dict g; reconstructed := v |}.

(** *** Statements

    A statement transforms the globals and either completes, raises, or
    leaves the interpreter through [exit()]; the globals reached are kept in
    all three cases. *)
Inductive exn :=
  FileNotFoundError | KeyError | IndexError | ValueError | AttributeError
| NotFittedError | RuntimeError | TypeError.

Inductive outcome (A : Type) :=
| Normal (a : A)
| Raise (e : exn)
| SystemExit.
Arguments Normal {A} a.
Arguments Raise {A} e.
Arguments SystemExit {A}.

Definition M (A : Type) : Type := Globals -> outcome A * Globals.

Definition ret {A} (a : A) : M A := fun g => (Normal a, g).

Definition bind {A B} (m : M A) (k : A -> M B) : M B :=
  fun g =>
    match m g with
    | (Normal a, g') => k a g'
    | (Raise e, g') => (Raise e, g')
    | (SystemExit, g') => (SystemExit, g')
    end.

Notation "x <- e ;; k" := (bind e (fun x => k))
  (at level 61, e at next level, right associativity).
Notation "e ;; k" := (bind e (fun _ => k))
  (at level 61, right associativity).

Definition raise {A} (e : exn) : M A := fun g => (Raise e, g).

(** The builtin [exit()]. *)
Definition exit : M unit := fun g => (SystemExit, g).

Definition gets {A} (f : Globals -> A) : M A := fun g => (Normal (f g), g).
Definition modify (f : Globals -> Globals) : M unit := fun g => (Normal tt, f g).

Definition lift {A} (e : exn) (o : option A) : M A :=
  match o with Some a => ret a | None => raise e end.

(** [for x in l: body]. *)
Fixpoint for_each {A} (l : list A) (body : A -> M unit) : M unit :=
  match l with
  | [] => ret tt
  | x :: l' => body x ;; for_each l' body
  end.

(** [range(lo, hi)]. *)
Definition range (lo hi : nat) : list nat := seq lo (hi - lo).

(** *** numpy operations on the store *)

Definition whole (addr : nat) (a : ndarray) : view :=
  {| base := addr; start := 0; stop := length (samples a) |}.

(** A new buffer holding [a]. *)
Definition alloc (a : ndarray) : M view :=
  fun g => (Normal (whole (length (store g)) a), set_store (store g ++ [a]) g).

Definition load (v : view) : M ndarray := gets (fun g => read (store g) v).

Definition store_samples (v : view) (new : list sample) : M unit :=
  modify (fun g => set_store (write (store g) v new) g).

(** [l[idx]] with a list of indices. *)
Fixpoint index_list {A} (l : list A) (idx : list nat) : option (list A) :=
  match idx with
  | [] => Some []
  | i :: idx' =>
      match nth_error l i, index_list l idx' with
      | Some x, Some r => Some (x :: r)
      | _, _ => None
      end
  end.

(** [v[idx, :, :]]: fancy indexing copies. *)
Definition take_samples (v : view) (idx : list nat) : M view :=
  a <- load v ;;
  l <- lift IndexError (index_list (samples a) idx) ;;
  alloc (with_samples a l).

(** [Y[idx, :]]. *)
Definition take_rows (y : labels) (idx : list nat) : M labels :=
  l <- lift IndexError (index_list (rows y) idx) ;;
  ret {| ncols := ncols y; rows := l |}.

(** [Y[:, j]]. *)
Definition label_column (y : labels) (j : nat) : M (list string) :=
  if (j <? ncols y)%nat then ret (map (fun r => nth j r "") (rows y))
  else raise IndexError.

(** [np.where(col == s)[0]]. *)
Fixpoint where_eq (s : string) (col : list string) (i : nat) : list nat :=
  match col with
  | [] => []
  | x :: col' => if String.eqb x s then i :: where_eq s col' (S i) else where_eq s col' (S i)
  end.

(** [np.concatenate(vs, axis=0)]: the trailing dimensions must agree. *)
Definition concatenate (vs : list view) : M view :=
  arrays <- gets (fun g => map (read (store g)) vs) ;;
  match arrays with
  | [] => raise ValueError
  | a :: rest =>
      if forallb (fun b => (nT b =? nT a)%nat && (nC b =? nC a)%nat) rest
      then alloc (with_samples a (concat (map samples arrays)))
      else raise ValueError
  end.

(** [np.array(v)]: a copy. *)
Definition np_array (v : view) : M view := a <- load v ;; alloc a.

(** [np.zeros(v.shape)]. *)
Definition np_zeros_like (v : view) : M view :=
  a <- load v ;;
  alloc (with_samples a
           (repeat (repeat (repeat 0%Q (nC a)) (nT a)) (length (samples a)))).

Fixpoint zip_with {A} (f : A -> A -> A) (a b : list A) : list A :=
  match a, b with
  | x :: a', y :: b' => f x y :: zip_with f a' b'
  | _, _ => []
  end.

Definition add_sample (a b : sample) : sample := zip_with (zip_with Qplus) a b.

(** [dst += src[i, :, :]]: in place, through the view [dst]; the operand is
    broadcast over the samples of [dst]. *)
Definition iadd_sample (dst src : view) (i : nat) : M unit :=
  a <- load src ;;
  s <- lift IndexError (nth_error (samples a) i) ;;
  d <- load dst ;;
  store_samples dst (map (fun x => add_sample x s) (samples d)).

Fixpoint update_nth {A} (i : nat) (f : A -> A) (l : list A) : list A :=
  match l, i with
  | [], _ => []
  | x :: l', O => f x :: l'
  | x :: l', S i' => x :: update_nth i' f l'
  end.

(** Channel [i] of every row, with [f] applied to it. *)
Definition update_channel (i : nat) (f : Q -> Q) (l : list sample) : list sample :=
  map (map (update_nth i f)) l.

(** Channel [i] of all rows of all samples, in order. *)
Definition channel_of (i : nat) (l : list sample) : list Q :=
  flat_map (map (fun r => nth i r 0%Q)) l.

(** [v[:, :, i] = f(v[:, :, i])] for an elementwise [f], in place. *)
Definition map_channel (v : view) (i : nat) (f : Q -> Q) : M unit :=
  a <- load v ;;
  if (i <? nC a)%nat
  then store_samples v (update_channel i f (samples a))
  else raise IndexError.

(** [v[:, :, i].reshape(-1, 1)]: one channel as a column. *)
Definition channel (v : view) (i : nat) : M (list Q) :=
  a <- load v ;;
  if (i <? nC a)%nat
  then ret (channel_of i (samples a))
  else raise IndexError.

(** *** matplotlib *)
Definition plt_figure : M unit := modify (set_current_figure []).
Definition plt_plot (curve : list Q) : M unit :=
  modify (fun g => set_current_figure (current_figure g ++ [curve]) g).
Definition plt_savefig (path : string) : M unit :=
  modify (fun g => set_saved (saved g ++ [(path, current_figure g)]) g).

(** The renaming of the feature names that cannot be file names:
    [if features[i] == 'A+*IGBT-I': features[i] = 'A+_IGBT-I'] and so on. *)
Definition rename_if (i : nat) (old new : string) : M unit :=
  fs <- gets features ;;
  f <- lift IndexError (nth_error fs i) ;;
  if String.eqb f old then modify (set_features (set_nth fs i new)) else ret tt.

Definition rename_feature (i : nat) : M unit :=
  rename_if i "A+*IGBT-I" "A+_IGBT-I" ;;
  rename_if i "B+*IGBT-I" "B+_IGBT-I" ;;
  rename_if i "C+*IGBT-I" "C+_IGBT-I" ;;
  rename_if i "DV/DT" "DV_DT".

Definition feature (i : nat) : M string :=
  fs <- gets features ;; lift IndexError (nth_error fs i).

(** *** The script, up to the first [exit()]

    Not modelled: the imports, the seeding, what [print] writes, the axis
    labels, legends and titles of the figures, and [time] (line 197), which
    nothing reads. *)

(** The files under [./hvcm/data/hvcm/] and the checkpoints, by path. *)
Record Files := {
  npy : string -> option ndarray;
  npy_labels : string -> option labels;
  pth : string -> bool
}.

Definition system1 : string := "RFQ".
Definition system2 : string := "DTL".
Definition system3 : string := "CCL".
Definition system4 : string := "SCL".

Definition load_data (fs : Files) (system : string) : M (view * labels) :=
  a <- lift FileNotFoundError
         (npy fs (String.append "./hvcm/data/hvcm/" (String.append system ".npy"))) ;;
  x <- alloc a ;;
  y <- lift FileNotFoundError
         (npy_labels fs
            (String.append "./hvcm/data/hvcm/" (String.append system "_labels.npy"))) ;;
  ret (x, y).

Definition system_indices (system : string) : option nat :=
  if String.eqb system system1 then Some 0
  else if String.eqb system system2 then Some 1
  else if String.eqb system system3 then Some 2
  else if String.eqb system system4 then Some 3
  else None.

Definition create_labels (y : labels) (system : string) : M (list nat) :=
  k <- lift KeyError (system_indices system) ;;
  ret (repeat k (length (rows y))).

(** One of the four groups of per-system variables: how to read it and how
    to assign to it. *)
Record sysvar := {
  get_sys : Globals -> SystemData;
  set_sys : SystemData -> Globals -> Globals
}.
Definition var_RFQ : sysvar := {| get_sys := RFQ; set_sys := set_RFQ |}.
Definition var_DTL : sysvar := {| get_sys := DTL; set_sys := set_DTL |}.
Definition var_CCL : sysvar := {| get_sys := CCL; set_sys := set_CCL |}.
Definition var_SCL : sysvar := {| get_sys := SCL; set_sys := set_SCL |}.

Definition assign (s : sysvar) (f : SystemData -> SystemData) : M unit :=
  modify (fun g => set_sys s (f (get_sys s g)) g).

(** [X, Y = load_data(system)] (lines 192-195). *)
Definition stmt_load (fs : Files) (s : sysvar) (system : string) : M unit :=
  xy <- load_data fs system ;;
  assign s (fun d => set_Y (snd xy) (set_X (fst xy) d)).

(** [labels = create_labels(Y, system)] (lines 211-214). *)
Definition stmt_labels (s : sysvar) (system : string) : M unit :=
  d <- gets (get_sys s) ;;
  l <- create_labels (Y d) system ;;
  assign s (set_sys_labels l).

(** [fault_indices, normal_indices = np.where(Y[:,1] == 'Fault')[0],
    np.where(Y[:,1] == 'Run')[0]] (lines 217-220). *)
Definition stmt_indices (s : sysvar) : M unit :=
  d <- gets (get_sys s) ;;
  cf <- label_column (Y d) 1 ;;
  cr <- label_column (Y d) 1 ;;
  assign s (fun d => set_normal_indices (where_eq "Run" cr 0)
                       (set_fault_indices (where_eq "Fault" cf 0) d)).

(** [Xnormal, Xanomaly = X[normal_indices,:,:], X[fault_indices,:,:]]
    (lines 222-225). *)
Definition stmt_split_X (s : sysvar) : M unit :=
  d <- gets (get_sys s) ;;
  xn <- take_samples (X d) (normal_indices d) ;;
  xa <- take_samples (X d) (fault_indices d) ;;
  assign s (fun d => set_Xanomaly xa (set_Xnormal xn d)).

(** [Ynormal, Yanomaly = Y[normal_indices,:], Y[fault_indices,:]]
    (lines 227-230). *)
Definition stmt_split_Y (s : sysvar) : M unit :=
  d <- gets (get_sys s) ;;
  yn <- take_rows (Y d) (normal_indices d) ;;
  ya <- take_rows (Y d) (fault_indices d) ;;
  assign s (fun d => set_Yanomaly ya (set_Ynormal yn d)).

Definition each_system (f : sysvar -> M unit) : M unit :=
  f var_RFQ ;; f var_DTL ;; f var_CCL ;; f var_SCL.

(** Lines 233-234. *)
Definition stmt_concat_all : M unit :=
  g <- gets (fun g => g) ;;
  xn <- concatenate [Xnormal_RFQ g; Xnormal_DTL g; Xnormal_CCL g; Xnormal_SCL g] ;;
  modify (set_Xnormal_concat xn) ;;
  xa <- concatenate [Xanomaly (RFQ g); Xanomaly (DTL g); Xanomaly (CCL g);
                     Xanomaly (SCL g)] ;;
  modify (set_Xanomaly_concat xa).

(** [np.eye(n)]. *)
Definition eye (n : nat) : list (list Q) :=
  map (fun i => map (fun j => if (i =? j)%nat then 1%Q else 0%Q) (seq 0 n)) (seq 0 n).

(** [labels[normal_indices[:524]]]. *)
Definition normal_labels (d : SystemData) : M (list nat) :=
  lift IndexError (index_list (sys_labels d) (firstn 524 (normal_indices d))).

(** Lines 237-238; [len(system_indices)] is 4. *)
Definition stmt_one_hot : M unit :=
  g <- gets (fun g => g) ;;
  l1 <- normal_labels (RFQ g) ;;
  l2 <- normal_labels (DTL g) ;;
  l3 <- normal_labels (CCL g) ;;
  l4 <- normal_labels (SCL g) ;;
  let labels_concat := l1 ++ l2 ++ l3 ++ l4 in
  oh <- lift IndexError (index_list (eye 4) labels_concat) ;;
  modify (set_labels_one_hot oh).

(** Lines 241-251: fresh scaler objects. *)
Definition stmt_scalers : M unit :=
  modify (set_standard {| std_params := None; std_fit_calls := 0 |}) ;;
  modify (set_standard_of (fun _ => {| std_params := None; std_fit_calls := 0 |})) ;;
  modify (set_scaler_of (fun _ => {| mm_params := None; mm_fit_calls := 0 |})).

(** Lines 253-257. *)
Definition stmt_concat_524 : M unit :=
  g <- gets (fun g => g) ;;
  xn <- concatenate [slice (Xnormal_RFQ g) 0 524; slice (Xnormal_DTL g) 0 524;
                     slice (Xnormal_CCL g) 0 524; slice (Xnormal_SCL g) 0 524] ;;
  modify (set_Xnormal_concat xn) ;;
  tmp <- np_array xn ;;
  modify (set_Xnormal_concat_tmp tmp) ;;
  xn <- np_array xn ;;
  modify (set_Xnormal_concat xn) ;;
  (* print(Xnormal_concat[524*0:524*0+1, :, 6]) *)
  _ <- channel (slice xn (524 * 0) (524 * 0 + 1)) 6 ;;
  ret tt.

(** Lines 259-263: the array of zeros is allocated and then the name is
    bound again, to a slice of [Xnormal_RFQ]: a view of the same buffer. *)
Definition stmt_avg_init : M unit :=
  xr <- gets Xnormal_RFQ ;;
  z <- np_zeros_like (slice xr 0 1) ;;
  modify (set_avg_RFQ_Xnormal z) ;;
  modify (set_avg_RFQ_Xnormal (slice xr 0 1)).

(** Lines 265-268. *)
Definition stmt_avg_loops : M unit :=
  for_each (range 1 524) (fun i =>
    avg <- gets avg_RFQ_Xnormal ;;
    xr <- gets Xnormal_RFQ ;;
    iadd_sample avg xr i) ;;
  for_each (range 0 14) (fun i =>
    avg <- gets avg_RFQ_Xnormal ;;
    map_channel avg i (fun x => (x / 524)%Q)).

(** [v[0]]: the first sample of a view, itself a view. *)
Definition first_sample (v : view) : M view :=
  if (start v <? stop v)%nat then ret (slice v 0 1) else raise IndexError.

(** Line 270. *)
Definition stmt_avg_plot : M unit :=
  avg <- gets avg_RFQ_Xnormal ;;
  v <- first_sample avg ;;
  modify (set_avg_RFQ_Xnormal_plot v).

(** Lines 272-291. *)
Definition stmt_plot_avg : M unit :=
  n <- gets (fun g => length (features g)) ;;
  for_each (range 0 n) (fun i =>
    plt_figure ;;
    v <- gets avg_RFQ_Xnormal_plot ;;
    curve <- channel v i ;;
    plt_plot curve ;;
    _ <- feature i ;;
    rename_feature i ;;
    f <- feature i ;;
    plt_savefig (String.append "./figure/wave_scale/RFQ_AVG/" (String.append f ".png"))).

(** Lines 192-263: loading, splitting, labels, scaler objects and the
    arrays of the first 524 normal samples. *)
Definition before_avg (fs : Files) : M unit :=
  stmt_load fs var_RFQ system1 ;;
  stmt_load fs var_DTL system2 ;;
  stmt_load fs var_CCL system3 ;;
  stmt_load fs var_SCL system4 ;;
  stmt_labels var_RFQ system1 ;;
  stmt_labels var_DTL system2 ;;
  stmt_labels var_CCL system3 ;;
  stmt_labels var_SCL system4 ;;
  each_system stmt_indices ;;
  each_system stmt_split_X ;;
  each_system stmt_split_Y ;;
  stmt_concat_all ;;
  stmt_one_hot ;;
  stmt_scalers ;;
  stmt_concat_524 ;;
  stmt_avg_init.

(** Lines 192-292: everything before the first [exit()]. *)
Definition before_exit (fs : Files) : M unit :=
  before_avg fs ;;
  stmt_avg_loops ;;
  stmt_avg_plot ;;
  stmt_plot_avg.

(** *** The channel groups

    The conditions of the four [if] statements in the body of the scaling
    loops (lines 308-314), on the loop index. *)
Definition in_IGBT (i : nat) : bool := (0 <=? i) && (i <=? 5).
Definition in_FLUX (i : nat) : bool := (6 <=? i) && (i <=? 8).
Definition in_CAP (i : nat) : bool := (9 <=? i) && (i <=? 10).
Definition in_MOD (i : nat) : bool := 11 <=? i.

Definition in_group (k : group) (i : nat) : bool :=
  match k with
  | IGBT => in_IGBT i
  | FLUX => in_FLUX i
  | CAP => in_CAP i
  | MOD => in_MOD i
  end.

(** [if b: body]. *)
Definition when (b : bool) (body : M unit) : M unit := if b then body else ret tt.

(** *** Scaler methods *)

Definition update_scaler (k : group) (sc : MinMaxScaler) (g : Globals) : Globals :=
  set_scaler_of (fun k' => if group_eqb k' k then sc else scaler_of g k') g.

(** [scaler.fit(col)]: the object is reset, then fitted; an empty column
    raises and leaves it reset. *)
Definition MinMaxScaler_fit (k : group) (col : list Q) : M unit :=
  modify (fun g => update_scaler k
            {| mm_params := None; mm_fit_calls := S (mm_fit_calls (scaler_of g k)) |} g) ;;
  p <- lift ValueError (MinMax_fit_params col) ;;
  modify (fun g => update_scaler k
            {| mm_params := Some p; mm_fit_calls := mm_fit_calls (scaler_of g k) |} g).

(** [scaler.transform(col)], as the elementwise map it applies. *)
Definition MinMaxScaler_transform (k : group) (col : list Q) : M (Q -> Q) :=
  sc <- gets (fun g => scaler_of g k) ;;
  p <- lift NotFittedError (mm_params sc) ;;
  match col with
  | [] => raise ValueError
  | _ => ret (MinMax_transform1 p)
  end.

(** [scaler.fit_transform(col)] is [scaler.fit(col).transform(col)]. *)
Definition MinMaxScaler_fit_transform (k : group) (col : list Q) : M (Q -> Q) :=
  MinMaxScaler_fit k col ;;
  MinMaxScaler_transform k col.

(** [arr[:,:,i] = scaler.fit_transform(arr[:,:,i].reshape(-1, 1))
                    .reshape(arr[:,:,i].shape)]:
    the column round trip is an elementwise update of channel [i]. *)
Definition fit_transform_channel (k : group) (arr : Globals -> view) (i : nat) : M unit :=
  v <- gets arr ;;
  col <- channel v i ;;
  f <- MinMaxScaler_fit_transform k col ;;
  map_channel v i f.

(** [arr[:,:,i] = scaler.transform(arr[:,:,i].reshape(-1, 1))
                    .reshape(arr[:,:,i].shape)]. *)
Definition transform_channel (k : group) (arr : Globals -> view) (i : nat) : M unit :=
  v <- gets arr ;;
  col <- channel v i ;;
  f <- MinMaxScaler_transform k col ;;
  map_channel v i f.

(** The min-max loops over [Xnormal_concat] (lines 307-315 and 412-420;
    [i<=5] in the latter is [i>=0 and i<=5] on a loop index) and over
    [Xnormal_concat_tmp] (lines 319-327). *)
Definition minmax_body (arr : Globals -> view) (i : nat) : M unit :=
  when (in_IGBT i) (fit_transform_channel IGBT arr i) ;;
  when (in_FLUX i) (fit_transform_channel FLUX arr i) ;;
  when (in_CAP i) (fit_transform_channel CAP arr i) ;;
  when (in_MOD i) (fit_transform_channel MOD arr i).

Definition minmax_loop (arr : Globals -> view) : M unit :=
  n <- gets (fun g => length (features g)) ;;
  for_each (range 0 n) (minmax_body arr).

(** Lines 427-438: the held-out sample and its scaling. [data_test[:524]]
    in the last branch is a slice of the one-sample copy, that is, all of
    it. *)
Definition stmt_data_test : M unit :=
  xr <- gets Xnormal_RFQ ;;
  dt <- np_array (slice xr 525 526) ;;
  modify (set_data_test dt).

Definition transform_body (i : nat) : M unit :=
  when (in_IGBT i) (transform_channel IGBT data_test i) ;;
  when (in_FLUX i) (transform_channel FLUX data_test i) ;;
  when (in_CAP i) (transform_channel CAP data_test i) ;;
  when (in_MOD i) (transform_channel MOD data_test i).

Definition transform_loop : M unit :=
  n <- gets (fun g => length (features g)) ;;
  for_each (range 0 n) transform_body.

(** *** The rest of the script *)

Section Script.

(** The square root used by [StandardScaler], and the values the trained
    network returns for a sample: both are outside the source (the second
    depends on the weights of the checkpoint). *)
Variable sqrtQ : Q -> Q.
Variable network_output : ndarray -> sample.

(** A [StandardScaler] variable. *)
Record stdvar := {
  get_std : Globals -> StandardScaler;
  set_std : StandardScaler -> Globals -> Globals
}.
Definition var_standard : stdvar := {| get_std := standard; set_std := set_standard |}.
Definition var_standard_of (k : group) : stdvar :=
  {| get_std := fun g => standard_of g k;
     set_std := fun sc g =>
       set_standard_of (fun k' => if group_eqb k' k then sc else standard_of g k') g |}.

Definition StandardScaler_fit (s : stdvar) (col : list Q) : M unit :=
  modify (fun g => set_std s
            {| std_params := None; std_fit_calls := S (std_fit_calls (get_std s g)) |} g) ;;
  p <- lift ValueError (Standard_fit_params sqrtQ col) ;;
  modify (fun g => set_std s
            {| std_params := Some p; std_fit_calls := std_fit_calls (get_std s g) |} g).

Definition StandardScaler_transform (s : stdvar) (col : list Q) : M (Q -> Q) :=
  sc <- gets (get_std s) ;;
  p <- lift NotFittedError (std_params sc) ;;
  match col with
  | [] => raise ValueError
  | _ => ret (Standard_transform1 p)
  end.

Definition standard_fit_transform_channel (s : stdvar) (arr : Globals -> view) (i : nat)
  : M unit :=
  v <- gets arr ;;
  col <- channel v i ;;
  StandardScaler_fit s col ;;
  f <- StandardScaler_transform s col ;;
  map_channel v i f.

(** Lines 295-303 (every branch uses the one object [standard]) and lines
    331-339 (one object per group). *)
Definition standard_loop (s : group -> stdvar) (arr : Globals -> view) : M unit :=
  n <- gets (fun g => length (features g)) ;;
  for_each (range 0 n) (fun i =>
    when (in_IGBT i) (standard_fit_transform_channel (s IGBT) arr i) ;;
    when (in_FLUX i) (standard_fit_transform_channel (s FLUX) arr i) ;;
    when (in_CAP i) (standard_fit_transform_channel (s CAP) arr i) ;;
    when (in_MOD i) (standard_fit_transform_channel (s MOD) arr i)).

(** Lines 345-356: the first sample of each system; [x_RFQ] is then bound
    to the scaler object [standard], which has no [shape]. *)
Definition stmt_first_samples : M unit :=
  xc <- gets Xnormal_concat ;;
  _ <- first_sample (slice xc (524 * 0) (524 * 0 + 1)) ;;
  _ <- first_sample (slice xc (524 * 1) (524 * 1 + 1)) ;;
  _ <- first_sample (slice xc (524 * 2) (524 * 2 + 1)) ;;
  _ <- first_sample (slice xc (524 * 3) (524 * 3 + 1)) ;;
  (* print(x_RFQ.shape) *)
  raise AttributeError.

(** Lines 359-381: [x_RFQ[:, i]] subscripts the scaler object. *)
Definition stmt_plot_first : M unit :=
  n <- gets (fun g => length (features g)) ;;
  for_each (range 0 n) (fun i => plt_figure ;; raise TypeError).

(** [v[k, :, i]]. *)
Definition sample_channel (v : view) (k i : nat) : M (list Q) :=
  a <- load v ;;
  s <- lift IndexError (nth_error (samples a) k) ;;
  if (i <? nC a)%nat then ret (map (fun r => nth i r 0%Q) s) else raise IndexError.

(** Lines 385-405; the [savefig] after the loop uses the last loop
    index. *)
Definition stmt_plot_all : M unit :=
  n <- gets (fun g => length (features g)) ;;
  for_each (range 0 n) (fun i =>
    plt_figure ;;
    for_each (range (524 * 3) (524 * 3 + 524)) (fun k =>
      xc <- gets Xnormal_concat ;;
      curve <- sample_channel xc k i ;;
      plt_plot curve) ;;
    _ <- feature i ;;
    rename_feature i ;;
    f <- feature i ;;
    plt_savefig (String.append "./figure/wave_scale/RFQ/test/" (String.append f ".png"))) ;;
  f <- feature (n - 1) ;;
  plt_savefig
    (String.append "./figure/wave_scale/SCL/test_standard/" (String.append f ".png")) ;;
  (* plt.clf(); plt.cla(); plt.close() *)
  modify (set_current_figure []).

(** Line 424: the result is not used. *)
Definition stmt_fault_indices : M unit :=
  ya <- gets (fun g => Yanomaly (RFQ g)) ;;
  _ <- label_column ya 2 ;;
  ret tt.

(** Lines 449-459. *)
Definition stmt_model : M unit :=
  modify (set_model (Some Shapes.model)).

Definition checkpoint : string :=
  "./model/mutli-module_based_cvae_best_ver_uniquewave_scaler.pth".

Definition stmt_load_state_dict (fs : Files) : M unit :=
  if pth fs checkpoint then modify (set_loaded_state_dict (Some checkpoint))
  else raise FileNotFoundError.

(** Lines 440-443 and 462-479: [data_test] is transposed to (N, C, T);
    [sample = data_test[0].unsqueeze(0)] has shape (1, C, T) and
    [condition = labels_one_hot[524:525].unsqueeze(0)] has shape
    (1, rows, 4). *)
Definition stmt_evaluate : M unit :=
  dt <- gets data_test ;;
  v <- first_sample dt ;;
  a <- load v ;;
  oh <- gets labels_one_hot ;;
  let sample_shape := [1%Z; Z.of_nat (nC a); Z.of_nat (nT a)] in
  let condition_shape :=
    [1%Z; Z.of_nat (length (firstn (525 - 524) (skipn 524 oh))); 4%Z] in
  m <- gets model ;;
  m <- lift RuntimeError m ;;
  r <- lift RuntimeError (Shapes.CVAE_forward false m sample_shape condition_shape) ;;
  modify (set_reconstructed (Some (fst (fst r)))).

(** Lines 496-516. *)
Definition stmt_plot_reconstruction : M unit :=
  n <- gets (fun g => length (features g)) ;;
  for_each (range 0 n) (fun i =>
    plt_figure ;;
    dt <- gets data_test ;;
    a <- load dt ;;
    original <- sample_channel dt 0 i ;;
    plt_plot original ;;
    plt_plot (map (fun r => nth i r 0%Q) (network_output a)) ;;
    _ <- feature i ;;
    rename_feature i ;;
    f <- feature i ;;
    plt_savefig (String.append "./figure/wave_scale/RFQ/test/" (String.append f ".png"))).

(** Lines 295-516: everything after the first [exit()]. *)
Definition after_exit (fs : Files) : M unit :=
  standard_loop (fun _ => var_standard) Xnormal_concat ;;
  minmax_loop Xnormal_concat ;;
  minmax_loop Xnormal_concat_tmp ;;
  standard_loop var_standard_of Xnormal_concat_tmp ;;
  stmt_first_samples ;;
  stmt_plot_first ;;
  stmt_plot_all ;;
  exit ;;
  minmax_loop Xnormal_concat ;;
  stmt_fault_indices ;;
  stmt_data_test ;;
  transform_loop ;;
  stmt_model ;;
  stmt_load_state_dict fs ;;
  stmt_evaluate ;;
  stmt_plot_reconstruction.

(** The module body of plot.py, top to bottom. *)
Definition plot_py (fs : Files) : M unit :=
  before_exit fs ;;
  exit ;;
  after_exit fs.

End Script.

(** *** Notions used to state properties *)

(** The group whose branch the body of a scaling loop takes at index [i]. *)
Definition group_of (i : nat) : group :=
  if in_IGBT i then IGBT else if in_FLUX i then FLUX else if in_CAP i then CAP else MOD.

(** The last channel of each group on the 14-channel axis. *)
Definition last_channel (k : group) : nat :=
  match k with IGBT => 5 | FLUX => 8 | CAP => 10 | MOD => 13 end.

(** The number of channels of each group on the 14-channel axis. *)
Definition group_size (k : group) : nat :=
  length (filter (in_group k) (range 0 14)).

(** A view that lies inside an allocated buffer. *)
Definition valid_view (st : list ndarray) (v : view) : Prop :=
  base v < length st /\ start v <= stop v <= length (samples (buffer st v)).

(** A rectangular array: every sample has [nT] rows of [nC] channels. *)
Definition rectangular (a : ndarray) : Prop :=
  Forall (fun s => length s = nT a /\ Forall (fun r => length r = nC a) s) (samples a).

(** Every row has more than [i] channels. *)
Definition wide (i : nat) (l : list sample) : Prop :=
  Forall (Forall (fun r : row => i < length r)) l.

(** What holds of the globals as long as nothing after the first [exit()]
    has run: no scaler was fitted, [data_test] is not bound, there is no
    model, no checkpoint was read, nothing was reconstructed, and every
    figure written is one of the averaged RFQ signal. *)
Definition nothing_after_exit (g : Globals) : Prop :=
  (forall k, scaler_of g k = {| mm_params := None; mm_fit_calls := 0 |}) /\
  standard g = {| std_params := None; std_fit_calls := 0 |} /\
  (forall k, standard_of g k = {| std_params := None; std_fit_calls := 0 |}) /\
  data_test g = no_view /\
  model g = None /\
  loaded_state_dict g = None /\
  reconstructed g = None /\
  Forall (fun f => String.prefix "./figure/wave_scale/RFQ_AVG/" (fst f) = true) (saved g).

(** A statement keeps [nothing_after_exit], however it ends. *)
Definition keeps {A} (m : M A) : Prop :=
  forall g, nothing_after_exit g -> nothing_after_exit (snd (m g)).

(** The scaler object of group [k] after the iterations 0 .. m-1 of a
    min-max loop over an array whose samples were [l0] when the loop
    started: every iteration of the group fits the object again, on the
    channel of that iteration. *)
Definition refit_upto (l0 : list sample) (k : group) (sc : MinMaxScaler) (m : nat)
  : MinMaxScaler :=
  fold_left
    (fun sc i =>
       if in_group k i
       then {| mm_params := MinMax_fit_params (channel_of i l0);
               mm_fit_calls := S (mm_fit_calls sc) |}
       else sc)
    (range 0 m) sc.

(** The state of a min-max loop over the array variable [arr] after [m]
    iterations, started in [g0] on the array [a0]: the channels from [m] on
    are as they were, and the scalers have been refitted by the iterations
    so far. *)
Definition minmax_inv (arr : Globals -> view) (g0 : Globals) (a0 : ndarray)
    (m : nat) (g : Globals) : Prop :=
  features g = features g0 /\ arr g = arr g0 /\
  valid_view (store g) (arr g) /\
  (exists l, read (store g) (arr g) = with_samples a0 l /\
             length (concat l) = length (concat (samples a0)) /\
             forall j, m <= j -> channel_of j l = channel_of j (samples a0)) /\
  forall k, scaler_of g k = refit_upto (samples a0) k (scaler_of g0 k) m.

(** The state of the loop that scales [data_test] after [m] iterations,
    started in [g0] on the array [a0] with the scaler parameters [p]: the
    scaler objects are those of [g0], the channels below [m] have been
    transformed with the parameters of their group, and the others are as
    they were. *)
Definition transform_inv (g0 : Globals) (a0 : ndarray) (p : group -> MinMaxParams)
    (m : nat) (g : Globals) : Prop :=
  features g = features g0 /\ data_test g = data_test g0 /\
  scaler_of g = scaler_of g0 /\
  valid_view (store g) (data_test g) /\
  exists l, read (store g) (data_test g) = with_samples a0 l /\
            wide 13 l /\
            length (concat l) = length (concat (samples a0)) /\
            (forall j, m <= j -> channel_of j l = channel_of j (samples a0)) /\
            (forall j, j < m ->
               channel_of j l
               = map (MinMax_transform1 (p (group_of j))) (channel_of j (samples a0))).

(** What the loops of lines 265-268 compute from the samples [l0] of
    [Xnormal_RFQ]: the sum of the first 524 samples, with each of the first
    14 channels divided by 524. *)
Definition averaged (l0 : list sample) : sample :=
  fold_left (fun s i => map (update_nth i (fun x => (x / 524)%Q)) s) (range 0 14)
    (fold_left add_sample (firstn 523 (skipn 1 l0)) (nth 0 l0 [])).

(** *** A small data set

    Waveforms of 2 time steps and 14 channels; sample [i] holds
    [value i * (c + 1)] in channel [c]. The RFQ file has one fault followed by
    525 runs, the other systems have one fault and two runs. *)
Definition example_sample (v : Q) : sample :=
  repeat (map (fun c => (v * inject_Z (Z.of_nat (c + 1)))%Q) (seq 0 14)) 2.

Definition example_array (n : nat) (value : nat -> Q) : ndarray :=
  {| nT := 2; nC := 14; samples := map (fun i => example_sample (value i)) (seq 0 n) |}.

Definition example_labels (runs : nat) : labels :=
  {| ncols := 3;
     rows := ["0"; "Fault"; "A FLUX Low Fault"] :: repeat ["1"; "Run"; "Normal"] runs |}.

Definition example_files : Files :=
  {| npy := fun path =>
       if String.eqb path "./hvcm/data/hvcm/RFQ.npy"
       then Some (example_array 526 (fun i => inject_Z (Z.of_nat i)))
       else Some (example_array 3 (fun i => inject_Z (Z.of_nat (i + 1))));
     npy_labels := fun path =>
       if String.eqb path "./hvcm/data/hvcm/RFQ_labels.npy"
       then Some (example_labels 525)
       else Some (example_labels 2);
     pth := fun _ => true |}.

(** Globals in which [Xnormal_concat] is bound to an array of three samples
    and no scaler has been fitted, and globals in which the scalers have been
    fitted by the min-max loop and [data_test] is a copy of one sample. *)
Definition example_globals : Globals :=
  set_Xnormal_concat {| base := 1; start := 0; stop := 3 |}
    (set_store [empty_array; example_array 3 (fun i => inject_Z (Z.of_nat (i + 1)))]
       initial).

Definition example_test_globals : Globals :=
  snd ((minmax_loop Xnormal_concat ;;
        xc <- gets Xnormal_concat ;;
        dt <- np_array (slice xc 1 2) ;;
        modify (set_data_test dt)) example_globals).

(** Globals in which the four arrays of normal samples are bound, each to
    two samples in a buffer of its own, and [avg_RFQ_Xnormal] to the first
    sample of [Xnormal_RFQ], as line 262 binds it. *)
Definition example_split_globals : Globals :=
  let two (b : nat) := set_Xnormal {| base := b; start := 0; stop := 2 |} no_system in
  set_avg_RFQ_Xnormal (slice {| base := 1; start := 0; stop := 2 |} 0 1)
    (set_RFQ (two 1) (set_DTL (two 2) (set_CCL (two 3) (set_SCL (two 4)
       (set_store
          [empty_array;
           example_array 2 (fun i => inject_Z (Z.of_nat (i + 1)));
           example_array 2 (fun i => inject_Z (Z.of_nat (i + 3)));
           example_array 2 (fun i => inject_Z (Z.of_nat (i + 5)));
           example_array 2 (fun i => inject_Z (Z.of_nat (i + 7)))]
          initial))))).


Definition params_of (g : Globals) (k : group) : MinMaxParams :=
  match mm_params (scaler_of g k) with
  | Some p => p
  | None => {| data_min_ := 0; data_max_ := 0; scale_ := 1; min_ := 0 |}
  end.

(** *** Notions used to state further properties *)

(** A statement that never leaves the interpreter through [exit()]. *)
Definition no_exit {A} (m : M A) : Prop :=
  forall g, fst (m g) <> SystemExit.

(** Every value of a column lies in [0,1]. *)
Definition unit_interval (col : list Q) : Prop :=
  Forall (fun x => (0 <= x)%Q /\ (x <= 1)%Q) col.

(** The parameters a fit on channel [i] of the samples [l0] gives. *)
Definition channel_params (l0 : list sample) (i : nat) : option MinMaxParams :=
  MinMax_fit_params (channel_of i l0).

(** One channel mapped with the parameters fitted on that same channel. *)
Definition self_scaled (l0 : list sample) (i : nat) : list Q :=
  match channel_params l0 i with
  | Some p => map (MinMax_transform1 p) (channel_of i l0)
  | None => []
  end.

(** The array of a min-max loop after [m] iterations, started on the
    samples of [a0]: the channels below [m] have been scaled, each with the
    parameters fitted on itself, and the others are as they were. *)
Definition minmax_data_inv (arr : Globals -> view) (g0 : Globals) (a0 : ndarray)
    (m : nat) (g : Globals) : Prop :=
  features g = features g0 /\ arr g = arr g0 /\
  valid_view (store g) (arr g) /\
  exists l, read (store g) (arr g) = with_samples a0 l /\
            wide 13 l /\
            length (concat l) = length (concat (samples a0)) /\
            (forall j, m <= j -> channel_of j l = channel_of j (samples a0)) /\
            (forall j, j < m -> channel_of j l = self_scaled (samples a0) j).

(** The samples whose label is [s], in order: what
    [X[np.where(Y[:,1] == s)[0]]] selects. *)
Definition labelled {A} (s : string) (l : list A) (col : list string) : list A :=
  map fst (filter (fun p => String.eqb (snd p) s) (combine l col)).

(** The row of [np.eye(n)] for the label [k]. *)
Definition one_hot (n k : nat) : list Q :=
  map (fun j => if (k =? j)%nat then 1%Q else 0%Q) (seq 0 n).

(** [rectangular], as a check. *)
Definition rectangularb (a : ndarray) : bool :=
  forallb (fun s : sample =>
             (length s =? nT a)%nat && forallb (fun r : row => (length r =? nC a)%nat) s)
    (samples a).

(** The value of a sample at time step [t] in channel [c]. *)
Definition entry (t c : nat) (s : sample) : Q := nth c (nth t s []) 0%Q.

(** A sample of [n] rows of [m] channels. *)
Definition shaped (n m : nat) (s : sample) : Prop :=
  length s = n /\ Forall (fun r : row => length r = m) s.

(** The name a feature has after the four renaming tests of the plot
    loops. *)
Definition renamed (f : string) : string :=
  if String.eqb f "A+*IGBT-I" then "A+_IGBT-I"
  else if String.eqb f "B+*IGBT-I" then "B+_IGBT-I"
  else if String.eqb f "C+*IGBT-I" then "C+_IGBT-I"
  else if String.eqb f "DV/DT" then "DV_DT"
  else f.

End Prep.

(** ** class CustomDataset *)

Module Dataset.

Local Open Scope Z_scope.

(** [l[idx]] for a Python integer: a negative index counts from the end, an
    index outside [-len(l), len(l)) raises IndexError. *)
Definition subscript {T} (l : list T) (idx : Z) : option T :=
  let n := Z.of_nat (length l) in
  if (0 <=? idx) && (idx <? n) then nth_error l (Z.to_nat idx)
  else if (- n <=? idx) && (idx <? 0) then nth_error l (Z.to_nat (idx + n))
  else None.

Section CustomDataset.

Variables data_t label_t : Type.

Record CustomDataset := { data : list data_t; labels : list label_t }.

Definition init (data : list data_t) (labels : list label_t) : CustomDataset :=
  {| data := data; labels := labels |}.

(** [__len__]. *)
Definition len (self : CustomDataset) : Z := Z.of_nat (length (data self)).

(** [__getitem__]: [None] stands for IndexError. *)
Definition getitem (self : CustomDataset) (idx : Z) : option (data_t * label_t) :=
  match subscript (data self) idx with
  | Some d =>
      match subscript (labels self) idx with
      | Some l => Some (d, l)
      | None => None
      end
  | None => None
  end.

End CustomDataset.

Arguments data {data_t label_t} _.
Arguments labels {data_t label_t} _.
Arguments init {data_t label_t} _ _.
Arguments len {data_t label_t} _.
Arguments getitem {data_t label_t} _ _.

End Dataset.

(** * Properties *)

(** ** Shapes through the CVAE *)

Section ShapeFacts.

Import Shapes.
Local Open Scope Z_scope.

Lemma Conv1d_shape (m : Conv1d) (n c l o l' : Z) :
  (c =? conv_in m) = true ->
  (conv_kernel m <=? l + 2 * conv_padding m) = true ->
  o = conv_out m ->
  l' = (l + 2 * conv_padding m - (conv_kernel m - 1) - 1) / 1 + 1 ->
  Conv1d_forward m [n; c; l] = Some [n; o; l'].
Proof.
  intros Hc Hk -> ->. unfold Conv1d_forward. rewrite Hc, Hk. reflexivity.
Qed.

Lemma MaxPool1d_shape (m : MaxPool1d) (n c l l' : Z) :
  (pool_kernel m <=? l) = true ->
  l' = (l - pool_kernel m) / pool_stride m + 1 ->
  MaxPool1d_forward m [n; c; l] = Some [n; c; l'].
Proof.
  intros Hk ->. unfold MaxPool1d_forward. rewrite Hk. reflexivity.
Qed.

Lemma BatchNorm1d_shape3 (training : bool) (m : BatchNorm1d) (n c l : Z) :
  (c =? num_features m) = true ->
  (training = true -> 1 < n * l) ->
  BatchNorm1d_forward training m [n; c; l] = Some [n; c; l].
Proof.
  intros Hc Ht. unfold BatchNorm1d_forward. rewrite Hc.
  destruct training; [|reflexivity].
  specialize (Ht eq_refl). cbn [negb orb andb].
  replace (_ =? 1) with false by (symmetry; apply Z.eqb_neq; lia). reflexivity.
Qed.

Lemma BatchNorm1d_shape2 (training : bool) (m : BatchNorm1d) (n c : Z) :
  (c =? num_features m) = true ->
  (training = true -> 1 < n) ->
  BatchNorm1d_forward training m [n; c] = Some [n; c].
Proof.
  intros Hc Ht. unfold BatchNorm1d_forward. rewrite Hc.
  destruct training; [|reflexivity].
  specialize (Ht eq_refl). cbn [negb orb andb].
  replace (_ =? 1) with false by (symmetry; apply Z.eqb_neq; lia). reflexivity.
Qed.

Lemma Linear_shape2 (m : Linear) (n f o : Z) :
  (f =? in_features m) = true ->
  o = out_features m ->
  Linear_forward m [n; f] = Some [n; o].
Proof.
  intros Hf ->. cbn [Linear_forward]. rewrite Hf. reflexivity.
Qed.

Lemma cat_last_shape2 (n a b : Z) : cat_last [n; a] [n; b] = Some [n; a + b].
Proof.
  unfold cat_last. cbn [rev app shape_eqb]. rewrite Z.eqb_refl. reflexivity.
Qed.

Lemma view_flatten_shape (n c l f : Z) :
  n <> 0 -> f = c * l -> view_flatten [n; c; l] = Some [n; f].
Proof.
  intros Hn ->. unfold view_flatten. apply Z.eqb_neq in Hn. rewrite Hn.
  cbn [negb guard obind numel fold_right]. rewrite Z.mul_1_r. reflexivity.
Qed.

Lemma view_channels_shape (c n f l : Z) :
  n <> 0 -> (c =? 0) = false -> (f mod c =? 0) = true -> l = f / c ->
  view_channels c [n; f] = Some [n; c; l].
Proof.
  intros Hn Hc Hm ->. unfold view_channels. apply Z.eqb_neq in Hn.
  cbn [numel fold_right]. rewrite Z.mul_1_r, Hn, Hc, Hm. reflexivity.
Qed.

Lemma Upsample_shape (m : Upsample) (n c l l' : Z) :
  l' = match m with UpScale f => l * f | UpSize s => s end ->
  Upsample_forward m [n; c; l] = Some [n; c; l'].
Proof. intros ->. destruct m; reflexivity. Qed.

Lemma ConvTranspose1d_shape (m : ConvTranspose1d) (n c l o l' : Z) :
  (c =? tconv_in m) = true ->
  l' = (l - 1) * 1 - 2 * tconv_padding m + (tconv_kernel m - 1) + 0 + 1 ->
  (0 <? l') = true ->
  o = tconv_out m ->
  ConvTranspose1d_forward m [n; c; l] = Some [n; o; l'].
Proof.
  intros Hc -> Hl ->. unfold ConvTranspose1d_forward. cbv zeta. rewrite Hc, Hl.
  reflexivity.
Qed.

Lemma shape_eqb_refl (x : shape) : shape_eqb x x = true.
Proof.
  induction x as [|a x IH]; [reflexivity|].
  cbn [shape_eqb]. rewrite Z.eqb_refl. exact IH.
Qed.



(** A single waveform passed without a batch dimension is refused: the
    first convolution accepts it as (C, L), and the batch normalisation that
    follows reads its 128 output channels as a batch of 4501 features. *)
Lemma CVAE_forward_unbatched (training : bool) :
  CVAE_forward training model [14; 4500] [4] = None.
Proof. destruct training; reflexivity. Qed.



End ShapeFacts.

(** ** Reparameterisation, decoder output and loss *)

Section ModelFacts.

Import Model.
Local Open Scope R_scope.

Lemma tzip_length (f : R -> R -> R) (a b : tensor) :
  length a = length b -> length (tzip f a b) = length a.
Proof.
  revert b. induction a as [|x a IH]; intros [|y b] H; try discriminate; [reflexivity|].
  cbn [tzip length]. f_equal. apply IH. now injection H.
Qed.

Lemma tzip_nth (f : R -> R -> R) (a b : tensor) (i : nat) :
  length a = length b -> (i < length a)%nat ->
  nth i (tzip f a b) 0 = f (nth i a 0) (nth i b 0).
Proof.
  revert b i. induction a as [|x a IH]; intros [|y b] i H Hi; try discriminate.
  - cbn in Hi. lia.
  - destruct i as [|i]; [reflexivity|].
    cbn [tzip nth]. apply IH; [now injection H | cbn in Hi; lia].
Qed.

Lemma tzip_app (f : R -> R -> R) (a a' b b' : tensor) :
  length a = length b -> tzip f (a ++ a') (b ++ b') = tzip f a b ++ tzip f a' b'.
Proof.
  revert b. induction a as [|x a IH]; intros [|y b] H; try discriminate; [reflexivity|].
  cbn [tzip app]. f_equal. apply IH. now injection H.
Qed.

Lemma tsum_app (a b : tensor) : tsum (a ++ b) = tsum a + tsum b.
Proof.
  induction a as [|x a IH]; cbn [tsum app fold_right].
  - unfold tsum. lra.
  - fold (tsum (a ++ b)). fold (tsum a). rewrite IH. lra.
Qed.

Lemma big_sum_shift (n : nat) (f : nat -> R) :
  big_sum (S n) f = f 0%nat + big_sum n (fun i => f (S i)).
Proof.
  unfold big_sum. cbn [seq map fold_right]. now rewrite <- seq_shift, map_map.
Qed.

Lemma tsum_big_sum (a : tensor) : tsum a = big_sum (length a) (fun i => nth i a 0).
Proof.
  induction a as [|x a IH]; [reflexivity|].
  cbn [length]. rewrite big_sum_shift. cbn [nth tsum fold_right].
  fold (tsum a). now rewrite IH.
Qed.

Lemma big_sum_ext (n : nat) (f h : nat -> R) :
  (forall i, (i < n)%nat -> f i = h i) -> big_sum n f = big_sum n h.
Proof.
  revert f h. induction n as [|n IH]; intros f h H; [reflexivity|].
  rewrite !big_sum_shift. rewrite (H 0%nat) by lia. f_equal.
  apply IH. intros i Hi. apply H. lia.
Qed.

Lemma big_sum_plus_const (n : nat) (f : nat -> R) (c : R) :
  big_sum n (fun i => f i + c) = big_sum n f + INR n * c.
Proof.
  revert f. induction n as [|n IH]; intros f.
  - unfold big_sum. cbn. lra.
  - rewrite !big_sum_shift, IH, S_INR. lra.
Qed.

Lemma big_sum_nonneg (n : nat) (f : nat -> R) :
  (forall i, (i < n)%nat -> 0 <= f i) -> 0 <= big_sum n f.
Proof.
  revert f. induction n as [|n IH]; intros f H.
  - unfold big_sum. cbn. lra.
  - rewrite big_sum_shift.
    assert (0 <= f 0%nat) by (apply H; lia).
    assert (0 <= big_sum n (fun i => f (S i))) by (apply IH; intros; apply H; lia).
    lra.
Qed.

Lemma KLD_terms (mu logvar : tensor) :
  length mu = length logvar ->
  KLD mu logvar = -0.5 * tsum (tzip kl_term mu logvar).
Proof.
  intros H. unfold KLD. f_equal. f_equal. unfold tmap.
  revert logvar H. induction mu as [|m mu IH]; intros [|l logvar] H; try discriminate;
    [reflexivity|].
  cbn [map tzip]. f_equal. apply IH. now injection H.
Qed.

Lemma KLD_big_sum (mu logvar : tensor) :
  length mu = length logvar ->
  KLD mu logvar
  = -0.5 * (big_sum (length mu)
              (fun i => 1 + nth i logvar 0 - nth i mu 0 ^ 2 - exp (nth i logvar 0))
            + INR (length mu) * 1e-8).
Proof.
  intros H. rewrite KLD_terms by assumption. f_equal.
  rewrite tsum_big_sum, tzip_length by assumption.
  rewrite <- big_sum_plus_const. apply big_sum_ext. intros i Hi.
  now rewrite tzip_nth by assumption.
Qed.

Lemma mse_loss_sum_big_sum (input target : tensor) :
  length input = length target ->
  mse_loss_sum input target
  = big_sum (length target) (fun i => (nth i input 0 - nth i target 0) ^ 2).
Proof.
  intros H. unfold mse_loss_sum.
  rewrite tsum_big_sum, tzip_length, H by assumption.
  apply big_sum_ext. intros i Hi. rewrite tzip_nth; [reflexivity | assumption | lia].
Qed.

Lemma mse_loss_sum_nonneg (input target : tensor) : 0 <= mse_loss_sum input target.
Proof.
  unfold mse_loss_sum. revert target.
  induction input as [|a input IH]; intros [|b target]; cbn [tzip tsum fold_right];
    try lra.
  specialize (IH target). unfold tsum in IH. pose proof (pow2_ge_0 (a - b)). lra.
Qed.

Lemma mse_loss_sum_same (x : tensor) : mse_loss_sum x x = 0.
Proof.
  unfold mse_loss_sum. induction x as [|a x IH]; [reflexivity|].
  cbn [tzip tsum fold_right]. unfold tsum in IH. rewrite IH. lra.
Qed.

Lemma KLD_zeros (n : nat) : KLD (zeros n) (zeros n) = -0.5 * (INR n * 1e-8).
Proof.
  unfold zeros. rewrite KLD_terms by reflexivity. f_equal.
  induction n as [|n IH].
  - cbn. lra.
  - cbn [repeat tzip tsum fold_right]. unfold tsum in IH. rewrite IH, S_INR.
    unfold kl_term. rewrite exp_0. lra.
Qed.

Lemma sigmoid_bounds (x : R) : 0 < sigmoid x < 1.
Proof.
  unfold sigmoid. pose proof (exp_pos (- x)) as He.
  assert (H1 : 0 < 1 + exp (- x)) by lra.
  split.
  - apply Rdiv_lt_0_compat; lra.
  - apply (Rmult_lt_reg_r (1 + exp (- x))); [assumption|].
    unfold Rdiv. rewrite Rmult_assoc, Rinv_l by lra. lra.
Qed.

Lemma all_within_sigmoid (a : tensor) : all_within 0 1 (tmap sigmoid a).
Proof.
  unfold all_within, tmap. apply Forall_forall. intros v Hv.
  apply in_map_iff in Hv. destruct Hv as (x & <- & _).
  pose proof (sigmoid_bounds x). lra.
Qed.

Lemma all_within_dropout (keep : nat -> bool) (k : nat) (x : tensor) :
  all_within 0 1 x -> all_within 0 1.25 (dropout_from conv3_dropout keep k x).
Proof.
  unfold all_within. intros H. revert k.
  induction H as [|v x Hv _ IH]; intros k; cbn [dropout_from]; constructor.
  - cbn [conv3_dropout p]. unfold dropout_prob. destruct (keep k); lra.
  - apply IH.
Qed.

Lemma sigmoid_large (x : R) : 3 <= x -> 0.8 < sigmoid x.
Proof.
  intros Hx. unfold sigmoid.
  assert (H3 : 1 + x < exp x) by (apply exp_ineq1; lra).
  assert (He : exp (- x) * exp x = 1) by (rewrite <- exp_plus, Rplus_opp_l; apply exp_0).
  pose proof (exp_pos (- x)) as Hp.
  assert (Hq : exp (- x) < 0.25) by nra.
  apply (Rmult_lt_reg_r (1 + exp (- x))); [lra|].
  unfold Rdiv. rewrite Rmult_assoc, Rinv_l by lra. lra.
Qed.

(** C2 (as amended). In evaluation mode, where the dropout that follows the
    final sigmoid is the identity, every element of the reconstruction lies
    in [0,1], whatever the weights, the latent draw and the condition, also
    through the full model. In training mode the kept elements are scaled by
    1/(1-p) = 1.25 after the sigmoid, and every element lies in [0,1.25]. *)
Theorem C2_reconstruction_bounds
    (encoder_forward : bool -> tensor -> tensor -> Generator -> (tensor * tensor) * Generator)
    (trans_conv3_out : bool -> tensor -> tensor -> Generator -> tensor * Generator)
    (x z c : tensor) (g : Generator) :
  all_within 0 1 (fst (Decoder_forward trans_conv3_out false z c g)) /\
  all_within 0 1
    (fst (fst (fst (CVAE_forward encoder_forward trans_conv3_out false x c g)))) /\
  all_within 0 1.25 (fst (Decoder_forward trans_conv3_out true z c g)).
Proof.
  split; [|split].
  - unfold Decoder_forward. destruct (trans_conv3_out false z c g) as [a g'].
    cbn [Dropout_forward fst]. apply all_within_sigmoid.
  - unfold CVAE_forward.
    destruct (encoder_forward false x c g) as [[mu logvar] g1].
    destruct (reparameterize mu logvar g1) as [z' g2].
    unfold Decoder_forward. destruct (trans_conv3_out false z' c g2) as [a g3].
    cbn [Dropout_forward fst]. apply all_within_sigmoid.
  - unfold Decoder_forward. destruct (trans_conv3_out true z c g) as [a g'].
    cbn [Dropout_forward fst]. apply all_within_dropout, all_within_sigmoid.
Qed.

(** C2 fails as stated: in training mode, with a final transposed
    convolution whose output is 3 everywhere (zero weights, bias 3) and a
    dropout mask that keeps the first element, the first element of the
    reconstruction is sigmoid(3)/0.8 > 1. *)
Lemma C2_training_mode_exceeds_one :
  ~ all_within 0 1
      (fst (Decoder_forward
              (fun _ _ _ g => (repeat 3 (14 * 4500), g)) true
              (zeros 512) [1; 0; 0; 0]
              {| normal_draw := fun _ => 0;
                 keep_draw := fun k => negb (Nat.eqb (k mod 5) 4);
                 consumed := 0 |})).
Proof.
  unfold Decoder_forward, Dropout_forward, all_within. cbn [fst consumed keep_draw].
  destruct (14 * 4500)%nat as [|n] eqn:E; [discriminate E|].
  cbn [repeat tmap map dropout_from]. intros H. apply Forall_inv in H.
  cbn [Nat.modulo Nat.divmod Nat.eqb negb fst snd Nat.sub conv3_dropout p] in H.
  unfold dropout_prob in H. pose proof (sigmoid_large 3). lra.
Qed.

Lemma tmap_nth (f : R -> R) (a : tensor) (i : nat) :
  (i < length a)%nat -> nth i (tmap f a) 0 = f (nth i a 0).
Proof.
  intros Hi. unfold tmap.
  rewrite (nth_indep (map f a) 0 (f 0)) by (now rewrite length_map).
  apply map_nth.
Qed.

Lemma randn_like_length (t : tensor) (g : Generator) :
  length (fst (randn_like t g)) = length t.
Proof. unfold randn_like. cbn [fst]. now rewrite length_map, length_seq. Qed.

Lemma randn_like_nth (t : tensor) (g : Generator) (i : nat) :
  (i < length t)%nat ->
  nth i (fst (randn_like t g)) 0 = normal_draw g (consumed g + i)%nat.
Proof.
  intros Hi. unfold randn_like. cbn [fst].
  rewrite (nth_indep _ 0 (normal_draw g (consumed g + 0)%nat))
    by (now rewrite length_map, length_seq).
  rewrite (map_nth (fun k => normal_draw g (consumed g + k)%nat)), seq_nth by assumption.
  reflexivity.
Qed.

Lemma randn_like_shape (t t' : tensor) (g : Generator) :
  length t = length t' -> randn_like t g = randn_like t' g.
Proof. intros H. unfold randn_like. now rewrite H. Qed.

(** C3. For equally shaped [mu] and [logvar], [reparameterize] returns,
    element by element, mu + exp(0.5 * logvar) * eps, where [eps] is a noise
    tensor of the same shape made of fresh draws of the generator (the draws
    depend neither on [mu] nor on [logvar]); when [logvar] is the zero vector
    the result is mu + eps. That the draws are standard normal is a property
    of the generator, which is a parameter here. *)
Theorem C3_reparameterize (mu logvar : tensor) (g : Generator) :
  length mu = length logvar ->
  let eps := fst (randn_like logvar g) in
  let z := fst (reparameterize mu logvar g) in
  length eps = length mu /\
  (forall i, (i < length mu)%nat -> nth i eps 0 = normal_draw g (consumed g + i)%nat) /\
  length z = length mu /\
  (forall i, (i < length mu)%nat ->
     nth i z 0 = nth i mu 0 + exp (0.5 * nth i logvar 0) * nth i eps 0) /\
  snd (reparameterize mu logvar g) = advance (length mu) g /\
  (logvar = zeros (length mu) -> z = tzip Rplus mu eps).
Proof.
  intros H eps z.
  assert (Heps : length eps = length mu)
    by (unfold eps; rewrite randn_like_length; congruence).
  assert (Hz : z = tzip Rplus mu (tzip Rmult eps (tmap (fun l => exp (0.5 * l)) logvar))).
  { unfold z, reparameterize, eps.
    rewrite (randn_like_shape (tmap _ logvar) logvar) by apply length_map.
    destruct (randn_like logvar g) as [e g']. reflexivity. }
  assert (Hstd : length eps = length (tmap (fun l => exp (0.5 * l)) logvar))
    by (unfold tmap; rewrite length_map; congruence).
  assert (Hlen : length z = length mu).
  { rewrite Hz, tzip_length; [reflexivity|]. rewrite tzip_length; congruence. }
  assert (Hnth : forall i, (i < length mu)%nat ->
            nth i z 0 = nth i mu 0 + exp (0.5 * nth i logvar 0) * nth i eps 0).
  { intros i Hi. rewrite Hz.
    rewrite tzip_nth; [|rewrite tzip_length; congruence|assumption].
    rewrite tzip_nth; [|assumption|lia].
    rewrite tmap_nth by lia. lra. }
  split; [exact Heps|]. split.
  { intros i Hi. apply randn_like_nth. lia. }
  split; [exact Hlen|]. split; [exact Hnth|]. split.
  { unfold reparameterize.
    rewrite (randn_like_shape (tmap _ logvar) logvar) by apply length_map.
    unfold randn_like. cbn [snd]. now rewrite <- H. }
  intros Hzero. apply (nth_ext _ _ 0 0).
  - rewrite Hlen, tzip_length; congruence.
  - intros i Hi. rewrite Hlen in Hi.
    rewrite Hnth, tzip_nth by (assumption || congruence).
    assert (Hl : nth i logvar 0 = 0).
    { rewrite Hzero. unfold zeros. apply nth_repeat. }
    rewrite Hl, Rmult_0_r, exp_0. lra.
Qed.

Lemma C3_reparameterize_witness :
  fst (reparameterize [1; 2] [0; 0]
         {| normal_draw := fun k => INR k; keep_draw := fun _ => true; consumed := 0 |})
  = tzip Rplus [1; 2] [INR 0; INR 1].
Proof.
  destruct (C3_reparameterize [1; 2] [0; 0]
              {| normal_draw := fun k => INR k; keep_draw := fun _ => true;
                 consumed := 0 |} eq_refl) as (_ & _ & _ & _ & _ & H).
  exact (H eq_refl).
Defined.

(** C4. [loss_function] returns the sum of the squared differences over all
    elements of the reconstruction (not their mean) plus
    -0.5 * sum(1 + logvar - mu^2 - exp(logvar)) over all latent elements,
    where 1e-8 is added to every summand; both terms are plain sums, so the
    loss of two batches put together is the sum of their losses. *)
Theorem C4_loss_function_formula (x_recon x mu logvar x_recon' x' mu' logvar' : tensor) :
  length x_recon = length x -> length mu = length logvar ->
  loss_function x_recon x mu logvar
  = big_sum (length x) (fun i => (nth i x_recon 0 - nth i x 0) ^ 2)
    + -0.5 * (big_sum (length mu)
                (fun i => 1 + nth i logvar 0 - nth i mu 0 ^ 2 - exp (nth i logvar 0))
              + INR (length mu) * 1e-8)
  /\ loss_function (x_recon ++ x_recon') (x ++ x') (mu ++ mu') (logvar ++ logvar')
     = loss_function x_recon x mu logvar + loss_function x_recon' x' mu' logvar'.
Proof.
  intros Hx Hm. split.
  - unfold loss_function. rewrite mse_loss_sum_big_sum, KLD_big_sum by assumption. lra.
  - unfold loss_function, mse_loss_sum, KLD, tmap.
    rewrite !map_app.
    rewrite (tzip_app _ x_recon) by assumption.
    rewrite (tzip_app Rminus (map _ logvar)) by (rewrite !length_map; congruence).
    rewrite (tzip_app Rminus (tzip _ _ _))
      by (rewrite tzip_length; rewrite !length_map; congruence).
    rewrite map_app, !tsum_app. lra.
Qed.

Lemma C4_loss_function_formula_witness :
  loss_function ([1; 0] ++ [1; 0]) ([0; 0] ++ [0; 0]) ([0] ++ [0]) ([0] ++ [0])
  = loss_function [1; 0] [0; 0] [0] [0] + loss_function [1; 0] [0; 0] [0] [0].
Proof.
  exact (proj2 (C4_loss_function_formula [1; 0] [0; 0] [0] [0] [1; 0] [0; 0] [0] [0]
                  eq_refl eq_refl)).
Defined.

(** C5 (as amended). With [mu] and [logvar] zero in each of the [n] latent
    elements, the KL term of [loss_function] is -0.5 * n * 1e-8: the closed
    form without the epsilon is 0, and the epsilon added to each of the [n]
    summands remains. *)
Theorem C5_KLD_at_zero (n : nat) :
  KLD (zeros n) (zeros n) = -0.5 * (INR n * 1e-8) /\
  -0.5 * big_sum n (fun i => 1 + nth i (zeros n) 0 - nth i (zeros n) 0 ^ 2
                             - exp (nth i (zeros n) 0)) = 0.
Proof.
  split; [apply KLD_zeros|].
  rewrite (big_sum_ext n _ (fun _ => 0 + 0)).
  - rewrite big_sum_plus_const. unfold big_sum.
    replace (fold_right Rplus 0 (map (fun _ : nat => 0) (seq 0 n))) with 0; [lra|].
    induction (seq 0 n) as [|a l IH]; cbn [map fold_right]; [reflexivity|].
    rewrite <- IH. lra.
  - intros i _. unfold zeros. rewrite nth_repeat, exp_0. lra.
Qed.

(** C5 fails as stated: for the 512 latent elements of the script's model the
    KL term at mu = 0, logvar = 0 is -2.56e-6, not 0. *)
Lemma C5_KLD_at_zero_is_not_zero : KLD (zeros 512) (zeros 512) <> 0.
Proof.
  rewrite KLD_zeros. assert (0 < INR 512) by (apply lt_0_INR; lia). lra.
Qed.





End ModelFacts.

(** ** The data preparation script *)

Section PrepFacts.

Import Prep.
Local Open Scope nat_scope.

(** *** Lists and the store *)

Lemma set_nth_length {A} (l : list A) (i : nat) (x : A) :
  length (set_nth l i x) = length l.
Proof.
  revert i. induction l as [|y l IH]; intros [|i]; cbn [set_nth length]; auto.
Qed.

Lemma nth_set_nth {A} (l : list A) (i : nat) (x d : A) :
  i < length l -> nth i (set_nth l i x) d = x.
Proof.
  revert i. induction l as [|y l IH]; intros [|i] H; cbn in *; try lia; auto.
  apply IH. lia.
Qed.

Lemma update_nth_length {A} (i : nat) (f : A -> A) (l : list A) :
  length (update_nth i f l) = length l.
Proof.
  revert i. induction l as [|y l IH]; intros [|i]; cbn [update_nth length]; auto.
Qed.

Lemma nth_update_nth_other {A} (i j : nat) (f : A -> A) (l : list A) (d : A) :
  i <> j -> nth j (update_nth i f l) d = nth j l d.
Proof.
  revert i j. induction l as [|y l IH]; intros [|i] [|j] H; cbn; auto; try lia.
Qed.

Lemma nth_update_nth_same {A} (i : nat) (f : A -> A) (l : list A) (d : A) :
  i < length l -> nth i (update_nth i f l) d = f (nth i l d).
Proof.
  revert i. induction l as [|y l IH]; intros [|i] H; cbn in *; try lia; auto.
  apply IH. lia.
Qed.

Lemma update_channel_length (i : nat) (f : Q -> Q) (l : list sample) :
  length (update_channel i f l) = length l.
Proof. apply length_map. Qed.

Lemma channel_of_length (i : nat) (l : list sample) :
  length (channel_of i l) = length (concat l).
Proof.
  unfold channel_of. induction l as [|s l IH]; [reflexivity|].
  cbn [flat_map concat]. now rewrite !length_app, length_map, IH.
Qed.

Lemma update_channel_rows (i : nat) (f : Q -> Q) (l : list sample) :
  length (concat (update_channel i f l)) = length (concat l).
Proof.
  unfold update_channel. induction l as [|s l IH]; [reflexivity|].
  cbn [map concat]. now rewrite !length_app, length_map, IH.
Qed.

Lemma channel_of_update_other (i j : nat) (f : Q -> Q) (l : list sample) :
  i <> j -> channel_of j (update_channel i f l) = channel_of j l.
Proof.
  intros H. unfold channel_of, update_channel.
  induction l as [|s l IH]; [reflexivity|].
  cbn [map flat_map]. rewrite IH. f_equal.
  rewrite map_map. apply map_ext. intros r. now apply nth_update_nth_other.
Qed.

Lemma channel_of_update_same (i : nat) (f : Q -> Q) (l : list sample) :
  wide i l -> channel_of i (update_channel i f l) = map f (channel_of i l).
Proof.
  unfold wide, channel_of, update_channel. intros H.
  induction H as [|s l Hs _ IH]; [reflexivity|].
  cbn [map flat_map]. rewrite IH, map_app. f_equal.
  rewrite !map_map. clear IH.
  induction Hs as [|r s Hr _ IHs]; [reflexivity|].
  cbn [map]. f_equal; [|exact IHs]. now apply nth_update_nth_same.
Qed.

Lemma wide_update_channel (i j : nat) (f : Q -> Q) (l : list sample) :
  wide j l -> wide j (update_channel i f l).
Proof.
  unfold wide, update_channel. intros H.
  induction H as [|s l Hs _ IH]; cbn [map]; constructor; [|exact IH].
  induction Hs as [|r s Hr _ IHs]; cbn [map]; constructor; [|exact IHs].
  now rewrite update_nth_length.
Qed.

Lemma read_write (st : list ndarray) (v : view) (new : list sample) :
  valid_view st v -> length new = stop v - start v ->
  read (write st v new) v = with_samples (buffer st v) new.
Proof.
  intros (Hb & Hs & He) Hn. unfold read, write, buffer, with_samples in *.
  rewrite nth_set_nth by assumption. cbn [nT nC samples]. f_equal.
  set (old := samples (nth (base v) st empty_array)) in *.
  rewrite skipn_app, skipn_firstn_comm.
  replace (start v - start v) with 0 by lia. cbn [firstn app].
  rewrite length_firstn. replace (Nat.min (start v) (length old)) with (start v) by lia.
  replace (start v - start v) with 0 by lia. cbn [skipn].
  rewrite firstn_app, <- Hn, firstn_all. replace (length new - length new) with 0 by lia.
  cbn [firstn]. apply app_nil_r.
Qed.

Lemma valid_view_write (st : list ndarray) (v : view) (new : list sample) :
  valid_view st v -> length new = stop v - start v ->
  valid_view (write st v new) v.
Proof.
  intros (Hb & Hs & He) Hn. unfold valid_view, write, buffer in *.
  rewrite set_nth_length, nth_set_nth by assumption. cbn [samples with_samples].
  rewrite !length_app, length_firstn, length_skipn. lia.
Qed.

Lemma read_length (st : list ndarray) (v : view) :
  valid_view st v -> length (samples (read st v)) = stop v - start v.
Proof.
  intros (Hb & Hs & He). unfold read. cbn [with_samples samples].
  rewrite length_firstn, length_skipn. unfold buffer in *. lia.
Qed.

(** *** Statements and loops *)

Lemma bind_ret_tt (m : M unit) (g : Globals) : (m ;; ret tt) g = m g.
Proof.
  unfold bind, ret. destruct (m g) as [[[]|e|] g']; reflexivity.
Qed.

(** A loop over a range whose body completes and carries an invariant from
    each index to the next one completes and establishes the invariant at
    the end of the range. *)
Lemma for_each_invariant (P : nat -> Globals -> Prop) (body : nat -> M unit)
    (n lo : nat) (g : Globals) :
  P lo g ->
  (forall i g1, lo <= i < lo + n -> P i g1 ->
     exists g2, body i g1 = (Normal tt, g2) /\ P (S i) g2) ->
  exists g', for_each (seq lo n) body g = (Normal tt, g') /\ P (lo + n) g'.
Proof.
  revert lo g. induction n as [|n IH]; intros lo g H0 Hstep.
  - exists g. rewrite Nat.add_0_r. split; [reflexivity | assumption].
  - destruct (Hstep lo g) as (g1 & Hb & H1); [lia | assumption |].
    destruct (IH (S lo) g1 H1) as (g' & Hf & H').
    { intros i g2 Hi. apply Hstep. lia. }
    exists g'. split.
    + cbn [seq for_each]. unfold bind. rewrite Hb. exact Hf.
    + replace (lo + S n) with (S lo + n) by lia. exact H'.
Qed.

(** A loop whose body keeps a property of the globals, however it ends,
    keeps it. *)
Lemma for_each_preserves {A} (P : Globals -> Prop) (body : A -> M unit) (l : list A) :
  (forall x g, P g -> P (snd (body x g))) ->
  forall g, P g -> P (snd (for_each l body g)).
Proof.
  intros Hb. induction l as [|x l IH]; intros g Hg; [exact Hg|].
  cbn [for_each]. unfold bind. specialize (Hb x g Hg).
  destruct (body x g) as [[[]|e|] g1]; cbn [snd] in *; auto.
Qed.

Lemma group_eqb_refl (k : group) : group_eqb k k = true.
Proof. destruct k; reflexivity. Qed.

Lemma group_eqb_eq (k k' : group) : group_eqb k k' = true <-> k = k'.
Proof. destruct k, k'; cbn; split; congruence. Qed.

Lemma in_group_group_of (i : nat) (k : group) : in_group k i = true <-> k = group_of i.
Proof.
  unfold group_of, in_IGBT, in_FLUX, in_CAP.
  destruct k; cbn [in_group]; unfold in_IGBT, in_FLUX, in_CAP, in_MOD;
    destruct (0 <=? i) eqn:E0, (i <=? 5) eqn:E5, (6 <=? i) eqn:E6, (i <=? 8) eqn:E8,
      (9 <=? i) eqn:E9, (i <=? 10) eqn:E10, (11 <=? i) eqn:E11; cbn [andb];
    try (split; congruence);
    repeat match goal with
      | H : (_ <=? _) = true |- _ => apply Nat.leb_le in H
      | H : (_ <=? _) = false |- _ => apply Nat.leb_gt in H
      end; lia.
Qed.

(** The four [if] statements of a scaling loop run the branch of exactly
    one group. *)
Lemma when_chain (op : group -> M unit) (i : nat) (g : Globals) :
  (when (in_IGBT i) (op IGBT) ;; when (in_FLUX i) (op FLUX) ;;
   when (in_CAP i) (op CAP) ;; when (in_MOD i) (op MOD)) g
  = op (group_of i) g.
Proof.
  pose proof (in_group_group_of i) as H.
  pose proof (proj2 (H (group_of i)) eq_refl) as Hk.
  destruct (group_of i) eqn:E; cbn [in_group] in Hk.
  - rewrite Hk.
    destruct (in_FLUX i) eqn:E1; [pose proof (proj1 (H FLUX) E1); discriminate|].
    destruct (in_CAP i) eqn:E2; [pose proof (proj1 (H CAP) E2); discriminate|].
    destruct (in_MOD i) eqn:E3; [pose proof (proj1 (H MOD) E3); discriminate|].
    cbn [when]. unfold bind at 2 3. cbn [ret]. apply bind_ret_tt.
  - rewrite Hk.
    destruct (in_IGBT i) eqn:E1; [pose proof (proj1 (H IGBT) E1); discriminate|].
    destruct (in_CAP i) eqn:E2; [pose proof (proj1 (H CAP) E2); discriminate|].
    destruct (in_MOD i) eqn:E3; [pose proof (proj1 (H MOD) E3); discriminate|].
    cbn [when]. unfold bind at 1 3. cbn [ret]. apply bind_ret_tt.
  - rewrite Hk.
    destruct (in_IGBT i) eqn:E1; [pose proof (proj1 (H IGBT) E1); discriminate|].
    destruct (in_FLUX i) eqn:E2; [pose proof (proj1 (H FLUX) E2); discriminate|].
    destruct (in_MOD i) eqn:E3; [pose proof (proj1 (H MOD) E3); discriminate|].
    cbn [when]. unfold bind at 1 2. cbn [ret]. apply bind_ret_tt.
  - rewrite Hk.
    destruct (in_IGBT i) eqn:E1; [pose proof (proj1 (H IGBT) E1); discriminate|].
    destruct (in_FLUX i) eqn:E2; [pose proof (proj1 (H FLUX) E2); discriminate|].
    destruct (in_CAP i) eqn:E3; [pose proof (proj1 (H CAP) E3); discriminate|].
    cbn [when]. unfold bind. cbn [ret]. reflexivity.
Qed.

Lemma minmax_body_group (arr : Globals -> view) (i : nat) (g : Globals) :
  minmax_body arr i g = fit_transform_channel (group_of i) arr i g.
Proof. apply (when_chain (fun k => fit_transform_channel k arr i)). Qed.

Lemma transform_body_group (i : nat) (g : Globals) :
  transform_body i g = transform_channel (group_of i) data_test i g.
Proof. apply (when_chain (fun k => transform_channel k data_test i)). Qed.

(** C8. The four index ranges of the scaling loops, 0-5, 6-8, 9-10 and 11
    and above, are pairwise disjoint and cover every index: each loop index
    lies in exactly one group, so the loop body scales channel [i] with
    exactly one group scaler, that of its group; on the 14-channel axis the
    groups are the six IGBT, three flux, two capacitor and three modulator
    channels. *)
Theorem C8_channel_groups_partition (i : nat) :
  (exists k, in_group k i = true /\ forall k', in_group k' i = true -> k' = k) /\
  (forall arr g, minmax_body arr i g = fit_transform_channel (group_of i) arr i g) /\
  (forall g, transform_body i g = transform_channel (group_of i) data_test i g) /\
  length (features initial) = 14 /\
  filter in_IGBT (range 0 14) = [0; 1; 2; 3; 4; 5] /\
  filter in_FLUX (range 0 14) = [6; 7; 8] /\
  filter in_CAP (range 0 14) = [9; 10] /\
  filter in_MOD (range 0 14) = [11; 12; 13].
Proof.
  split.
  { exists (group_of i). split.
    - now apply in_group_group_of.
    - intros k' Hk'. now apply in_group_group_of. }
  split; [intros arr g; apply minmax_body_group|].
  split; [intros g; apply transform_body_group|].
  repeat split; reflexivity.
Qed.

(** *** Reachability *)

Lemma prefix_append (s t : string) : String.prefix s (String.append s t) = true.
Proof.
  induction s as [|a s IH]; [destruct t; reflexivity|].
  cbn [String.append String.prefix]. destruct (Ascii.ascii_dec a a); [exact IH | congruence].
Qed.

Lemma keeps_bind {A B} (m : M A) (k : A -> M B) :
  keeps m -> (forall a, keeps (k a)) -> keeps (x <- m ;; k x).
Proof.
  intros Hm Hk g Hg. unfold bind. specialize (Hm g Hg).
  destruct (m g) as [[a|e|] g1]; cbn [snd] in *; auto. now apply Hk.
Qed.

Lemma keeps_for_each {A} (l : list A) (body : A -> M unit) :
  (forall x, keeps (body x)) -> keeps (for_each l body).
Proof.
  intros H g Hg. revert g Hg.
  apply (for_each_preserves nothing_after_exit). exact H.
Qed.

Lemma keeps_ret {A} (a : A) : keeps (ret a).
Proof. intros g H. exact H. Qed.

Lemma keeps_raise {A} (e : exn) : keeps (@raise A e).
Proof. intros g H. exact H. Qed.

Lemma keeps_gets {A} (f : Globals -> A) : keeps (gets f).
Proof. intros g H. exact H. Qed.

Lemma keeps_lift {A} (e : exn) (o : option A) : keeps (lift e o).
Proof. destruct o; [apply keeps_ret | apply keeps_raise]. Qed.

Lemma keeps_modify (f : Globals -> Globals) :
  (forall g, nothing_after_exit g -> nothing_after_exit (f g)) -> keeps (modify f).
Proof. intros H g Hg. apply H, Hg. Qed.

Lemma keeps_alloc (a : ndarray) : keeps (alloc a).
Proof. intros g H. exact H. Qed.

Lemma keeps_savefig_avg (f : string) :
  keeps (plt_savefig (String.append "./figure/wave_scale/RFQ_AVG/" (String.append f ".png"))).
Proof.
  apply keeps_modify. intros g (H1 & H2 & H3 & H4 & H5 & H6 & H7 & H8).
  repeat split; try assumption.
  cbn [saved set_saved]. apply Forall_app. split; [exact H8|].
  constructor; [|constructor]. apply prefix_append.
Qed.

Ltac keeps_step :=
  lazymatch goal with
  | |- keeps (bind _ _) => apply keeps_bind; [|intros ?]
  | |- keeps (for_each _ _) => apply keeps_for_each; intros ?
  | |- keeps (ret _) => apply keeps_ret
  | |- keeps (raise _) => apply keeps_raise
  | |- keeps (gets _) => apply keeps_gets
  | |- keeps (lift _ _) => apply keeps_lift
  | |- keeps (alloc _) => apply keeps_alloc
  | |- keeps (plt_savefig _) => apply keeps_savefig_avg
  | |- keeps (modify _) =>
      apply keeps_modify; intros ? (? & ? & ? & ? & ? & ? & ? & ?);
      unfold nothing_after_exit; cbn; repeat split; intros; trivial
  | |- keeps (if ?c then _ else _) => destruct c
  | |- keeps (match ?x with _ => _ end) => destruct x
  end.

Lemma keeps_before_exit (fs : Files) : keeps (before_exit fs).
Proof.
  unfold before_exit, before_avg, each_system, stmt_load, stmt_labels, stmt_indices,
    stmt_split_X, stmt_split_Y, stmt_concat_all, stmt_one_hot, stmt_scalers,
    stmt_concat_524, stmt_avg_init, stmt_avg_loops, stmt_avg_plot, stmt_plot_avg,
    load_data, create_labels, assign, label_column, take_samples, take_rows,
    concatenate, normal_labels, np_array, np_zeros_like, channel, iadd_sample,
    map_channel, first_sample, load, store_samples, plt_figure, plt_plot, feature,
    rename_feature, rename_if.
  repeat keeps_step.
Qed.

(** *** The scaling loops *)

Lemma MinMax_fit_params_nonempty (col : list Q) :
  col <> [] -> exists p, MinMax_fit_params col = Some p.
Proof. destruct col as [|x l]; [congruence|]. intros _. eexists. reflexivity. Qed.

Section ScalingLoop.

(** The array variable a loop scales: [Xnormal_concat], [Xnormal_concat_tmp]
    or [data_test]; assigning to the store or to a scaler does not rebind
    it. *)
Variable arr : Globals -> view.
Hypothesis arr_store : forall st g, arr (set_store st g) = arr g.
Hypothesis arr_scaler : forall f g, arr (set_scaler_of f g) = arr g.

Lemma fit_transform_channel_run (k : group) (i : nat) (g : Globals) (p : MinMaxParams) :
  valid_view (store g) (arr g) ->
  i < nC (read (store g) (arr g)) ->
  MinMax_fit_params (channel_of i (samples (read (store g) (arr g)))) = Some p ->
  exists g',
    fit_transform_channel k arr i g = (Normal tt, g') /\
    store g' = write (store g) (arr g)
                 (update_channel i (MinMax_transform1 p)
                    (samples (read (store g) (arr g)))) /\
    arr g' = arr g /\ features g' = features g /\
    (forall k', scaler_of g' k'
                = if group_eqb k' k
                  then {| mm_params := Some p;
                          mm_fit_calls := S (mm_fit_calls (scaler_of g k)) |}
                  else scaler_of g k').
Proof.
  intros Hv Hi Hp.
  unfold fit_transform_channel, channel, MinMaxScaler_fit_transform, MinMaxScaler_fit,
    MinMaxScaler_transform, map_channel, store_samples, load, update_scaler.
  unfold bind, gets, modify, ret.
  apply Nat.ltb_lt in Hi. rewrite Hi. cbn [store set_scaler_of].
  rewrite Hp. cbn [lift ret scaler_of set_scaler_of store].
  rewrite !group_eqb_refl. cbn [mm_params lift ret mm_fit_calls].
  destruct (channel_of i (samples (read (store g) (arr g)))) as [|x col] eqn:Ecol;
    [discriminate Hp|].
  cbn [store set_scaler_of]. rewrite Hi.
  eexists. split; [reflexivity|].
  cbn [store set_store features set_scaler_of scaler_of].
  rewrite arr_store, !arr_scaler.
  repeat split. intros k'. destruct (group_eqb k' k); reflexivity.
Qed.

Lemma with_samples_same_shape (b a : ndarray) (l l' new : list sample) :
  with_samples b l = with_samples a l' -> with_samples b new = with_samples a new.
Proof. unfold with_samples. intros H. injection H as H1 H2 _. now rewrite H1, H2. Qed.

Lemma refit_upto_S (l0 : list sample) (k : group) (sc : MinMaxScaler) (m : nat) :
  refit_upto l0 k sc (S m)
  = if in_group k m
    then {| mm_params := MinMax_fit_params (channel_of m l0);
            mm_fit_calls := S (mm_fit_calls (refit_upto l0 k sc m)) |}
    else refit_upto l0 k sc m.
Proof.
  unfold refit_upto, range. rewrite !Nat.sub_0_r, seq_S, fold_left_app. reflexivity.
Qed.

Lemma refit_upto_14 (l0 : list sample) (k : group) (sc : MinMaxScaler) :
  refit_upto l0 k sc 14
  = {| mm_params := MinMax_fit_params (channel_of (last_channel k) l0);
       mm_fit_calls := group_size k + mm_fit_calls sc |}.
Proof. destruct k; reflexivity. Qed.

Lemma minmax_loop_run (g : Globals) :
  length (features g) = 14 ->
  valid_view (store g) (arr g) ->
  14 <= nC (read (store g) (arr g)) ->
  concat (samples (read (store g) (arr g))) <> [] ->
  exists g',
    minmax_loop arr g = (Normal tt, g') /\
    forall k,
      scaler_of g' k
      = {| mm_params :=
             MinMax_fit_params
               (channel_of (last_channel k) (samples (read (store g) (arr g))));
           mm_fit_calls := group_size k + mm_fit_calls (scaler_of g k) |}.
Proof.
  intros Hf Hv Hc Hne. remember (read (store g) (arr g)) as a0 eqn:Ea0.
  destruct (for_each_invariant (minmax_inv arr g a0) (minmax_body arr) 14 0 g)
    as (g' & Hrun & Hinv).
  - split; [reflexivity|]. split; [reflexivity|]. split; [assumption|]. split.
    + exists (samples a0). split; [|split; [reflexivity|intros; reflexivity]].
      rewrite <- Ea0. unfold with_samples. now destruct a0.
    + intros k. reflexivity.
  - intros i g1 Hi (H1 & H2 & H3 & (l & Hl & Hrows & Hchan) & Hsc).
    assert (Hnc : i < nC (read (store g1) (arr g1))) by (rewrite Hl; cbn; lia).
    destruct (MinMax_fit_params_nonempty (channel_of i (samples a0))) as (p & Hp).
    { intros E. apply Hne. apply length_zero_iff_nil.
      rewrite <- (channel_of_length i), E. reflexivity. }
    assert (Hp1 : MinMax_fit_params
                    (channel_of i (samples (read (store g1) (arr g1)))) = Some p).
    { rewrite Hl. cbn [samples with_samples]. rewrite Hchan by lia. exact Hp. }
    destruct (fit_transform_channel_run (group_of i) i g1 p H3 Hnc Hp1)
      as (g2 & Hrun & Hst & Harr & Hfeat & Hscal).
    exists g2. split; [rewrite minmax_body_group; exact Hrun|].
    assert (Hlen : length (update_channel i (MinMax_transform1 p)
                             (samples (read (store g1) (arr g1))))
                   = stop (arr g1) - start (arr g1))
      by (rewrite update_channel_length; now apply read_length).
    split; [congruence|]. split; [congruence|].
    split; [rewrite Hst, Harr; now apply valid_view_write|]. split.
    + exists (update_channel i (MinMax_transform1 p) l).
      rewrite Hst, Harr, read_write by assumption.
      rewrite Hl in *. cbn [samples with_samples] in *. split; [|split].
      * unfold read in Hl. now apply (with_samples_same_shape _ _ _ _ _ Hl).
      * now rewrite update_channel_rows.
      * intros j Hj. rewrite channel_of_update_other by lia. apply Hchan. lia.
    + intros k. rewrite Hscal, refit_upto_S, !Hsc.
      destruct (group_eqb k (group_of i)) eqn:E.
      * apply group_eqb_eq in E. subst k.
        rewrite (proj2 (in_group_group_of i (group_of i)) eq_refl). now rewrite Hp.
      * destruct (in_group k i) eqn:E'; [|reflexivity].
        apply in_group_group_of in E'. subst k. now rewrite group_eqb_refl in E.
  - exists g'. split.
    + unfold minmax_loop, bind, gets. rewrite Hf. exact Hrun.
    + intros k. destruct Hinv as (_ & _ & _ & _ & Hsc).
      rewrite Hsc. apply refit_upto_14.
Qed.

End ScalingLoop.

Lemma rectangular_wide (a : ndarray) (i : nat) :
  rectangular a -> i < nC a -> wide i (samples a).
Proof.
  unfold rectangular, wide. intros H Hi.
  eapply Forall_impl; [|exact H]. intros s (_ & Hs).
  eapply Forall_impl; [|exact Hs]. intros r Hr. cbn beta in Hr. lia.
Qed.

Lemma wide_le (i j : nat) (l : list sample) : j <= i -> wide i l -> wide j l.
Proof.
  unfold wide. intros Hij H.
  eapply Forall_impl; [|exact H]. intros s Hs.
  eapply Forall_impl; [|exact Hs]. intros r Hr. cbn beta in Hr. lia.
Qed.

Lemma transform_channel_run (k : group) (i : nat) (g : Globals) (p : MinMaxParams) :
  i < nC (read (store g) (data_test g)) ->
  channel_of i (samples (read (store g) (data_test g))) <> [] ->
  mm_params (scaler_of g k) = Some p ->
  transform_channel k data_test i g
  = (Normal tt,
     set_store
       (write (store g) (data_test g)
          (update_channel i (MinMax_transform1 p)
             (samples (read (store g) (data_test g))))) g).
Proof.
  intros Hi Hne Hp.
  unfold transform_channel, channel, MinMaxScaler_transform, map_channel, store_samples,
    load.
  unfold bind, gets, modify, ret.
  apply Nat.ltb_lt in Hi. rewrite Hi, Hp. cbn [lift ret].
  destruct (channel_of i (samples (read (store g) (data_test g)))) as [|x col];
    [congruence|].
  rewrite Hi. reflexivity.
Qed.

Lemma transform_loop_run (g : Globals) (p : group -> MinMaxParams) :
  length (features g) = 14 ->
  valid_view (store g) (data_test g) ->
  rectangular (read (store g) (data_test g)) ->
  14 <= nC (read (store g) (data_test g)) ->
  concat (samples (read (store g) (data_test g))) <> [] ->
  (forall k, mm_params (scaler_of g k) = Some (p k)) ->
  exists g',
    transform_loop g = (Normal tt, g') /\
    scaler_of g' = scaler_of g /\
    forall i, i < 14 ->
      channel_of i (samples (read (store g') (data_test g')))
      = map (MinMax_transform1 (p (group_of i)))
          (channel_of i (samples (read (store g) (data_test g)))).
Proof.
  intros Hf Hv Hrect Hc Hne Hp. remember (read (store g) (data_test g)) as a0 eqn:Ea0.
  destruct (for_each_invariant (transform_inv g a0 p) transform_body 14 0 g)
    as (g' & Hrun & Hinv).
  - split; [reflexivity|]. split; [reflexivity|]. split; [reflexivity|].
    split; [assumption|].
    exists (samples a0). split; [|split; [|split; [reflexivity|split]]].
    + rewrite <- Ea0. unfold with_samples. now destruct a0.
    + apply rectangular_wide; [assumption | lia].
    + intros; reflexivity.
    + intros j Hj. lia.
  - intros i g1 Hi (H1 & H2 & H3 & H4 & l & Hl & Hw & Hrows & Hchan & Hdone).
    assert (Hnc : i < nC (read (store g1) (data_test g1))) by (rewrite Hl; cbn; lia).
    assert (Hcol : channel_of i (samples (read (store g1) (data_test g1))) <> []).
    { rewrite Hl. cbn [samples with_samples]. intros E. apply Hne.
      apply length_zero_iff_nil. rewrite <- Hrows, <- (channel_of_length i), E.
      reflexivity. }
    assert (Hpk : mm_params (scaler_of g1 (group_of i)) = Some (p (group_of i)))
      by (rewrite H3; apply Hp).
    eexists. split.
    { rewrite transform_body_group.
      exact (transform_channel_run _ _ _ _ Hnc Hcol Hpk). }
    assert (Hlen : length (update_channel i (MinMax_transform1 (p (group_of i)))
                             (samples (read (store g1) (data_test g1))))
                   = stop (data_test g1) - start (data_test g1))
      by (rewrite update_channel_length; now apply read_length).
    split; [exact H1|]. split; [exact H2|]. split; [exact H3|].
    cbn [store set_store data_test].
    split; [now apply valid_view_write|].
    exists (update_channel i (MinMax_transform1 (p (group_of i))) l).
    rewrite read_write by assumption.
    rewrite Hl in *. cbn [samples with_samples] in *.
    split; [|split; [|split; [|split]]].
    + unfold read in Hl. now apply (with_samples_same_shape _ _ _ _ _ Hl).
    + now apply wide_update_channel.
    + now rewrite update_channel_rows.
    + intros j Hj. rewrite channel_of_update_other by lia. apply Hchan. lia.
    + intros j Hj. destruct (Nat.eq_dec j i) as [->|Hji].
      * rewrite channel_of_update_same by (apply (wide_le 13); [lia | assumption]).
        now rewrite Hchan by lia.
      * rewrite channel_of_update_other by lia. apply Hdone. lia.
  - exists g'. destruct Hinv as (_ & _ & Hsc & _ & l & Hl & _ & _ & _ & Hdone).
    split; [|split].
    + unfold transform_loop, bind, gets. rewrite Hf. exact Hrun.
    + exact Hsc.
    + intros i Hi. rewrite Hl. cbn [samples with_samples]. apply Hdone. lia.
Qed.

(** C7 (as amended). A group scaler is not fitted once: every iteration of a
    min-max loop calls [fit_transform] on the scaler of the channel's group,
    so one pass of a loop over [Xnormal_concat] (lines 307-315 and 412-420)
    or over [Xnormal_concat_tmp] (lines 319-327) fits the IGBT, flux,
    capacitor and modulator scalers 6, 3, 2 and 3 times, each fit on one
    channel of the array and each replacing the parameters of the fit before;
    after the loop a scaler holds the parameters of the last channel of its
    group. The loop over [data_test] only transforms: the scaler objects are
    the same after it, and every channel of [data_test] has been mapped with
    the parameters its group's scaler held. *)
Theorem C7_scalers_refit_per_channel_transform_only
    (arr : Globals -> view) (g h : Globals) (p : group -> MinMaxParams) :
  arr = Xnormal_concat \/ arr = Xnormal_concat_tmp ->
  length (features g) = 14 ->
  valid_view (store g) (arr g) ->
  14 <= nC (read (store g) (arr g)) ->
  concat (samples (read (store g) (arr g))) <> [] ->
  length (features h) = 14 ->
  valid_view (store h) (data_test h) ->
  rectangular (read (store h) (data_test h)) ->
  14 <= nC (read (store h) (data_test h)) ->
  concat (samples (read (store h) (data_test h))) <> [] ->
  (forall k, mm_params (scaler_of h k) = Some (p k)) ->
  (exists g',
     minmax_loop arr g = (Normal tt, g') /\
     forall k,
       scaler_of g' k
       = {| mm_params :=
              MinMax_fit_params
                (channel_of (last_channel k) (samples (read (store g) (arr g))));
            mm_fit_calls := group_size k + mm_fit_calls (scaler_of g k) |}) /\
  (group_size IGBT = 6 /\ group_size FLUX = 3 /\ group_size CAP = 2 /\
   group_size MOD = 3) /\
  (exists h',
     transform_loop h = (Normal tt, h') /\
     scaler_of h' = scaler_of h /\
     forall i, i < 14 ->
       channel_of i (samples (read (store h') (data_test h')))
       = map (MinMax_transform1 (p (group_of i)))
           (channel_of i (samples (read (store h) (data_test h))))).
Proof.
  intros Harr Hf Hv Hc Hne Hf' Hv' Hr' Hc' Hne' Hp.
  split; [|split].
  - destruct Harr; subst arr; apply minmax_loop_run; try assumption; reflexivity.
  - repeat split; reflexivity.
  - now apply transform_loop_run.
Qed.

Lemma C7_scalers_refit_per_channel_transform_only_witness :
  exists h',
    transform_loop example_test_globals = (Normal tt, h') /\
    scaler_of h' = scaler_of example_test_globals.
Proof.
  destruct (C7_scalers_refit_per_channel_transform_only Xnormal_concat
              example_globals example_test_globals (params_of example_test_globals))
    as (_ & _ & h' & Hrun & Hsc & _).
  - left. reflexivity.
  - reflexivity.
  - vm_compute. lia.
  - vm_compute. lia.
  - vm_compute. discriminate.
  - reflexivity.
  - vm_compute. lia.
  - vm_compute. repeat constructor.
  - vm_compute. lia.
  - vm_compute. discriminate.
  - intros k. destruct k; vm_compute; reflexivity.
  - exists h'. split; assumption.
Defined.

(** C7 fails as stated: one pass of the loop of lines 307-315 over an array
    of three samples fits the four scalers 6, 3, 2 and 3 times, not once,
    and leaves in the IGBT scaler the minimum of channel 5 alone (6), not
    that of a fit on the six IGBT channels (1). *)
Lemma C7_scalers_are_refit :
  let g' := snd (minmax_loop Xnormal_concat example_globals) in
  fst (minmax_loop Xnormal_concat example_globals) = Normal tt /\
  map (fun k => mm_fit_calls (scaler_of g' k)) [IGBT; FLUX; CAP; MOD] = [6; 3; 2; 3] /\
  mm_fit_calls (scaler_IGBT g') <> 1 /\
  option_map data_min_ (mm_params (scaler_IGBT g')) = Some 6%Q /\
  option_map data_min_
    (MinMax_fit_params
       (flat_map
          (fun i => channel_of i (samples (read (store example_globals)
                                             (Xnormal_concat example_globals))))
          [0; 1; 2; 3; 4; 5])) = Some 1%Q.
Proof.
  vm_compute. repeat split; try reflexivity; discriminate.
Qed.

(** *** The averaging loops and the view they write through *)

Lemma slice_first (v : view) :
  start v < stop v ->
  slice v 0 1 = {| base := base v; start := start v; stop := S (start v) |}.
Proof.
  intros H. unfold slice. f_equal; lia.
Qed.

Lemma read_slice_first (st : list ndarray) (v : view) :
  valid_view st v -> start v < stop v ->
  read st (slice v 0 1) = with_samples (buffer st v) (firstn 1 (samples (read st v))).
Proof.
  intros (Hb & Hs & He) Hlt. rewrite slice_first by assumption.
  unfold read, buffer. cbn [base start stop with_samples samples].
  rewrite firstn_firstn. f_equal. f_equal; lia.
Qed.

Lemma write_slice_first (st : list ndarray) (v : view) (new : sample) :
  valid_view st v -> start v < stop v ->
  valid_view (write st (slice v 0 1) [new]) v /\
  read (write st (slice v 0 1) [new]) v
  = with_samples (buffer st v) (new :: skipn 1 (samples (read st v))).
Proof.
  intros (Hb & Hs & He) Hlt. rewrite slice_first by assumption.
  unfold valid_view, read, write, buffer in *.
  cbn [base start stop with_samples samples nT nC].
  rewrite set_nth_length, nth_set_nth by assumption.
  cbn [samples nT nC with_samples].
  set (old := samples (nth (base v) st empty_array)) in *.
  split.
  - rewrite !length_app, length_firstn, length_skipn. cbn [length]. lia.
  - unfold with_samples. cbn [nT nC samples]. f_equal. fold old.
    rewrite skipn_app, length_firstn.
    replace (Nat.min (start v) (length old)) with (start v) by lia.
    rewrite skipn_firstn_comm, Nat.sub_diag.
    change (firstn 0 (skipn (start v) old)) with (@nil sample).
    change (skipn 0 ([new] ++ skipn (S (start v)) old))
      with (new :: skipn (S (start v)) old).
    rewrite app_nil_l.
    destruct (stop v - start v) as [|n] eqn:En; [lia|].
    rewrite firstn_cons, (skipn_firstn_comm 1 (S n)), skipn_skipn.
    replace (S n - 1) with n by lia. reflexivity.
Qed.

Lemma firstn_S_nth_error {A} (l : list A) (k : nat) (x : A) :
  nth_error l k = Some x -> firstn (S k) l = firstn k l ++ [x].
Proof.
  revert k. induction l as [|y l IH]; intros [|k] H; try discriminate.
  - injection H as ->. reflexivity.
  - cbn [firstn app]. f_equal. now apply IH.
Qed.

(** The averaging loops (lines 265-268), whatever the data: they complete
    when [Xnormal_RFQ] has at least 524 samples of at least 14 channels, and
    because [avg_RFQ_Xnormal] is a view of its first sample they leave the
    average in [Xnormal_RFQ[0]] and the other samples as they were. *)
Lemma stmt_avg_loops_run (g : Globals) :
  valid_view (store g) (Xnormal_RFQ g) ->
  524 <= length (samples (read (store g) (Xnormal_RFQ g))) ->
  14 <= nC (read (store g) (Xnormal_RFQ g)) ->
  avg_RFQ_Xnormal g = slice (Xnormal_RFQ g) 0 1 ->
  exists g',
    stmt_avg_loops g = (Normal tt, g') /\
    Xnormal_RFQ g' = Xnormal_RFQ g /\
    samples (read (store g') (Xnormal_RFQ g'))
    = averaged (samples (read (store g) (Xnormal_RFQ g)))
      :: skipn 1 (samples (read (store g) (Xnormal_RFQ g))).
Proof.
  intros Hv Hlen Hc Havg.
  remember (read (store g) (Xnormal_RFQ g)) as a0 eqn:Ea0.
  assert (Hlt : start (Xnormal_RFQ g) < stop (Xnormal_RFQ g)).
  { pose proof (read_length _ _ Hv) as E. rewrite <- Ea0 in E. lia. }
  destruct (samples a0) as [|x0 tl] eqn:El0; [cbn in Hlen; lia|].
  cbn [length] in Hlen.
  set (acc := fun m => fold_left add_sample (firstn (m - 1) tl) x0).
  set (P := fun (cur : nat -> sample) (m : nat) (g1 : Globals) =>
              Xnormal_RFQ g1 = Xnormal_RFQ g /\
              avg_RFQ_Xnormal g1 = slice (Xnormal_RFQ g) 0 1 /\
              valid_view (store g1) (Xnormal_RFQ g) /\
              read (store g1) (Xnormal_RFQ g) = with_samples a0 (cur m :: tl)).
  (* the accumulation *)
  destruct (for_each_invariant (P acc)
              (fun i => avg <- gets avg_RFQ_Xnormal ;; xr <- gets Xnormal_RFQ ;;
                        iadd_sample avg xr i) 523 1 g) as (g1 & Hrun1 & H1).
  { unfold P, acc. cbn [Nat.sub firstn fold_left].
    split; [reflexivity|]. split; [assumption|]. split; [assumption|].
    rewrite <- Ea0, <- El0. unfold with_samples. now destruct a0. }
  { intros i g1 Hi (Hx & Ha & Hv1 & Hr).
    destruct (nth_error tl (i - 1)) as [s|] eqn:Es;
      [|apply nth_error_None in Es; lia].
    destruct (write_slice_first (store g1) (Xnormal_RFQ g) (add_sample (acc i) s)
                Hv1 Hlt) as (Hv2 & Hr2).
    eexists. split.
    - unfold iadd_sample, load, store_samples. unfold bind, gets, modify.
      cbv beta iota. rewrite Ha, Hx, Hr. cbn [samples with_samples].
      replace (nth_error (acc i :: tl) i) with (Some s)
        by (destruct i as [|i]; [lia|]; cbn [nth_error]; rewrite <- Es; f_equal; lia).
      cbn [lift]. unfold ret. cbv beta iota.
      rewrite read_slice_first, Hr by assumption.
      cbn [samples with_samples firstn map]. reflexivity.
    - unfold P. cbn [Xnormal_RFQ RFQ avg_RFQ_Xnormal store set_store].
      fold (Xnormal_RFQ g1). split; [exact Hx|]. split; [exact Ha|].
      split; [exact Hv2|]. rewrite Hr2, Hr. cbn [samples with_samples skipn].
      unfold read in Hr. rewrite (with_samples_same_shape _ _ _ _ _ Hr).
      f_equal. f_equal. unfold acc.
      replace (S i - 1) with (S (i - 1)) by lia.
      rewrite (firstn_S_nth_error _ _ _ Es), fold_left_app. reflexivity. }
  (* the division, channel by channel *)
  set (div := fun m => fold_left (fun s i => map (update_nth i (fun x => (x / 524)%Q)) s)
                         (range 0 m) (acc 524)).
  destruct (for_each_invariant (P div)
              (fun i => avg <- gets avg_RFQ_Xnormal ;;
                        map_channel avg i (fun x => (x / 524)%Q)) 14 0 g1)
    as (g2 & Hrun2 & H2).
  { exact H1. }
  { intros i g2 Hi (Hx & Ha & Hv1 & Hr).
    destruct (write_slice_first (store g2) (Xnormal_RFQ g)
                (map (update_nth i (fun x => (x / 524)%Q)) (div i)) Hv1 Hlt)
      as (Hv2 & Hr2).
    assert (HnC : nC (buffer (store g2) (Xnormal_RFQ g)) = nC a0)
      by exact (f_equal nC Hr).
    assert (Hnc : (i <? nC (buffer (store g2) (Xnormal_RFQ g))) = true)
      by (apply Nat.ltb_lt; lia).
    eexists. split.
    - unfold map_channel, load, store_samples. unfold bind, gets, modify.
      cbv beta iota. rewrite Ha, read_slice_first, Hr by assumption.
      cbn [samples with_samples firstn nC]. rewrite Hnc.
      cbn [update_channel map]. reflexivity.
    - unfold P. cbn [Xnormal_RFQ RFQ avg_RFQ_Xnormal store set_store].
      fold (Xnormal_RFQ g2). split; [exact Hx|]. split; [exact Ha|].
      split; [exact Hv2|]. refine (eq_trans Hr2 _). rewrite Hr.
      cbn [samples with_samples skipn].
      unfold read in Hr. rewrite (with_samples_same_shape _ _ _ _ _ Hr).
      f_equal. f_equal. unfold div, range.
      rewrite !Nat.sub_0_r, seq_S, fold_left_app. reflexivity. }
  destruct H2 as (Hx & _ & _ & Hr).
  exists g2. split; [|split].
  - unfold stmt_avg_loops. unfold bind at 1. change (range 1 524) with (seq 1 523).
    rewrite Hrun1. change (range 0 14) with (seq 0 14). exact Hrun2.
  - exact Hx.
  - rewrite Hx, Hr. cbn [samples with_samples skipn nth]. reflexivity.
Qed.

(** C9, on the example data set: the averaging loops run through a view of
    [Xnormal_RFQ], so the first sample of [Xnormal_RFQ], which was the first
    normal sample of the file (1 in channel 0) when split from [X1], holds
    the average of the first 524 normal samples (262.5 in channel 0)
    afterwards. *)
Theorem C9_averaging_overwrites_first_sample :
  let r1 := before_avg example_files initial in
  let r2 := stmt_avg_loops (snd r1) in
  fst r1 = Normal tt /\ fst r2 = Normal tt /\
  avg_RFQ_Xnormal (snd r1) = slice (Xnormal_RFQ (snd r1)) 0 1 /\
  Xnormal_RFQ (snd r2) = Xnormal_RFQ (snd r1) /\
  nth 0 (samples (read (store (snd r1)) (Xnormal_RFQ (snd r1)))) [] = example_sample 1 /\
  nth 0 (samples (read (store (snd r2)) (Xnormal_RFQ (snd r2)))) []
  = repeat (map (fun c => (137550 * Z.of_nat (c + 1) # 524)%Q) (seq 0 14)) 2 /\
  skipn 1 (samples (read (store (snd r2)) (Xnormal_RFQ (snd r2))))
  = skipn 1 (samples (read (store (snd r1)) (Xnormal_RFQ (snd r1)))).
Proof.
  vm_compute. repeat split; reflexivity.
Qed.

Lemma nothing_after_exit_initial : nothing_after_exit initial.
Proof.
  unfold nothing_after_exit. cbn. repeat split; try reflexivity. constructor.
Qed.

(** C10. Whatever the files hold, a run of the script from the first
    statement ends at the first [exit()], or earlier with the exception it
    raised there: it never completes, it is the run of the statements before
    that [exit()], and in the globals it ends with no scaler has been fitted,
    [data_test] is unbound, no model was built, no checkpoint was read and
    nothing was reconstructed; the only figures written are those of the
    averaged RFQ signal. *)
Theorem C10_execution_stops_at_first_exit
    (sqrtQ : Q -> Q) (network_output : ndarray -> sample) (fs : Files) :
  let run := plot_py sqrtQ network_output fs initial in
  run = (before_exit fs ;; exit) initial /\
  snd run = snd (before_exit fs initial) /\
  fst run = match fst (before_exit fs initial) with
            | Normal _ => SystemExit
            | Raise e => Raise e
            | SystemExit => SystemExit
            end /\
  fst run <> Normal tt /\
  nothing_after_exit (snd run).
Proof.
  cbv zeta. pose proof (keeps_before_exit fs initial nothing_after_exit_initial) as Hk.
  unfold plot_py, bind, exit.
  destruct (before_exit fs initial) as [[[]|e|] g]; cbn [fst snd] in *;
    (split; [reflexivity|]); (split; [reflexivity|]); (split; [reflexivity|]);
    (split; [discriminate | assumption]).
Qed.

(** On the example data set the run reaches the [exit()] after writing the
    fourteen figures of the averaged signal. *)
Lemma plot_py_example_run (sqrtQ : Q -> Q) (network_output : ndarray -> sample) :
  let run := plot_py sqrtQ network_output example_files initial in
  fst run = SystemExit /\
  map fst (saved (snd run))
  = map (fun f => String.append "./figure/wave_scale/RFQ_AVG/" (String.append f ".png"))
      ["A+IGBT-I"; "A+_IGBT-I"; "B+IGBT-I"; "B+_IGBT-I"; "C+IGBT-I"; "C+_IGBT-I";
       "A-FLUX"; "B-FLUX"; "C-FLUX"; "CB-I"; "CB-V"; "MOD-V"; "MOD-I"; "DV_DT"]%string.
Proof.
  vm_compute. split; reflexivity.
Qed.

End PrepFacts.

(** * Further properties of the code *)

(** ** Shapes for any sequence length *)

Section ShapeExtras.

Import Shapes.
Local Open Scope Z_scope.

Lemma calc_seq_len_closed (L : Z) : calc_seq_len L = (L + 7) / 8.
Proof.
  unfold calc_seq_len. cbv zeta. rewrite !Z.div_1_r.
  Z.div_mod_to_equations. lia.
Qed.

(** X1. The three convolution and pooling stages shorten a sequence of
    length [L] to the ceiling of L/8: [calc_seq_len L] is (L + 7) // 8 for
    every integer, the least [s] with [L <= 8 * s]. *)
Theorem X1_calc_seq_len_is_ceiling (L : Z) :
  calc_seq_len L = (L + 7) / 8 /\
  L <= 8 * calc_seq_len L /\
  8 * (calc_seq_len L - 1) < L.
Proof.
  rewrite calc_seq_len_closed. split; [reflexivity|].
  Z.div_mod_to_equations. lia.
Qed.

Ltac layer_fields :=
  cbn [conv_in conv_out conv_kernel conv_padding pool_kernel pool_stride num_features
       in_features out_features tconv_in tconv_out tconv_kernel tconv_padding
       e_conv1 e_bn1 e_pool1 e_conv2 e_bn2 e_pool2 e_conv3 e_bn3 e_pool3 e_seq_len
       e_fc e_fc_mu e_fc_logvar e_bn0 Encoder_init
       d_fc1 d_fc2 d_bn0 d_up1 d_bn1 d_trans_conv1 d_up2 d_bn2 d_trans_conv2
       d_up3 d_bn3 d_trans_conv3 Decoder_init].

Ltac side :=
  layer_fields;
  first [ reflexivity
        | apply Z.eqb_refl
        | apply Z.leb_le; lia
        | apply Z.ltb_lt; lia
        | rewrite ?Z.div_1_r; lia
        | let H := fresh in
          intros H;
          match goal with Ht : _ = true -> _ |- _ => specialize (Ht H) end; nia ].

(** The encoder built for a sequence length [L >= 1] accepts every batch
    of that length: the flattened size matches the input width of [fc]. *)
Lemma Encoder_forward_any (training : bool) (c L latent cond n : Z) :
  1 <= L -> 1 <= n -> (training = true -> 2 <= n) ->
  Encoder_forward training (Encoder_init c L latent cond) [n; c; L] [n; cond]
  = Some ([n; latent], [n; latent]).
Proof.
  intros HL Hn Ht.
  set (a1 := L + 1). set (b1 := (a1 - 2) / 2 + 1).
  set (a2 := b1 + 1). set (b2 := (a2 - 2) / 2 + 1).
  set (a3 := b2 + 1). set (b3 := (a3 - 2) / 2 + 1).
  assert (H1 : 1 <= b1) by (subst b1 a1; Z.div_mod_to_equations; lia).
  assert (H2 : 1 <= b2) by (subst b2 a2; Z.div_mod_to_equations; lia).
  assert (H3 : 1 <= b3) by (subst b3 a3; Z.div_mod_to_equations; lia).
  assert (Hs : calc_seq_len L = b3).
  { unfold calc_seq_len. cbv zeta. rewrite !Z.div_1_r. subst b3 a3 b2 a2 b1 a1.
    Z.div_mod_to_equations. lia. }
  unfold Encoder_forward, elementwise.
  rewrite (Conv1d_shape _ n c L 128 a1) by (subst a1; side). cbn [obind].
  rewrite BatchNorm1d_shape3 by (subst a1; side). cbn [obind].
  rewrite (MaxPool1d_shape _ n 128 a1 b1) by (subst a1; side). cbn [obind].
  rewrite (Conv1d_shape _ n 128 b1 128 a2) by (subst a2; side). cbn [obind].
  rewrite BatchNorm1d_shape3 by (subst a2; side). cbn [obind].
  rewrite (MaxPool1d_shape _ n 128 a2 b2) by (subst a2; side). cbn [obind].
  rewrite (Conv1d_shape _ n 128 b2 128 a3) by (subst a3; side). cbn [obind].
  rewrite BatchNorm1d_shape3 by (subst a3; side). cbn [obind].
  rewrite (MaxPool1d_shape _ n 128 a3 b3) by (subst a3; side). cbn [obind].
  rewrite (view_flatten_shape n 128 b3 (128 * b3)) by (try reflexivity; lia). cbn [obind].
  rewrite (Linear_shape2 _ n (128 * b3) 512)
    by (layer_fields; try reflexivity; rewrite Hs; apply Z.eqb_refl).
  cbn [obind]. rewrite cat_last_shape2. cbn [obind].
  rewrite BatchNorm1d_shape2 by side. cbn [obind].
  rewrite !(Linear_shape2 _ n (512 + cond) latent) by side. reflexivity.
Qed.

(** A decoder built for a reduced length [s >= 1] returns 4500 time steps,
    whatever [s]: s -> 2s -> 2s-1 -> 4s-2 -> 4s-3 -> 4501 -> 4500. *)
Lemma Decoder_forward_any (training : bool) (latent s out cond n : Z) :
  1 <= s -> 1 <= n -> (training = true -> 2 <= n) ->
  Decoder_forward training (Decoder_init latent s out cond) [n; latent] [n; cond]
  = Some [n; out; 4500].
Proof.
  intros Hs Hn Ht.
  unfold Decoder_forward, elementwise.
  rewrite cat_last_shape2. cbn [obind].
  rewrite (Linear_shape2 _ n (latent + cond) 512) by side. cbn [obind].
  rewrite (Linear_shape2 _ n 512 (128 * s)) by side. cbn [obind].
  rewrite (view_channels_shape 128 n (128 * s) s).
  2: lia. 2: reflexivity.
  2:{ rewrite Z.mul_comm, Z.mod_mul by lia. reflexivity. }
  2:{ rewrite Z.mul_comm, Z.div_mul by lia. reflexivity. }
  cbn [obind].
  rewrite BatchNorm1d_shape3 by side. cbn [obind].
  rewrite (Upsample_shape _ n 128 s (s * 2)) by side. cbn [obind].
  rewrite BatchNorm1d_shape3 by side. cbn [obind].
  rewrite (ConvTranspose1d_shape _ n 128 (s * 2) 128 (s * 2 - 1)) by side. cbn [obind].
  rewrite (Upsample_shape _ n 128 (s * 2 - 1) ((s * 2 - 1) * 2)) by side. cbn [obind].
  rewrite BatchNorm1d_shape3 by side. cbn [obind].
  rewrite (ConvTranspose1d_shape _ n 128 ((s * 2 - 1) * 2) 128 ((s * 2 - 1) * 2 - 1))
    by side.
  cbn [obind].
  rewrite (Upsample_shape _ n 128 ((s * 2 - 1) * 2 - 1) 4501) by side. cbn [obind].
  rewrite BatchNorm1d_shape3 by side. cbn [obind].
  rewrite (ConvTranspose1d_shape _ n 128 4501 out 4500) by side. reflexivity.
Qed.

Lemma CVAE_forward_any (training : bool) (c L latent cond n : Z) :
  1 <= L -> 1 <= n -> (training = true -> 2 <= n) ->
  CVAE_forward training (CVAE_init c L latent cond) [n; c; L] [n; cond]
  = Some ([n; c; 4500], [n; latent], [n; latent]).
Proof.
  intros HL Hn Ht. unfold CVAE_forward, CVAE_init. cbn [encoder decoder].
  rewrite Encoder_forward_any by assumption. cbn [obind].
  unfold reparameterize_shape. rewrite shape_eqb_refl. cbn [guard obind].
  rewrite Decoder_forward_any; [reflexivity | | assumption | assumption].
  cbn [e_seq_len Encoder_init]. rewrite calc_seq_len_closed.
  Z.div_mod_to_equations. lia.
Qed.

(** X2. An encoder built by [Encoder.__init__] for any channel count, latent
    size, condition size and sequence length [L >= 1] maps a batch
    (n, channels, L) with conditions (n, condition_dim) to [mu] and [logvar]
    of shape (n, latent_dim): the length its forward pass reaches equals
    [calc_seq_len L], so the flattened features fit [fc]. For [L = 0] the
    first pooling has nothing to pool and the pass raises. *)
Theorem X2_encoder_any_length (training : bool) (c L latent cond n : Z) :
  1 <= L -> 1 <= n -> (training = true -> 2 <= n) ->
  Encoder_forward training (Encoder_init c L latent cond) [n; c; L] [n; cond]
  = Some ([n; latent], [n; latent]) /\
  Encoder_forward training (Encoder_init c 0 latent cond) [n; c; 0] [n; cond] = None.
Proof.
  intros HL Hn Ht. split; [now apply Encoder_forward_any|].
  unfold Encoder_forward.
  rewrite (Conv1d_shape _ n c 0 128 1) by side. cbn [obind].
  rewrite BatchNorm1d_shape3 by side. reflexivity.
Qed.

Lemma X2_encoder_any_length_witness :
  Encoder_forward false (Encoder_init 3 100 8 2) [5; 3; 100] [5; 2]
  = Some ([5; 8], [5; 8]).
Proof.
  exact (proj1 (X2_encoder_any_length false 3 100 8 2 5
                  ltac:(lia) ltac:(lia) ltac:(discriminate))).
Defined.

(** X3. Whatever sequence length [L >= 1] a CVAE is built for, its
    reconstruction has 4500 time steps, because the last upsampling has the
    fixed size 4501: the reconstruction has the shape of the input exactly
    when [L] is 4500. *)
Theorem X3_reconstruction_length_is_fixed (training : bool) (c L latent cond n : Z) :
  1 <= L -> 1 <= n -> (training = true -> 2 <= n) ->
  CVAE_forward training (CVAE_init c L latent cond) [n; c; L] [n; cond]
  = Some ([n; c; 4500], [n; latent], [n; latent]) /\
  ([n; c; 4500] = [n; c; L] <-> L = 4500).
Proof.
  intros HL Hn Ht. split; [now apply CVAE_forward_any|].
  split; [intros H; injection H; lia | intros ->; reflexivity].
Qed.

Lemma X3_reconstruction_length_is_fixed_witness :
  CVAE_forward false (CVAE_init 14 1000 512 4) [1; 14; 1000] [1; 4]
  = Some ([1; 14; 4500], [1; 512], [1; 512]).
Proof.
  exact (proj1 (X3_reconstruction_length_is_fixed false 14 1000 512 4 1
                  ltac:(lia) ltac:(lia) ltac:(discriminate))).
Defined.

Lemma view_flatten_rank (x y : shape) :
  view_flatten x = Some y -> exists n f, y = [n; f].
Proof.
  destruct x as [|n rest]; [discriminate|]. unfold view_flatten.
  destruct (negb (n =? 0)); [|discriminate]. cbn [guard obind].
  intros H. injection H as <-. eauto.
Qed.

Lemma Linear_forward_rank2 (m : Linear) (n f : Z) (y : shape) :
  Linear_forward m [n; f] = Some y -> exists o, y = [n; o].
Proof.
  cbn [Linear_forward]. destruct (f =? in_features m); [|discriminate].
  cbn [guard obind]. intros H. injection H as <-. eauto.
Qed.

Lemma cat_last_rank_2_3 (n o c1 c2 c3 : Z) : cat_last [n; o] [c1; c2; c3] = None.
Proof.
  unfold cat_last. cbn [rev app shape_eqb]. now rewrite andb_false_r.
Qed.

(** The features the encoder concatenates with the condition have rank 2,
    so a condition of rank 3 is refused by [torch.cat]. *)
Lemma Encoder_forward_condition_rank3 (training : bool) (self : Encoder)
    (x : shape) (c1 c2 c3 : Z) :
  Encoder_forward training self x [c1; c2; c3] = None.
Proof.
  unfold Encoder_forward, elementwise.
  repeat match goal with
    | |- obind ?o _ = None =>
        lazymatch o with
        | view_flatten _ => fail
        | _ => destruct o; cbn [obind]; [|reflexivity]
        end
    end.
  match goal with |- obind (view_flatten ?v) _ = None =>
    destruct (view_flatten v) as [y|] eqn:E; cbn [obind]; [|reflexivity] end.
  destruct (view_flatten_rank _ _ E) as (n & f & ->).
  destruct (Linear_forward (e_fc self) [n; f]) as [z|] eqn:E'; cbn [obind];
    [|reflexivity].
  destruct (Linear_forward_rank2 _ _ _ _ E') as (o & ->).
  now rewrite cat_last_rank_2_3.
Qed.

(** The first batch normalisation reads an unbatched (C, L) input as a batch
    of C rows with L + 1 features, which fits only for L = 127, and then the
    second one fails. *)
Lemma Encoder_forward_unbatched (training : bool) (c0 L0 latent cond c L : Z)
    (cs : shape) :
  Encoder_forward training (Encoder_init c0 L0 latent cond) [c; L] cs = None.
Proof.
  unfold Encoder_forward, elementwise, Conv1d_forward.
  layer_fields.
  destruct (guard _); cbn [obind]; [|reflexivity].
  unfold BatchNorm1d_forward at 1. layer_fields.
  destruct ((L + 2 * 6 - (12 - 1) - 1) / 1 + 1 =? 128) eqn:E;
    cbn [andb guard obind]; [|reflexivity].
  destruct (negb training || negb (128 =? 1)); cbn [guard obind]; [|reflexivity].
  apply Z.eqb_eq in E. rewrite E.
  reflexivity.
Qed.

(** X4. A waveform passed without a batch dimension, shape (C, L), is
    always refused, whatever the model was built for and whatever the
    condition: the model needs batched input even for one sample. A
    condition of rank 3, such as the (1, 1, 4) tensor the evaluation of
    lines 465-467 passes, is always refused too. *)
Theorem X4_forward_needs_batch_and_flat_condition (training : bool)
    (c0 L0 latent cond c L c1 c2 c3 : Z) (x cs : shape) :
  CVAE_forward training (CVAE_init c0 L0 latent cond) [c; L] cs = None /\
  CVAE_forward training (CVAE_init c0 L0 latent cond) x [c1; c2; c3] = None.
Proof.
  unfold CVAE_forward, CVAE_init. cbn [encoder].
  now rewrite Encoder_forward_unbatched, Encoder_forward_condition_rank3.
Qed.

End ShapeExtras.

(** ** Where the loss is smallest *)

Section ModelExtras.

Import Model.
Local Open Scope R_scope.

Lemma pow2_zero (z : R) : z ^ 2 = 0 -> z = 0.
Proof.
  intros H. destruct (Req_dec z 0) as [E|E]; [exact E|].
  now apply (pow_nonzero z 2) in E.
Qed.

Lemma mse_loss_sum_zero (a b : tensor) :
  length a = length b -> mse_loss_sum a b = 0 -> a = b.
Proof.
  unfold mse_loss_sum. revert b.
  induction a as [|x a IH]; intros [|y b] Hl H; try discriminate; [reflexivity|].
  cbn [tzip tsum fold_right] in H. fold (tsum (tzip (fun u v => (u - v) ^ 2) a b)) in H.
  pose proof (mse_loss_sum_nonneg a b) as Hr. unfold mse_loss_sum in Hr.
  pose proof (pow2_ge_0 (x - y)) as Hq.
  assert (Hx : (x - y) ^ 2 = 0) by lra.
  assert (Hrest : tsum (tzip (fun u v => (u - v) ^ 2) a b) = 0) by lra.
  f_equal.
  - assert (x - y = 0) by (apply pow2_zero; exact Hx). lra.
  - apply IH; [now injection Hl | exact Hrest].
Qed.

Lemma kl_term_le (m l : R) : kl_term m l <= 1e-8.
Proof.
  unfold kl_term. pose proof (exp_ineq1_le l). pose proof (pow2_ge_0 m). lra.
Qed.

Lemma kl_term_max (m l : R) : kl_term m l = 1e-8 -> m = 0 /\ l = 0.
Proof.
  unfold kl_term. intros H.
  pose proof (exp_ineq1_le l) as Hl. pose proof (pow2_ge_0 m) as Hm.
  assert (Hm0 : m ^ 2 = 0) by lra.
  assert (Hl0 : exp l = 1 + l) by lra.
  split.
  - apply pow2_zero. exact Hm0.
  - destruct (Req_dec l 0) as [E|E]; [exact E|].
    pose proof (exp_ineq1 l E). lra.
Qed.

Lemma kl_sum_le (mu logvar : tensor) :
  length mu = length logvar ->
  tsum (tzip kl_term mu logvar) <= INR (length mu) * 1e-8.
Proof.
  revert logvar. induction mu as [|m mu IH]; intros [|l logvar] H; try discriminate.
  - cbn. lra.
  - cbn [tzip tsum fold_right length]. fold (tsum (tzip kl_term mu logvar)).
    rewrite S_INR. pose proof (kl_term_le m l).
    assert (tsum (tzip kl_term mu logvar) <= INR (length mu) * 1e-8)
      by (apply IH; now injection H).
    lra.
Qed.

Lemma kl_sum_max (mu logvar : tensor) :
  length mu = length logvar ->
  tsum (tzip kl_term mu logvar) = INR (length mu) * 1e-8 ->
  mu = zeros (length mu) /\ logvar = zeros (length mu).
Proof.
  revert logvar. induction mu as [|m mu IH]; intros [|l logvar] H E; try discriminate.
  - split; reflexivity.
  - cbn [tzip tsum fold_right length] in E. fold (tsum (tzip kl_term mu logvar)) in E.
    rewrite S_INR in E. injection H as H.
    pose proof (kl_term_le m l). pose proof (kl_sum_le mu logvar H).
    destruct (kl_term_max m l) as (-> & ->); [lra|].
    destruct (IH logvar H) as (E1 & E2); [lra|].
    cbn [length zeros repeat]. unfold zeros in E1, E2. split; f_equal; assumption.
Qed.

(** X5. With [n] latent elements the loss is smallest, -0.5 * n * 1e-8,
    exactly when the reconstruction equals the input and the posterior is
    the standard normal ([mu] and [logvar] zero everywhere). *)
Theorem X5_loss_minimum (x_recon x mu logvar : tensor) :
  length x_recon = length x -> length mu = length logvar ->
  (loss_function x_recon x mu logvar = -0.5 * (INR (length mu) * 1e-8)
   <-> x_recon = x /\ mu = zeros (length mu) /\ logvar = zeros (length mu)).
Proof.
  intros Hx Hm. unfold loss_function. split.
  - intros H. pose proof (mse_loss_sum_nonneg x_recon x) as H1.
    pose proof (kl_sum_le mu logvar Hm) as H2.
    rewrite (KLD_terms mu logvar Hm) in H.
    split.
    + apply mse_loss_sum_zero; [assumption | lra].
    + apply kl_sum_max; [assumption | lra].
  - intros (-> & Hmu & Hlv). rewrite mse_loss_sum_same.
    rewrite Hmu, Hlv at 1. rewrite KLD_zeros. lra.
Qed.

Lemma X5_loss_minimum_witness :
  loss_function [0.5; 0.25] [0.5; 0.25] [0] [0] = -0.5 * (INR (length [0]) * 1e-8).
Proof.
  apply (X5_loss_minimum [0.5; 0.25] [0.5; 0.25] [0] [0] eq_refl eq_refl).
  repeat split.
Defined.

End ModelExtras.

(** ** Data preparation *)

Section PrepExtras.

Import Prep.
Local Open Scope string_scope.
Local Open Scope list_scope.
Local Open Scope nat_scope.

(** *** Splitting by label *)

Lemma where_eq_In (s : string) (col : list string) (k i : nat) :
  In i (where_eq s col k) <-> k <= i /\ nth_error col (i - k) = Some s.
Proof.
  revert k. induction col as [|x col IH]; intros k; cbn [where_eq].
  - split; [intros [] | intros (_ & H)]. destruct (i - k); discriminate.
  - assert (Hrec : In i (where_eq s col (S k))
                   <-> k <= i /\ i <> k /\ nth_error col (i - S k) = Some s).
    { rewrite IH. split; intros H; repeat split; try lia; apply H. }
    destruct (String.eqb x s) eqn:E.
    + apply String.eqb_eq in E. subst x. cbn [In]. rewrite Hrec. split.
      * intros [->|(H1 & H2 & H3)].
        -- split; [lia|]. now rewrite Nat.sub_diag.
        -- split; [lia|]. destruct (i - k) as [|d] eqn:Ed; [lia|].
           cbn [nth_error]. replace d with (i - S k) by lia. exact H3.
      * intros (H1 & H2). destruct (Nat.eq_dec k i) as [->|Hne]; [now left|].
        right. repeat split; try lia.
        destruct (i - k) as [|d] eqn:Ed; [lia|]. cbn [nth_error] in H2.
        replace (i - S k) with d by lia. exact H2.
    + apply String.eqb_neq in E. rewrite Hrec. split.
      * intros (H1 & H2 & H3). split; [lia|].
        destruct (i - k) as [|d] eqn:Ed; [lia|].
        cbn [nth_error]. replace d with (i - S k) by lia. exact H3.
      * intros (H1 & H2). destruct (i - k) as [|d] eqn:Ed.
        -- cbn [nth_error] in H2. congruence.
        -- cbn [nth_error] in H2. repeat split; try lia.
           replace (i - S k) with d by lia. exact H2.
Qed.

Lemma where_eq_NoDup (s : string) (col : list string) (k : nat) :
  NoDup (where_eq s col k).
Proof.
  revert k. induction col as [|x col IH]; intros k; cbn [where_eq]; [constructor|].
  destruct (String.eqb x s); [|apply IH].
  constructor; [|apply IH]. rewrite where_eq_In. lia.
Qed.

Lemma where_eq_length (s : string) (col : list string) (k : nat) :
  length (where_eq s col k) = length (filter (fun x => String.eqb x s) col).
Proof.
  revert k. induction col as [|x col IH]; intros k; cbn [where_eq filter]; [reflexivity|].
  destruct (String.eqb x s); cbn [length]; now rewrite IH.
Qed.

Lemma index_list_where_eq {A} (s : string) (col : list string) (pre l : list A) :
  length col <= length l ->
  index_list (pre ++ l) (where_eq s col (length pre)) = Some (labelled s l col).
Proof.
  revert pre l. induction col as [|x col IH]; intros pre l H.
  - cbn [where_eq index_list]. unfold labelled. now destruct l.
  - destruct l as [|a l]; [cbn in H; lia|]. cbn [length] in H.
    assert (Hrec : index_list (pre ++ a :: l) (where_eq s col (S (length pre)))
                   = Some (labelled s l col)).
    { specialize (IH (pre ++ [a]) l). rewrite <- app_assoc, length_app in IH.
      cbn [length app] in IH. rewrite Nat.add_1_r in IH. apply IH. lia. }
    cbn [where_eq]. unfold labelled. cbn [combine filter snd].
    destruct (String.eqb x s).
    + cbn [index_list map fst]. rewrite nth_error_app2, Nat.sub_diag by lia.
      cbn [nth_error]. rewrite Hrec. reflexivity.
    + exact Hrec.
Qed.

(** X6. [X[np.where(Y[:,1] == s)[0], :, :]]: when the array has at least as
    many samples as there are labels, the fancy indexing does not raise and
    the new array holds exactly the samples whose label is [s], in the
    order of the file, in a fresh buffer; the array it was taken from is
    not changed. *)
Theorem X6_split_selects_labelled_samples
    (g : Globals) (v : view) (s : string) (col : list string) :
  length col <= length (samples (read (store g) v)) ->
  take_samples v (where_eq s col 0) g
  = (Normal (whole (length (store g))
               (with_samples (read (store g) v)
                  (labelled s (samples (read (store g) v)) col))),
     set_store
       (store g ++ [with_samples (read (store g) v)
                      (labelled s (samples (read (store g) v)) col)]) g).
Proof.
  intros H. unfold take_samples, load, bind, gets.
  pose proof (index_list_where_eq s col [] _ H) as E. cbn [app length] in E.
  rewrite E. reflexivity.
Qed.

(** X7. The fault and normal index arrays never share an index, hold no
    index twice and only indices of existing labels; together they have as
    many entries as there are labels equal to 'Fault' or 'Run': a sample
    with any other label is in neither part. *)
Theorem X7_fault_and_normal_indices_are_disjoint (col : list string) :
  let fault := where_eq "Fault" col 0 in
  let normal := where_eq "Run" col 0 in
  NoDup (fault ++ normal) /\
  Forall (fun i => i < length col) (fault ++ normal) /\
  length fault + length normal
  = length (filter (fun x => String.eqb x "Fault" || String.eqb x "Run") col).
Proof.
  cbv zeta. split; [|split].
  - apply NoDup_app; try apply where_eq_NoDup.
    intros i H1 H2. apply where_eq_In in H1, H2.
    destruct H1 as (_ & H1). destruct H2 as (_ & H2). congruence.
  - apply Forall_forall. intros i H. apply in_app_or in H.
    destruct H as [H|H]; apply where_eq_In in H; destruct H as (_ & H);
      (assert (Hn : nth_error col (i - 0) <> None) by congruence);
      apply nth_error_Some in Hn; lia.
  - rewrite !where_eq_length. induction col as [|x col IH]; [reflexivity|].
    cbn [filter].
    destruct (String.eqb x "Fault") eqn:E1, (String.eqb x "Run") eqn:E2;
      cbn [orb length]; try lia.
    apply String.eqb_eq in E1, E2. congruence.
Qed.

Lemma X6_split_selects_labelled_samples_witness :
  fst (take_samples (Xnormal_concat example_globals)
         (where_eq "Run" ["Run"; "Fault"; "Run"] 0) example_globals)
  = Normal {| base := 2; start := 0; stop := 2 |}.
Proof.
  rewrite (X6_split_selects_labelled_samples example_globals
             (Xnormal_concat example_globals) "Run" ["Run"; "Fault"; "Run"]);
    [reflexivity | vm_compute; lia].
Defined.

(** *** Labels and their one-hot encoding *)

Lemma nth_error_eye (n k : nat) :
  nth_error (eye n) k = if k <? n then Some (one_hot n k) else None.
Proof.
  unfold eye, one_hot. destruct (k <? n) eqn:E.
  - apply Nat.ltb_lt in E.
    rewrite nth_error_map, nth_error_nth' with (d := 0) by (now rewrite length_seq).
    rewrite seq_nth by assumption. reflexivity.
  - apply Nat.ltb_ge in E. apply nth_error_None. now rewrite length_map, length_seq.
Qed.

Lemma one_hot_nth (n k j : nat) :
  j < n -> nth j (one_hot n k) 0%Q = if k =? j then 1%Q else 0%Q.
Proof.
  intros H. unfold one_hot.
  rewrite (nth_indep _ 0%Q ((fun j => if k =? j then 1%Q else 0%Q) 0))
    by (now rewrite length_map, length_seq).
  rewrite (map_nth (fun j => if k =? j then 1%Q else 0%Q)), seq_nth by assumption.
  reflexivity.
Qed.

Lemma index_list_eye (n : nat) (l : list nat) :
  Forall (fun k => k < n) l -> index_list (eye n) l = Some (map (one_hot n) l).
Proof.
  induction 1 as [|k l Hk _ IH]; [reflexivity|].
  cbn [index_list map]. rewrite nth_error_eye, IH.
  apply Nat.ltb_lt in Hk. now rewrite Hk.
Qed.

Lemma index_list_eye_out_of_range (n : nat) (l : list nat) (k : nat) :
  In k l -> n <= k -> index_list (eye n) l = None.
Proof.
  induction l as [|x l IH]; intros Hin Hk; [destruct Hin|].
  destruct Hin as [->|H]; cbn [index_list].
  - rewrite nth_error_eye. apply Nat.ltb_ge in Hk. now rewrite Hk.
  - rewrite (IH H Hk). now destruct (nth_error (eye n) x).
Qed.

(** X8. [np.eye(n)[labels]]: when every label is below [n] the encoding does
    not raise and gives one row of length [n] per label, with 1 at the
    position of the label and 0 elsewhere; a label that is [n] or more
    raises IndexError. *)
Theorem X8_one_hot_rows (n : nat) (l : list nat) :
  Forall (fun k => k < n) l ->
  index_list (eye n) l = Some (map (one_hot n) l) /\
  (forall k, length (one_hot n k) = n) /\
  (forall k j, j < n -> nth j (one_hot n k) 0%Q = if k =? j then 1%Q else 0%Q) /\
  (forall k, n <= k -> index_list (eye n) (l ++ [k]) = None).
Proof.
  intros H. split; [now apply index_list_eye|]. split; [|split].
  - intros k. unfold one_hot. now rewrite length_map, length_seq.
  - intros k j Hj. now apply one_hot_nth.
  - intros k Hk. apply (index_list_eye_out_of_range n _ k); [|assumption].
    apply in_or_app. right. now left.
Qed.

Lemma X8_one_hot_rows_witness :
  index_list (eye 4) [0; 3; 1] = Some (map (one_hot 4) [0; 3; 1]).
Proof.
  apply (X8_one_hot_rows 4 [0; 3; 1]). repeat constructor.
Defined.


(** *** What the averaging loops touch, and when they fail *)

Lemma nth_set_nth_other {A} (l : list A) (i j : nat) (x d : A) :
  i <> j -> nth j (set_nth l i x) d = nth j l d.
Proof.
  revert i j. induction l as [|y l IH]; intros [|i] [|j] H; cbn; auto; try lia.
Qed.

Lemma write_other (st : list ndarray) (v : view) (new : list sample) (b : nat) :
  b <> base v -> nth b (write st v new) empty_array = nth b st empty_array.
Proof. intros H. unfold write. apply nth_set_nth_other. congruence. Qed.

Lemma write_length (st : list ndarray) (v : view) (new : list sample) :
  length (write st v new) = length st.
Proof. apply set_nth_length. Qed.

(** X10. The averaging loops of lines 265-268 write only to the buffer that
    [avg_RFQ_Xnormal] views: however they end, every other buffer of the
    store holds what it held, no buffer is added and no variable is bound
    again. Arrays copied before the loops, such as [Xnormal_concat], are
    therefore not affected by them. *)
Theorem X10_averaging_writes_one_buffer (g : Globals) :
  let g' := snd (stmt_avg_loops g) in
  g' = set_store (store g') g /\
  length (store g') = length (store g) /\
  (forall v, base v <> base (avg_RFQ_Xnormal g) ->
             read (store g') v = read (store g) v).
Proof.
  cbv zeta.
  set (P := fun g1 : Globals =>
              g1 = set_store (store g1) g /\
              length (store g1) = length (store g) /\
              forall b, b <> base (avg_RFQ_Xnormal g) ->
                        nth b (store g1) empty_array = nth b (store g) empty_array).
  assert (Hstore : forall g1 new, P g1 ->
            P (set_store (write (store g1) (avg_RFQ_Xnormal g) new) g1)).
  { intros g1 new (H1 & H2 & H3). split; [|split].
    - rewrite H1 at 2. reflexivity.
    - cbn [store set_store]. now rewrite write_length.
    - intros b Hb. cbn [store set_store]. rewrite write_other by assumption.
      now apply H3. }
  assert (Havg : forall g1, P g1 -> avg_RFQ_Xnormal g1 = avg_RFQ_Xnormal g).
  { intros g1 (H1 & _). rewrite H1. reflexivity. }
  assert (HP : P (snd (stmt_avg_loops g))).
  { unfold stmt_avg_loops, bind at 1.
    assert (H0 : P g) by (split; [now destruct g | split; [reflexivity | auto]]).
    pose proof (for_each_preserves P
                  (fun i => avg <- gets avg_RFQ_Xnormal ;; xr <- gets Xnormal_RFQ ;;
                            iadd_sample avg xr i) (range 1 524)) as L1.
    pose proof (for_each_preserves P
                  (fun i => avg <- gets avg_RFQ_Xnormal ;;
                            map_channel avg i (fun x => (x / 524)%Q)) (range 0 14)) as L2.
    assert (H1 : forall x g1, P g1 ->
              P (snd ((avg <- gets avg_RFQ_Xnormal ;; xr <- gets Xnormal_RFQ ;;
                       iadd_sample avg xr x) g1))).
    { intros i g1 Hg1. unfold iadd_sample, load, store_samples.
      unfold bind, gets, modify. cbv beta iota.
      destruct (nth_error _ i); cbn [lift]; unfold ret, raise; cbv beta iota;
        cbn [snd]; [|exact Hg1].
      rewrite (Havg g1 Hg1). now apply Hstore. }
    assert (H2 : forall x g1, P g1 ->
              P (snd ((avg <- gets avg_RFQ_Xnormal ;;
                       map_channel avg x (fun x => (x / 524)%Q)) g1))).
    { intros i g1 Hg1. unfold map_channel, load, store_samples.
      unfold bind, gets, modify. cbv beta iota.
      destruct (i <? _); unfold raise; cbn [snd]; [|exact Hg1].
      rewrite (Havg g1 Hg1). now apply Hstore. }
    specialize (L1 H1 g H0). specialize (L2 H2).
    destruct (for_each (range 1 524) _ g) as [[[]|e|] g1]; cbn [snd] in *;
      try exact L1.
    now apply L2. }
  destruct HP as (H1 & H2 & H3). split; [exact H1|]. split; [exact H2|].
  intros v Hv. unfold read, buffer. now rewrite H3.
Qed.

Lemma for_each_app {A} (l l' : list A) (body : A -> M unit) (g : Globals) :
  for_each (l ++ l') body g
  = match for_each l body g with
    | (Normal _, g1) => for_each l' body g1
    | r => r
    end.
Proof.
  revert g. induction l as [|x l IH]; intros g; [reflexivity|].
  cbn [app for_each]. unfold bind.
  destruct (body x g) as [[[]|e|] g1]; [apply IH | reflexivity | reflexivity].
Qed.

(** One iteration of the accumulation loop (line 266) when sample [i]
    exists: the first sample of [Xnormal_RFQ] grows by it. *)
Lemma avg_add_step (g1 : Globals) (xr : view) (a0 : ndarray) (cur s : sample)
    (tl : list sample) (i : nat) :
  Xnormal_RFQ g1 = xr -> avg_RFQ_Xnormal g1 = slice xr 0 1 ->
  valid_view (store g1) xr -> start xr < stop xr ->
  read (store g1) xr = with_samples a0 (cur :: tl) ->
  1 <= i -> nth_error tl (i - 1) = Some s ->
  exists g2,
    (avg <- gets avg_RFQ_Xnormal ;; xr <- gets Xnormal_RFQ ;; iadd_sample avg xr i) g1
    = (Normal tt, g2) /\
    Xnormal_RFQ g2 = xr /\ avg_RFQ_Xnormal g2 = slice xr 0 1 /\
    valid_view (store g2) xr /\
    read (store g2) xr = with_samples a0 (add_sample cur s :: tl).
Proof.
  intros Hx Ha Hv Hlt Hr Hi Es.
  destruct (write_slice_first (store g1) xr (add_sample cur s) Hv Hlt) as (Hv2 & Hr2).
  eexists. split.
  - unfold iadd_sample, load, store_samples. unfold bind, gets, modify.
    cbv beta iota. rewrite Ha, Hx, Hr. cbn [samples with_samples].
    replace (nth_error (cur :: tl) i) with (Some s)
      by (destruct i as [|i]; [lia|]; cbn [nth_error]; rewrite <- Es; f_equal; lia).
    cbn [lift]. unfold ret. cbv beta iota.
    rewrite read_slice_first, Hr by assumption.
    cbn [samples with_samples firstn map]. reflexivity.
  - cbn [Xnormal_RFQ RFQ avg_RFQ_Xnormal store set_store].
    fold (Xnormal_RFQ g1). split; [exact Hx|]. split; [exact Ha|].
    split; [exact Hv2|]. refine (eq_trans Hr2 _). rewrite Hr.
    cbn [samples with_samples skipn].
    unfold read in Hr. now rewrite (with_samples_same_shape _ _ _ _ _ Hr).
Qed.

(** One iteration of the accumulation loop when sample [i] does not exist. *)
Lemma avg_add_fail (g1 : Globals) (i : nat) :
  length (samples (read (store g1) (Xnormal_RFQ g1))) <= i ->
  (avg <- gets avg_RFQ_Xnormal ;; xr <- gets Xnormal_RFQ ;; iadd_sample avg xr i) g1
  = (Raise IndexError, g1).
Proof.
  intros H. unfold iadd_sample, load. unfold bind, gets. cbv beta iota.
  apply nth_error_None in H. now rewrite H.
Qed.

(** X11. When [Xnormal_RFQ] has fewer than 524 samples the averaging loops
    end with IndexError at the first missing sample; by then the first
    sample of [Xnormal_RFQ] has been overwritten with the sum of all the
    samples there are. *)
Theorem X11_averaging_needs_524_samples (g : Globals) :
  valid_view (store g) (Xnormal_RFQ g) ->
  length (samples (read (store g) (Xnormal_RFQ g))) < 524 ->
  avg_RFQ_Xnormal g = slice (Xnormal_RFQ g) 0 1 ->
  fst (stmt_avg_loops g) = Raise IndexError /\
  forall x0 tl,
    samples (read (store g) (Xnormal_RFQ g)) = x0 :: tl ->
    samples (read (store (snd (stmt_avg_loops g))) (Xnormal_RFQ g))
    = fold_left add_sample tl x0 :: tl.
Proof.
  intros Hv Hlen Havg.
  remember (read (store g) (Xnormal_RFQ g)) as a0 eqn:Ea0.
  destruct (samples a0) as [|x0 tl] eqn:El0.
  - (* no sample at all: the first iteration fails *)
    assert (E : stmt_avg_loops g = (Raise IndexError, g)).
    { unfold stmt_avg_loops. unfold bind at 1. change (range 1 524) with (seq 1 523).
      cbn [seq for_each]. unfold bind at 1.
      rewrite avg_add_fail; [reflexivity|]. rewrite <- Ea0, El0. cbn. lia. }
    rewrite E. split; [reflexivity|]. intros x0 tl H. discriminate H.
  - cbn [length] in Hlen.
    assert (Hlt : start (Xnormal_RFQ g) < stop (Xnormal_RFQ g)).
    { pose proof (read_length _ _ Hv) as E. rewrite <- Ea0, El0 in E. cbn in E. lia. }
    set (P := fun (m : nat) (g1 : Globals) =>
                Xnormal_RFQ g1 = Xnormal_RFQ g /\
                avg_RFQ_Xnormal g1 = slice (Xnormal_RFQ g) 0 1 /\
                valid_view (store g1) (Xnormal_RFQ g) /\
                read (store g1) (Xnormal_RFQ g)
                = with_samples a0 (fold_left add_sample (firstn (m - 1) tl) x0 :: tl)).
    destruct (for_each_invariant P
                (fun i => avg <- gets avg_RFQ_Xnormal ;; xr <- gets Xnormal_RFQ ;;
                          iadd_sample avg xr i) (length tl) 1 g) as (g1 & Hrun & H1).
    { unfold P. cbn [Nat.sub firstn fold_left].
      split; [reflexivity|]. split; [assumption|]. split; [assumption|].
      rewrite <- Ea0, <- El0. unfold with_samples. now destruct a0. }
    { intros i g1 Hi (Hx & Ha & Hv1 & Hr).
      destruct (nth_error tl (i - 1)) as [s|] eqn:Es;
        [|apply nth_error_None in Es; lia].
      destruct (avg_add_step g1 (Xnormal_RFQ g) a0 _ s tl i Hx Ha Hv1 Hlt Hr)
        as (g2 & Hb & Hx2 & Ha2 & Hv2 & Hr2); [lia | exact Es |].
      exists g2. split; [exact Hb|]. unfold P.
      split; [exact Hx2|]. split; [exact Ha2|]. split; [exact Hv2|].
      rewrite Hr2. do 2 f_equal.
      replace (S i - 1) with (S (i - 1)) by lia.
      now rewrite (firstn_S_nth_error _ _ _ Es), fold_left_app. }
    destruct H1 as (Hx & Ha & Hv1 & Hr).
    replace (1 + length tl - 1) with (length tl) in Hr by lia.
    rewrite firstn_all in Hr.
    assert (E : stmt_avg_loops g = (Raise IndexError, g1)).
    { unfold stmt_avg_loops. unfold bind at 1. change (range 1 524) with (seq 1 523).
      replace 523 with (length tl + S (522 - length tl)) by lia.
      rewrite seq_app, for_each_app, Hrun. cbn [seq for_each]. unfold bind at 1.
      rewrite avg_add_fail; [reflexivity|].
      rewrite Hx, Hr. cbn [samples with_samples length]. lia. }
    rewrite E. split; [reflexivity|]. intros x0' tl' H. injection H as <- <-.
    cbn [snd]. now rewrite Hr.
Qed.

Lemma X11_averaging_needs_524_samples_witness :
  fst (stmt_avg_loops example_split_globals) = Raise IndexError.
Proof.
  apply (X11_averaging_needs_524_samples example_split_globals);
    [vm_compute; repeat split; lia | vm_compute; lia | reflexivity].
Defined.

(** *** The copies of the first 524 normal samples *)

Lemma read_slice_0 (st : list ndarray) (v : view) (k : nat) :
  read st (slice v 0 k)
  = with_samples (read st v) (firstn k (samples (read st v))).
Proof.
  unfold read, slice, buffer, with_samples. cbn [base start stop nT nC samples].
  rewrite firstn_firstn, Nat.min_0_l, Nat.max_0_l, Nat.add_0_r.
  replace (start v + Nat.min k (stop v - start v) - start v)
    with (Nat.min k (stop v - start v)) by lia.
  reflexivity.
Qed.

Lemma read_app_old (st : list ndarray) (a : ndarray) (v : view) :
  base v < length st -> read (st ++ [a]) v = read st v.
Proof. intros H. unfold read, buffer. now rewrite app_nth1. Qed.

Lemma read_app_new (st : list ndarray) (a : ndarray) :
  read (st ++ [a]) (whole (length st) a) = a.
Proof.
  unfold read, buffer, whole. cbn [base start stop].
  rewrite app_nth2, Nat.sub_diag by lia. cbn [nth skipn].
  rewrite Nat.sub_0_r, firstn_all. unfold with_samples. now destruct a.
Qed.

Lemma bind_normal {A B} (m : M A) (k : A -> M B) (g : Globals) (a : A) (g' : Globals) :
  m g = (Normal a, g') -> (x <- m ;; k x) g = k a g'.
Proof. intros H. unfold bind. now rewrite H. Qed.

Lemma np_array_fresh (a : ndarray) (v : view) (g : Globals) :
  read (store g) v = a ->
  np_array v g = (Normal (whole (length (store g)) a), set_store (store g ++ [a]) g).
Proof. intros H. unfold np_array, load, alloc, bind, gets. now rewrite H. Qed.

Lemma concatenate_slices (g : Globals) (v1 v2 v3 v4 : view) (k : nat) :
  let r1 := read (store g) v1 in
  let r2 := read (store g) v2 in
  let r3 := read (store g) v3 in
  let r4 := read (store g) v4 in
  let a := with_samples r1 (firstn k (samples r1) ++ firstn k (samples r2) ++
                            firstn k (samples r3) ++ firstn k (samples r4)) in
  nT r2 = nT r1 -> nC r2 = nC r1 ->
  nT r3 = nT r1 -> nC r3 = nC r1 ->
  nT r4 = nT r1 -> nC r4 = nC r1 ->
  concatenate [slice v1 0 k; slice v2 0 k; slice v3 0 k; slice v4 0 k] g
  = (Normal (whole (length (store g)) a), set_store (store g ++ [a]) g).
Proof.
  cbv zeta. intros T1 C1 T2 C2 T3 C3.
  unfold concatenate, bind, gets, alloc. cbn [map]. rewrite !read_slice_0.
  cbn [forallb nT nC with_samples]. rewrite T1, C1, T2, C2, T3, C3, !Nat.eqb_refl.
  cbn [andb map samples with_samples concat]. now rewrite app_nil_r.
Qed.

(** X12. Lines 253-257: when the four arrays of normal samples have the
    same trailing shape, with more than six channels, the statements
    complete and bind [Xnormal_concat] and [Xnormal_concat_tmp] to two new
    buffers, each holding the first 524 (or all, if fewer) normal samples of
    RFQ, DTL, CCL and SCL in this order; the buffers that existed are not
    changed. The fixed offsets 524*1, 524*2, 524*3 used later therefore
    point to the first DTL, CCL and SCL sample only if every earlier system
    has at least 524 normal samples. *)
Theorem X12_concat_524_layout (g : Globals) :
  let rfq := read (store g) (Xnormal_RFQ g) in
  let dtl := read (store g) (Xnormal_DTL g) in
  let ccl := read (store g) (Xnormal_CCL g) in
  let scl := read (store g) (Xnormal_SCL g) in
  let content := firstn 524 (samples rfq) ++ firstn 524 (samples dtl) ++
                 firstn 524 (samples ccl) ++ firstn 524 (samples scl) in
  nT dtl = nT rfq -> nC dtl = nC rfq ->
  nT ccl = nT rfq -> nC ccl = nC rfq ->
  nT scl = nT rfq -> nC scl = nC rfq ->
  6 < nC rfq ->
  exists g',
    stmt_concat_524 g = (Normal tt, g') /\
    read (store g') (Xnormal_concat g') = with_samples rfq content /\
    read (store g') (Xnormal_concat_tmp g') = with_samples rfq content /\
    base (Xnormal_concat_tmp g') = S (length (store g)) /\
    base (Xnormal_concat g') = S (S (length (store g))) /\
    firstn (length (store g)) (store g') = store g.
Proof.
  cbv zeta. intros T1 C1 T2 C2 T3 C3 H6.
  pose proof (concatenate_slices g (Xnormal_RFQ g) (Xnormal_DTL g) (Xnormal_CCL g)
                (Xnormal_SCL g) 524 T1 C1 T2 C2 T3 C3) as Hcat.
  cbv zeta in Hcat.
  set (rfq := read (store g) (Xnormal_RFQ g)) in *.
  set (content := firstn 524 (samples rfq) ++ _) in *.
  set (a := with_samples rfq content) in *.
  set (n := length (store g)) in *.
  set (st1 := store g ++ [a]).
  assert (L1 : length st1 = S n) by (unfold st1; rewrite length_app; cbn; lia).
  assert (L2 : length (st1 ++ [a]) = S (S n)) by (rewrite length_app; cbn; lia).
  set (g1 := set_Xnormal_concat (whole n a) (set_store st1 g)).
  assert (R1 : read (store g1) (whole n a) = a) by apply read_app_new.
  set (g2 := set_Xnormal_concat_tmp (whole (S n) a) (set_store (st1 ++ [a]) g1)).
  assert (R2 : read (store g2) (whole n a) = a).
  { change (store g2) with (st1 ++ [a]).
    rewrite read_app_old by (cbn [whole base]; lia). exact R1. }
  set (g3 := set_Xnormal_concat (whole (S (S n)) a)
               (set_store ((st1 ++ [a]) ++ [a]) g2)).
  assert (R3 : read (store g3) (whole (S (S n)) a) = a).
  { change (store g3) with ((st1 ++ [a]) ++ [a]). rewrite <- L2. apply read_app_new. }
  assert (Hrun : stmt_concat_524 g = (Normal tt, g3)).
  { unfold stmt_concat_524.
    rewrite (bind_normal _ _ g g g) by reflexivity.
    rewrite (bind_normal _ _ g _ _ Hcat).
    rewrite (bind_normal _ _ _ tt g1) by reflexivity.
    rewrite (bind_normal _ _ g1 (whole (S n) a) (set_store (st1 ++ [a]) g1))
      by (rewrite <- L1; now apply np_array_fresh).
    rewrite (bind_normal _ _ _ tt g2) by reflexivity.
    rewrite (bind_normal _ _ g2 (whole (S (S n)) a)
               (set_store ((st1 ++ [a]) ++ [a]) g2))
      by (rewrite <- L2; now apply np_array_fresh).
    rewrite (bind_normal _ _ _ tt g3) by reflexivity.
    unfold channel, load. unfold bind, gets.
    rewrite read_slice_0, R3. cbn [nC with_samples a].
    apply Nat.ltb_lt in H6. now rewrite H6. }
  exists g3. split; [exact Hrun|].
  split; [exact R3|]. split.
  { change (Xnormal_concat_tmp g3) with (whole (S n) a).
    change (store g3) with ((st1 ++ [a]) ++ [a]).
    rewrite read_app_old by (cbn [whole base]; rewrite length_app; cbn; lia).
    rewrite <- L1. apply read_app_new. }
  split; [reflexivity|]. split; [reflexivity|].
  change (store g3) with (((store g ++ [a]) ++ [a]) ++ [a]).
  rewrite <- !app_assoc. unfold n.
  rewrite firstn_app, Nat.sub_diag, firstn_all. cbn [firstn]. apply app_nil_r.
Qed.

Lemma X12_concat_524_layout_witness :
  exists g', stmt_concat_524 example_split_globals = (Normal tt, g') /\
             length (samples (read (store g') (Xnormal_concat g'))) = 8.
Proof.
  destruct (X12_concat_524_layout example_split_globals)
    as (g' & E & R & _); try reflexivity; [vm_compute; lia|].
  exists g'. split; [exact E|]. rewrite R. reflexivity.
Defined.

(** *** What a min-max loop leaves in the array *)

Lemma Qminimum_le (x : Q) (l : list Q) :
  (Qminimum x l <= x)%Q /\ forall y, In y l -> (Qminimum x l <= y)%Q.
Proof.
  unfold Qminimum. revert x. induction l as [|z l IH]; intros x; cbn [fold_left].
  - split; [apply Qle_refl | intros y []].
  - destruct (Qle_bool z x) eqn:E.
    + apply Qle_bool_iff in E. destruct (IH z) as (H1 & H2). split.
      * eapply Qle_trans; eassumption.
      * intros y [<-|Hy]; [exact H1 | now apply H2].
    + assert (Hlt : (x < z)%Q).
      { apply Qnot_le_lt. intros H. apply Qle_bool_iff in H. congruence. }
      destruct (IH x) as (H1 & H2). split; [exact H1|].
      intros y [<-|Hy]; [|now apply H2].
      eapply Qle_trans; [exact H1 | now apply Qlt_le_weak].
Qed.

Lemma Qmaximum_ge (x : Q) (l : list Q) :
  (x <= Qmaximum x l)%Q /\ forall y, In y l -> (y <= Qmaximum x l)%Q.
Proof.
  unfold Qmaximum. revert x. induction l as [|z l IH]; intros x; cbn [fold_left].
  - split; [apply Qle_refl | intros y []].
  - destruct (Qle_bool x z) eqn:E.
    + apply Qle_bool_iff in E. destruct (IH z) as (H1 & H2). split.
      * eapply Qle_trans; eassumption.
      * intros y [<-|Hy]; [exact H1 | now apply H2].
    + assert (Hlt : (z < x)%Q).
      { apply Qnot_le_lt. intros H. apply Qle_bool_iff in H. congruence. }
      destruct (IH x) as (H1 & H2). split; [exact H1|].
      intros y [<-|Hy]; [|now apply H2].
      apply Qle_trans with x; [now apply Qlt_le_weak | exact H1].
Qed.

Lemma MinMax_fit_params_bounds (col : list Q) (p : MinMaxParams) (y : Q) :
  MinMax_fit_params col = Some p -> In y col ->
  (data_min_ p <= y)%Q /\ (y <= data_max_ p)%Q.
Proof.
  destruct col as [|x l]; [discriminate|]. cbn [MinMax_fit_params].
  intros [= <-] Hy. cbn [data_min_ data_max_].
  destruct (Qminimum_le x l) as (H1 & H2). destruct (Qmaximum_ge x l) as (H3 & H4).
  destruct Hy as [<-|Hy]; auto.
Qed.

(** A value of the fitted column is mapped into [0,1]. *)
Lemma MinMax_transform1_unit (col : list Q) (p : MinMaxParams) (y : Q) :
  MinMax_fit_params col = Some p -> In y col ->
  (0 <= MinMax_transform1 p y)%Q /\ (MinMax_transform1 p y <= 1)%Q.
Proof.
  intros Hp Hy. destruct (MinMax_fit_params_bounds col p y Hp Hy) as (Hlo & Hhi).
  destruct col as [|x l]; [discriminate|]. cbn [MinMax_fit_params] in Hp.
  injection Hp as <-. unfold MinMax_transform1. cbn [scale_ min_ data_min_ data_max_] in *.
  set (lo := Qminimum x l) in *. set (hi := Qmaximum x l) in *.
  set (h := handle_zeros_in_scale (hi - lo)).
  assert (Hh : (0 < h)%Q /\ (y - lo <= h)%Q).
  { unfold h, handle_zeros_in_scale. destruct (Qeq_bool (hi - lo) 0) eqn:E.
    - apply Qeq_bool_iff in E. split; [reflexivity|].
      apply Qle_trans with (hi - lo)%Q.
      + unfold Qminus. apply Qplus_le_compat; [exact Hhi | apply Qle_refl].
      + rewrite E. discriminate.
    - apply Qeq_bool_neq in E. split.
      + assert (H0 : (0 <= hi - lo)%Q).
        { apply Qle_trans with (y - lo)%Q.
          - rewrite <- (Qplus_opp_r lo). unfold Qminus.
            apply Qplus_le_compat; [exact Hlo | apply Qle_refl].
          - unfold Qminus. apply Qplus_le_compat; [exact Hhi | apply Qle_refl]. }
        apply Qle_lteq in H0. destruct H0 as [H0|H0]; [exact H0|].
        exfalso. apply E. now symmetry.
      + unfold Qminus. apply Qplus_le_compat; [exact Hhi | apply Qle_refl]. }
  destruct Hh as (Hpos & Hle).
  assert (Hne : ~ (h == 0)%Q) by (intros H; rewrite H in Hpos; discriminate Hpos).
  assert (E : (y * ((1 - 0) / h) + (0 - lo * ((1 - 0) / h)) == (y - lo) / h)%Q)
    by (field; exact Hne).
  rewrite E. split.
  - apply Qle_shift_div_l; [exact Hpos|]. rewrite Qmult_0_l.
    rewrite <- (Qplus_opp_r lo). unfold Qminus.
    apply Qplus_le_compat; [exact Hlo | apply Qle_refl].
  - apply Qle_shift_div_r; [exact Hpos|]. now rewrite Qmult_1_l.
Qed.

Lemma self_scaled_unit (l0 : list sample) (i : nat) : unit_interval (self_scaled l0 i).
Proof.
  unfold unit_interval, self_scaled, channel_params.
  destruct (MinMax_fit_params (channel_of i l0)) as [p|] eqn:Hp; [|constructor].
  apply Forall_forall. intros z Hz. apply in_map_iff in Hz.
  destruct Hz as (y & <- & Hy). now apply (MinMax_transform1_unit _ _ _ Hp).
Qed.

Section ScalingLoopData.

Variable arr : Globals -> view.
Hypothesis arr_store : forall st g, arr (set_store st g) = arr g.
Hypothesis arr_scaler : forall f g, arr (set_scaler_of f g) = arr g.

Lemma minmax_loop_data (g : Globals) :
  length (features g) = 14 ->
  valid_view (store g) (arr g) ->
  rectangular (read (store g) (arr g)) ->
  14 <= nC (read (store g) (arr g)) ->
  concat (samples (read (store g) (arr g))) <> [] ->
  exists g',
    minmax_loop arr g = (Normal tt, g') /\
    forall j, j < 14 ->
      channel_of j (samples (read (store g') (arr g')))
      = self_scaled (samples (read (store g) (arr g))) j.
Proof.
  intros Hf Hv Hrect Hc Hne. remember (read (store g) (arr g)) as a0 eqn:Ea0.
  destruct (for_each_invariant (minmax_data_inv arr g a0) (minmax_body arr) 14 0 g)
    as (g' & Hrun & Hinv).
  - split; [reflexivity|]. split; [reflexivity|]. split; [assumption|].
    exists (samples a0). split; [|split; [|split; [reflexivity|split]]].
    + rewrite <- Ea0. unfold with_samples. now destruct a0.
    + apply rectangular_wide; [assumption | lia].
    + intros; reflexivity.
    + intros j Hj. lia.
  - intros i g1 Hi (H1 & H2 & H3 & l & Hl & Hw & Hrows & Hchan & Hdone).
    assert (Hnc : i < nC (read (store g1) (arr g1))) by (rewrite Hl; cbn; lia).
    destruct (MinMax_fit_params_nonempty (channel_of i (samples a0))) as (p & Hp).
    { intros E. apply Hne. apply length_zero_iff_nil.
      rewrite <- (channel_of_length i), E. reflexivity. }
    assert (Hp1 : MinMax_fit_params
                    (channel_of i (samples (read (store g1) (arr g1)))) = Some p).
    { rewrite Hl. cbn [samples with_samples]. rewrite Hchan by lia. exact Hp. }
    destruct (fit_transform_channel_run arr arr_store arr_scaler (group_of i) i g1 p
                H3 Hnc Hp1)
      as (g2 & Hrun & Hst & Harr & Hfeat & _).
    exists g2. split; [rewrite minmax_body_group; exact Hrun|].
    assert (Hlen : length (update_channel i (MinMax_transform1 p)
                             (samples (read (store g1) (arr g1))))
                   = stop (arr g1) - start (arr g1))
      by (rewrite update_channel_length; now apply read_length).
    split; [congruence|]. split; [congruence|].
    split; [rewrite Hst, Harr; now apply valid_view_write|].
    exists (update_channel i (MinMax_transform1 p) l).
    rewrite Hst, Harr, read_write by assumption.
    rewrite Hl in *. cbn [samples with_samples] in *.
    split; [|split; [|split; [|split]]].
    + unfold read in Hl. now apply (with_samples_same_shape _ _ _ _ _ Hl).
    + now apply wide_update_channel.
    + now rewrite update_channel_rows.
    + intros j Hj. rewrite channel_of_update_other by lia. apply Hchan. lia.
    + intros j Hj. destruct (Nat.eq_dec j i) as [->|Hji].
      * rewrite channel_of_update_same by (apply (wide_le 13); [lia | assumption]).
        rewrite Hchan by lia. unfold self_scaled, channel_params. now rewrite Hp.
      * rewrite channel_of_update_other by lia. apply Hdone. lia.
  - exists g'. destruct Hinv as (_ & _ & _ & l & Hl & _ & _ & _ & Hdone).
    split.
    + unfold minmax_loop, bind, gets. rewrite Hf. exact Hrun.
    + intros j Hj. rewrite Hl. cbn [samples with_samples]. apply Hdone. lia.
Qed.

End ScalingLoopData.

(** X13. The loops of lines 307-315 and 412-420 over [Xnormal_concat] and of
    lines 319-327 over [Xnormal_concat_tmp]: on a non-empty rectangular array
    with 14 channels (or more) the loop completes, and each of the 14
    channels of the array then is that channel scaled with the parameters
    fitted on that same channel alone, so that all its values lie in
    [0,1]. The scaling of a channel does not depend on the other channels
    of its group. *)
Theorem X13_minmax_loop_scales_each_channel_by_itself
    (arr : Globals -> view) (g : Globals) :
  arr = Xnormal_concat \/ arr = Xnormal_concat_tmp ->
  length (features g) = 14 ->
  valid_view (store g) (arr g) ->
  rectangular (read (store g) (arr g)) ->
  14 <= nC (read (store g) (arr g)) ->
  concat (samples (read (store g) (arr g))) <> [] ->
  exists g',
    minmax_loop arr g = (Normal tt, g') /\
    forall j, j < 14 ->
      channel_of j (samples (read (store g') (arr g')))
      = self_scaled (samples (read (store g) (arr g))) j /\
      unit_interval (channel_of j (samples (read (store g') (arr g')))).
Proof.
  intros Harr Hf Hv Hrect Hc Hne.
  assert (H1 : forall st g, arr (set_store st g) = arr g)
    by (destruct Harr; subst arr; reflexivity).
  assert (H2 : forall f g, arr (set_scaler_of f g) = arr g)
    by (destruct Harr; subst arr; reflexivity).
  destruct (minmax_loop_data arr H1 H2 g Hf Hv Hrect Hc Hne) as (g' & Hrun & Hch).
  exists g'. split; [exact Hrun|]. intros j Hj. split; [now apply Hch|].
  rewrite Hch by assumption. apply self_scaled_unit.
Qed.

Lemma X13_minmax_loop_scales_each_channel_by_itself_witness :
  exists g',
    minmax_loop Xnormal_concat example_globals = (Normal tt, g') /\
    unit_interval (channel_of 0 (samples (read (store g') (Xnormal_concat g')))).
Proof.
  destruct (X13_minmax_loop_scales_each_channel_by_itself Xnormal_concat example_globals)
    as (g' & Hrun & Hch).
  - left. reflexivity.
  - reflexivity.
  - vm_compute. lia.
  - vm_compute. repeat constructor.
  - vm_compute. lia.
  - vm_compute. discriminate.
  - exists g'. split; [exact Hrun|]. apply (Hch 0). lia.
Defined.

(** *** The statements after the first [exit()] *)

Lemma no_exit_bind {A B} (m : M A) (k : A -> M B) :
  no_exit m -> (forall a, no_exit (k a)) -> no_exit (x <- m ;; k x).
Proof.
  intros Hm Hk g. unfold bind. specialize (Hm g).
  destruct (m g) as [[a|e|] g1]; cbn [fst] in *; [apply Hk | discriminate | congruence].
Qed.

Lemma no_exit_for_each {A} (l : list A) (body : A -> M unit) :
  (forall x, no_exit (body x)) -> no_exit (for_each l body).
Proof.
  intros H. induction l as [|x l IH]; [intros g; discriminate|].
  cbn [for_each]. apply no_exit_bind; [apply H | intros _; exact IH].
Qed.

Lemma no_exit_ret {A} (a : A) : no_exit (ret a).
Proof. intros g. discriminate. Qed.

Lemma no_exit_raise {A} (e : exn) : no_exit (@raise A e).
Proof. intros g. discriminate. Qed.

Lemma no_exit_gets {A} (f : Globals -> A) : no_exit (gets f).
Proof. intros g. discriminate. Qed.

Lemma no_exit_modify (f : Globals -> Globals) : no_exit (modify f).
Proof. intros g. discriminate. Qed.

Lemma no_exit_lift {A} (e : exn) (o : option A) : no_exit (lift e o).
Proof. destruct o; [apply no_exit_ret | apply no_exit_raise]. Qed.

Lemma no_exit_alloc (a : ndarray) : no_exit (alloc a).
Proof. intros g. discriminate. Qed.

Ltac no_exit_step :=
  lazymatch goal with
  | |- no_exit (bind _ _) => apply no_exit_bind; [|intros ?]
  | |- no_exit (for_each _ _) => apply no_exit_for_each; intros ?
  | |- no_exit (ret _) => apply no_exit_ret
  | |- no_exit (raise _) => apply no_exit_raise
  | |- no_exit (gets _) => apply no_exit_gets
  | |- no_exit (modify _) => apply no_exit_modify
  | |- no_exit (lift _ _) => apply no_exit_lift
  | |- no_exit (alloc _) => apply no_exit_alloc
  | |- no_exit (if ?c then _ else _) => destruct c
  | |- no_exit (match ?x with _ => _ end) => destruct x
  end.

Lemma no_exit_minmax_loop (arr : Globals -> view) : no_exit (minmax_loop arr).
Proof.
  unfold minmax_loop, minmax_body, when, fit_transform_channel,
    MinMaxScaler_fit_transform, MinMaxScaler_fit, MinMaxScaler_transform, channel,
    map_channel, load, store_samples.
  repeat no_exit_step.
Qed.

Lemma no_exit_standard_loop (sqrtQ : Q -> Q) (s : group -> stdvar)
    (arr : Globals -> view) :
  no_exit (standard_loop sqrtQ s arr).
Proof.
  unfold standard_loop, when, standard_fit_transform_channel, StandardScaler_fit,
    StandardScaler_transform, channel, map_channel, load, store_samples.
  repeat no_exit_step.
Qed.

(** Line 356 is never passed: the statements of lines 345-356 end with an
    exception in every state. *)
Lemma stmt_first_samples_raises (g : Globals) :
  exists e, stmt_first_samples g = (Raise e, g).
Proof.
  unfold stmt_first_samples, first_sample. unfold bind, gets, raise, ret.
  repeat match goal with
         | |- context [if ?c then _ else _] => destruct c
         end; eexists; reflexivity.
Qed.

Lemma bind_raises {B} (m : M unit) (k : unit -> M B) (g : Globals) (e : exn)
    (g' : Globals) :
  m g = (Raise e, g') -> (x <- m ;; k x) g = (Raise e, g').
Proof. intros H. unfold bind. now rewrite H. Qed.

(** X14. The code after the first [exit()] (lines 295-516) cannot run to its
    end either: in every state and for every content of the files it stops
    with an exception no later than line 356, where [x_RFQ], bound to the
    scaler object [standard] at line 347, is asked for its [shape]. It never
    reaches the second [exit()] of line 411, and nothing of lines 359-516
    (the later plots, the scaling of [data_test], the model and its
    evaluation) is ever run. *)
Theorem X14_code_after_first_exit_raises
    (sqrtQ : Q -> Q) (network_output : ndarray -> sample) (fs : Files) (g : Globals) :
  after_exit sqrtQ network_output fs g
  = (standard_loop sqrtQ (fun _ => var_standard) Xnormal_concat ;;
     minmax_loop Xnormal_concat ;;
     minmax_loop Xnormal_concat_tmp ;;
     standard_loop sqrtQ var_standard_of Xnormal_concat_tmp ;;
     stmt_first_samples) g /\
  exists e, fst (after_exit sqrtQ network_output fs g) = Raise e.
Proof.
  assert (Hcut : forall (k : M unit) g1,
            (stmt_first_samples ;; k) g1 = stmt_first_samples g1).
  { intros k g1. destruct (stmt_first_samples_raises g1) as (e & E).
    rewrite E. now apply bind_raises. }
  assert (Heq : after_exit sqrtQ network_output fs g
                = (standard_loop sqrtQ (fun _ => var_standard) Xnormal_concat ;;
                   minmax_loop Xnormal_concat ;;
                   minmax_loop Xnormal_concat_tmp ;;
                   standard_loop sqrtQ var_standard_of Xnormal_concat_tmp ;;
                   stmt_first_samples) g).
  { unfold after_exit.
    unfold bind at 1 2 3 4. unfold bind at 12 13 14 15.
    destruct (standard_loop sqrtQ (fun _ => var_standard) Xnormal_concat g)
      as [[[]|e|] g1]; try reflexivity.
    destruct (minmax_loop Xnormal_concat g1) as [[[]|e|] g2]; try reflexivity.
    destruct (minmax_loop Xnormal_concat_tmp g2) as [[[]|e|] g3]; try reflexivity.
    destruct (standard_loop sqrtQ var_standard_of Xnormal_concat_tmp g3)
      as [[[]|e|] g4]; try reflexivity.
    apply Hcut. }
  split; [exact Heq|]. rewrite Heq. unfold bind.
  pose proof (no_exit_standard_loop sqrtQ (fun _ => var_standard) Xnormal_concat g) as N1.
  destruct (standard_loop sqrtQ (fun _ => var_standard) Xnormal_concat g)
    as [[[]|e|] g1]; [|now exists e|now elim N1].
  pose proof (no_exit_minmax_loop Xnormal_concat g1) as N2.
  destruct (minmax_loop Xnormal_concat g1) as [[[]|e|] g2]; [|now exists e|now elim N2].
  pose proof (no_exit_minmax_loop Xnormal_concat_tmp g2) as N3.
  destruct (minmax_loop Xnormal_concat_tmp g2) as [[[]|e|] g3];
    [|now exists e|now elim N3].
  pose proof (no_exit_standard_loop sqrtQ var_standard_of Xnormal_concat_tmp g3) as N4.
  destruct (standard_loop sqrtQ var_standard_of Xnormal_concat_tmp g3)
    as [[[]|e|] g4]; [|now exists e|now elim N4].
  destruct (stmt_first_samples_raises g4) as (e & E). exists e. now rewrite E.
Qed.

(** *** The evaluation *)

(** X15. The evaluation of lines 462-467 can never produce a
    reconstruction: [labels_one_hot[524:525].unsqueeze(0)] is a condition
    of rank 3, which the encoder cannot concatenate with its rank-2
    features, so whatever [data_test], [labels_one_hot] and the model are,
    the statement ends with IndexError (no test sample) or RuntimeError and
    leaves the globals as they were; [reconstructed] is never bound. *)
Theorem X15_evaluation_never_reconstructs (g : Globals) :
  snd (stmt_evaluate g) = g /\
  (fst (stmt_evaluate g) = Raise IndexError \/
   fst (stmt_evaluate g) = Raise RuntimeError).
Proof.
  unfold stmt_evaluate, first_sample, load. unfold bind, gets. cbv beta iota zeta.
  destruct (start (data_test g) <? stop (data_test g)); cbn [ret raise];
    [|split; [reflexivity | now left]].
  destruct (model g) as [m|]; cbn [lift ret raise];
    [|split; [reflexivity | now right]].
  unfold Shapes.CVAE_forward.
  rewrite Encoder_forward_condition_rank3. cbn [Shapes.obind lift raise].
  split; [reflexivity | now right].
Qed.

(** *** The condition vectors *)


Lemma Forall_firstn_le {A} (P : A -> Prop) (n : nat) (l : list A) :
  Forall P l -> Forall P (firstn n l).
Proof.
  intros H. revert n. induction H as [|x l Hx _ IH]; intros [|n]; cbn [firstn];
    constructor; auto.
Qed.






(** *** The averaging loops compute a mean *)

Lemma zip_with_length {A} (f : A -> A -> A) (a b : list A) :
  length a = length b -> length (zip_with f a b) = length a.
Proof.
  revert b. induction a as [|x a IH]; intros [|y b] H; cbn in *; try lia.
  now rewrite IH by lia.
Qed.

Lemma zip_with_nth {A} (f : A -> A -> A) (a b : list A) (i : nat) (d d1 d2 : A) :
  length a = length b -> i < length a ->
  nth i (zip_with f a b) d = f (nth i a d1) (nth i b d2).
Proof.
  revert b i. induction a as [|x a IH]; intros [|y b] [|i] H Hi; cbn in *; try lia.
  - reflexivity.
  - apply IH; lia.
Qed.

Lemma shaped_nth (n m t : nat) (s : sample) :
  shaped n m s -> t < n -> length (nth t s []) = m.
Proof.
  intros (Hl & Hr) Ht. rewrite Forall_forall in Hr. apply Hr, nth_In. lia.
Qed.

Lemma add_sample_shaped (n m : nat) (a b : sample) :
  shaped n m a -> shaped n m b -> shaped n m (add_sample a b).
Proof.
  intros (La & Ra) (Lb & Rb). unfold add_sample. split.
  - rewrite zip_with_length; congruence.
  - subst n. revert b Lb Rb.
    induction Ra as [|x a Hx _ IH]; intros [|y b] Lb Rb; cbn [zip_with]; try constructor.
    + inversion Rb; subst. rewrite zip_with_length; congruence.
    + inversion Rb; subst. apply IH; [cbn in Lb; lia | assumption].
Qed.

Lemma add_sample_entry (n m t c : nat) (a b : sample) :
  shaped n m a -> shaped n m b -> t < n -> c < m ->
  entry t c (add_sample a b) = (entry t c a + entry t c b)%Q.
Proof.
  intros Ha Hb Ht Hc. unfold entry, add_sample.
  pose proof (shaped_nth n m t a Ha Ht) as La.
  pose proof (shaped_nth n m t b Hb Ht) as Lb.
  destruct Ha as (Ha & _). destruct Hb as (Hb & _).
  rewrite (zip_with_nth _ a b t [] [] []) by lia.
  apply zip_with_nth; lia.
Qed.

Lemma fold_add_sample_shaped (n m : nat) (l : list sample) (x0 : sample) :
  shaped n m x0 -> Forall (shaped n m) l -> shaped n m (fold_left add_sample l x0).
Proof.
  intros H0 Hl. revert x0 H0. induction Hl as [|y l Hy _ IH]; intros x0 H0; [exact H0|].
  cbn [fold_left]. apply IH. now apply add_sample_shaped.
Qed.

Lemma fold_add_sample_entry (n m t c : nat) (l : list sample) (x0 : sample) :
  shaped n m x0 -> Forall (shaped n m) l -> t < n -> c < m ->
  (entry t c (fold_left add_sample l x0) == entry t c x0 + Qsum (map (entry t c) l))%Q.
Proof.
  intros H0 Hl Ht Hc. revert x0 H0.
  induction Hl as [|y l Hy _ IH]; intros x0 H0; cbn [fold_left map Qsum fold_right].
  - now rewrite Qplus_0_r.
  - rewrite IH by (now apply add_sample_shaped).
    rewrite (add_sample_entry n m) by assumption.
    fold (Qsum (map (entry t c) l)). now rewrite Qplus_assoc.
Qed.

Lemma divide_loop_shaped (n m : nat) (f : Q -> Q) (idx : list nat) (s : sample) :
  shaped n m s ->
  shaped n m (fold_left (fun s i => map (update_nth i f) s) idx s).
Proof.
  revert s. induction idx as [|i idx IH]; intros s Hs; [exact Hs|].
  cbn [fold_left]. apply IH. destruct Hs as (Hl & Hr). split.
  - now rewrite length_map.
  - apply Forall_forall. intros r Hin. apply in_map_iff in Hin.
    destruct Hin as (r0 & <- & Hin). rewrite update_nth_length.
    rewrite Forall_forall in Hr. now apply Hr.
Qed.

Lemma divide_loop_entry (n m t c : nat) (f : Q -> Q) (lo k : nat) (s : sample) :
  shaped n m s -> t < n -> c < m ->
  entry t c (fold_left (fun s i => map (update_nth i f) s) (seq lo k) s)
  = if (lo <=? c) && (c <? lo + k) then f (entry t c s) else entry t c s.
Proof.
  intros Hs Ht Hc. revert lo s Hs. induction k as [|k IH]; intros lo s Hs.
  - cbn [seq fold_left].
    destruct (Nat.leb_spec lo c); destruct (Nat.ltb_spec c (lo + 0));
      cbn [andb]; try reflexivity; lia.
  - cbn [seq fold_left].
    assert (Hs' : shaped n m (map (update_nth lo f) s)).
    { apply (divide_loop_shaped n m f [lo] s Hs). }
    rewrite IH by assumption.
    assert (E : entry t c (map (update_nth lo f) s)
                = if c =? lo then f (entry t c s) else entry t c s).
    { unfold entry.
      assert (En : update_nth lo f (@nil Q) = []) by (now destruct lo).
      pose proof (map_nth (update_nth lo f) s [] t) as Em.
      pose proof (shaped_nth n m t s Hs Ht) as Lr.
      rewrite En in Em. unfold sample, row in *. rewrite Em.
      destruct (Nat.eqb_spec c lo) as [->|Hne].
      - apply nth_update_nth_same. now rewrite Lr.
      - apply nth_update_nth_other. congruence. }
    rewrite E.
    destruct (Nat.eqb_spec c lo) as [->|Hne].
    + replace (S lo <=? lo) with false by (symmetry; apply Nat.leb_gt; lia).
      replace (lo <=? lo) with true by (symmetry; apply Nat.leb_le; lia).
      replace (lo <? lo + S k) with true by (symmetry; apply Nat.ltb_lt; lia).
      reflexivity.
    + destruct (Nat.leb_spec (S lo) c); destruct (Nat.leb_spec lo c);
        destruct (Nat.ltb_spec c (S lo + k)); destruct (Nat.ltb_spec c (lo + S k));
        cbn [andb]; try reflexivity; lia.
Qed.

Lemma averaged_entry (n m t c : nat) (l0 : list sample) :
  Forall (shaped n m) l0 -> 524 <= length l0 -> t < n -> c < m ->
  (entry t c (averaged l0)
   == if c <? 14
      then Qsum (map (entry t c) (firstn 524 l0)) / 524
      else Qsum (map (entry t c) (firstn 524 l0)))%Q.
Proof.
  intros Hl Hlen Ht Hc. unfold averaged, range.
  destruct l0 as [|x0 tl]; [cbn in Hlen; lia|].
  inversion Hl as [|? ? H0 Htl]; subst.
  cbn [nth skipn]. change (firstn 524 (x0 :: tl)) with (x0 :: firstn 523 tl).
  assert (Hf : Forall (shaped n m) (firstn 523 tl)) by (now apply Forall_firstn_le).
  rewrite (divide_loop_entry n m) by (try assumption; now apply fold_add_sample_shaped).
  cbn [Nat.leb andb Nat.sub Nat.add]. cbn [map Qsum fold_right].
  fold (Qsum (map (entry t c) (firstn 523 tl))).
  destruct (c <? 14).
  - now rewrite (fold_add_sample_entry n m) by assumption.
  - now apply (fold_add_sample_entry n m).
Qed.

(** X18. What the averaging loops of lines 265-268 leave in
    [Xnormal_RFQ[0]] when the array is rectangular, with at least 524
    samples and at least 14 channels: in each of the first 14 channels, at
    every time step, the mean of the first 524 samples; in a channel from 14
    on, which the second loop does not reach, their sum. The samples after
    the first one are as they were. *)
Theorem X18_averaging_computes_mean (g : Globals) (t c : nat) :
  let a := read (store g) (Xnormal_RFQ g) in
  valid_view (store g) (Xnormal_RFQ g) ->
  rectangular a ->
  524 <= length (samples a) ->
  14 <= nC a ->
  avg_RFQ_Xnormal g = slice (Xnormal_RFQ g) 0 1 ->
  t < nT a -> c < nC a ->
  exists g' first,
    stmt_avg_loops g = (Normal tt, g') /\
    samples (read (store g') (Xnormal_RFQ g')) = first :: skipn 1 (samples a) /\
    (entry t c first
     == if c <? 14
        then Qsum (map (entry t c) (firstn 524 (samples a))) / 524
        else Qsum (map (entry t c) (firstn 524 (samples a))))%Q.
Proof.
  cbv zeta. intros Hv Hrect Hlen Hc Havg Ht Hcc.
  destruct (stmt_avg_loops_run g Hv Hlen Hc Havg) as (g' & Hrun & _ & Hs).
  exists g', (averaged (samples (read (store g) (Xnormal_RFQ g)))).
  split; [exact Hrun|]. split; [exact Hs|].
  apply (averaged_entry (nT (read (store g) (Xnormal_RFQ g)))
           (nC (read (store g) (Xnormal_RFQ g)))); assumption.
Qed.

Lemma rectangularb_ok (a : ndarray) : rectangularb a = true -> rectangular a.
Proof.
  unfold rectangularb, rectangular. intros H. apply Forall_forall. intros s Hs.
  rewrite forallb_forall in H. specialize (H s Hs). apply andb_prop in H.
  destruct H as (H1 & H2). split; [now apply Nat.eqb_eq|].
  apply Forall_forall. intros r Hr. rewrite forallb_forall in H2.
  now apply Nat.eqb_eq, H2.
Qed.

Lemma X18_averaging_computes_mean_witness :
  exists g' first,
    stmt_avg_loops (snd (before_avg example_files initial)) = (Normal tt, g') /\
    samples (read (store g') (Xnormal_RFQ g'))
    = first :: skipn 1 (samples (read (store (snd (before_avg example_files initial)))
                                   (Xnormal_RFQ (snd (before_avg example_files initial))))).
Proof.
  destruct (X18_averaging_computes_mean (snd (before_avg example_files initial)) 0 0)
    as (g' & first & Hrun & Hs & _).
  - vm_compute. lia.
  - apply rectangularb_ok. vm_compute. reflexivity.
  - vm_compute. lia.
  - vm_compute. lia.
  - vm_compute. reflexivity.
  - vm_compute. lia.
  - vm_compute. lia.
  - exists g', first. split; assumption.
Defined.

(** *** The renaming of the features *)

Lemma nth_error_set_nth {A} (l : list A) (i : nat) (x y : A) :
  nth_error l i = Some y -> nth_error (set_nth l i x) i = Some x.
Proof.
  revert i. induction l as [|z l IH]; intros [|i] H; cbn in *; try discriminate; auto.
Qed.

Lemma set_nth_same {A} (l : list A) (i : nat) (x : A) :
  nth_error l i = Some x -> set_nth l i x = l.
Proof.
  revert i. induction l as [|z l IH]; intros [|i] H; cbn in *; try discriminate.
  - now injection H as ->.
  - now rewrite IH.
Qed.

Lemma set_nth_set_nth {A} (l : list A) (i : nat) (x y : A) :
  set_nth (set_nth l i x) i y = set_nth l i y.
Proof.
  revert i. induction l as [|z l IH]; intros [|i]; cbn; auto. now rewrite IH.
Qed.

Lemma set_features_same (g : Globals) : set_features (features g) g = g.
Proof. now destruct g. Qed.

Lemma rename_if_run (i : nat) (old new f : string) (g : Globals) :
  nth_error (features g) i = Some f ->
  rename_if i old new g
  = (Normal tt,
     set_features (set_nth (features g) i (if String.eqb f old then new else f)) g).
Proof.
  intros H. unfold rename_if. unfold bind, gets. cbv beta iota. rewrite H.
  cbn [lift ret]. destruct (String.eqb f old).
  - reflexivity.
  - unfold ret. now rewrite (set_nth_same _ _ _ H), set_features_same.
Qed.

Lemma rename_feature_run (i : nat) (f : string) (g : Globals) :
  nth_error (features g) i = Some f ->
  rename_feature i g
  = (Normal tt, set_features (set_nth (features g) i (renamed f)) g).
Proof.
  intros H. unfold rename_feature.
  assert (Hstep : forall old new f1 (k : M unit),
            (rename_if i old new ;; k)
              (set_features (set_nth (features g) i f1) g)
            = k (set_features
                   (set_nth (features g) i (if String.eqb f1 old then new else f1)) g)).
  { intros old new f1 k. unfold bind at 1.
    rewrite (rename_if_run i old new f1)
      by (cbn [features set_features]; now apply (nth_error_set_nth _ _ _ f)).
    cbn [features set_features]. now rewrite set_nth_set_nth. }
  rewrite <- (set_features_same g) at 1.
  rewrite <- (set_nth_same _ _ _ H) at 1.
  rewrite !Hstep.
  rewrite (rename_if_run i _ _ _)
    by (cbn [features set_features]; now apply (nth_error_set_nth _ _ _ f)).
  cbn [features set_features]. rewrite set_nth_set_nth.
  unfold renamed.
  destruct (String.eqb f "A+*IGBT-I"); cbv beta iota; [reflexivity|].
  destruct (String.eqb f "B+*IGBT-I"); cbv beta iota; [reflexivity|].
  destruct (String.eqb f "C+*IGBT-I"); cbv beta iota; [reflexivity|].
  reflexivity.
Qed.

Lemma renamed_idempotent (f : string) : renamed (renamed f) = renamed f.
Proof.
  destruct (String.eqb f "A+*IGBT-I") eqn:E1;
    [apply String.eqb_eq in E1; subst f; reflexivity|].
  destruct (String.eqb f "B+*IGBT-I") eqn:E2;
    [apply String.eqb_eq in E2; subst f; reflexivity|].
  destruct (String.eqb f "C+*IGBT-I") eqn:E3;
    [apply String.eqb_eq in E3; subst f; reflexivity|].
  destruct (String.eqb f "DV/DT") eqn:E4;
    [apply String.eqb_eq in E4; subst f; reflexivity|].
  assert (R : renamed f = f) by (unfold renamed; now rewrite E1, E2, E3, E4).
  now rewrite !R.
Qed.

(** X19. The four renaming tests in the body of a plot loop (lines 282-289)
    act on the list [features] itself: for an index of the list they
    replace entry [i] by its file-name form ('A+*IGBT-I', 'B+*IGBT-I',
    'C+*IGBT-I' and 'DV/DT' become 'A+_IGBT-I', 'B+_IGBT-I', 'C+_IGBT-I'
    and 'DV_DT', any other name stays) and change nothing else; a second
    pass changes nothing, so that the later plot loops find the names
    already renamed. The 14 names of the source contain neither '*' nor '/'
    afterwards. An index outside the list raises IndexError. *)
Theorem X19_rename_feature (i : nat) (g : Globals) :
  match nth_error (features g) i with
  | Some f =>
      let g' := set_features (set_nth (features g) i (renamed f)) g in
      rename_feature i g = (Normal tt, g') /\
      rename_feature i g' = (Normal tt, g') /\
      nth_error (features g') i = Some (renamed f) /\
      (In f (features initial) ->
       String.index 0 "*" (renamed f) = None /\
       String.index 0 "/" (renamed f) = None)
  | None => rename_feature i g = (Raise IndexError, g)
  end.
Proof.
  destruct (nth_error (features g) i) as [f|] eqn:H.
  - cbv zeta.
    assert (H' : nth_error (set_nth (features g) i (renamed f)) i = Some (renamed f))
      by (now apply (nth_error_set_nth _ _ _ f)).
    split; [now apply rename_feature_run|]. split; [|split; [exact H'|]].
    + rewrite (rename_feature_run i (renamed f)) by exact H'.
      cbn [features set_features].
      now rewrite set_nth_set_nth, renamed_idempotent.
    + intros Hin. cbn [features initial In] in Hin.
      repeat (destruct Hin as [<-|Hin]; [split; reflexivity|]). destruct Hin.
  - unfold rename_feature, rename_if. unfold bind, gets. cbv beta iota.
    now rewrite H.
Qed.

(** *** The held-out sample *)

Lemma read_slice (st : list ndarray) (v : view) (lo hi : nat) :
  lo <= hi ->
  read st (slice v lo hi)
  = with_samples (read st v) (firstn (hi - lo) (skipn lo (samples (read st v)))).
Proof.
  intros H. unfold read, slice, buffer, with_samples. cbn [base start stop nT nC samples].
  f_equal. set (B := samples (nth (base v) st empty_array)). set (n := stop v - start v).
  rewrite skipn_firstn_comm, firstn_firstn.
  rewrite (Nat.add_comm (start v) (Nat.min lo n)), <- skipn_skipn.
  clearbody B n.
  destruct (Nat.le_gt_cases lo n) as [Hle|Hgt].
  - replace (Nat.min lo n) with lo by lia. f_equal. lia.
  - replace (Nat.min (hi - lo) (n - lo)) with 0 by lia.
    replace (start v + Nat.max (Nat.min lo n) (Nat.min hi n)
             - (Nat.min lo n + start v)) with 0 by lia.
    reflexivity.
Qed.

(** X20. Lines 427-429: [data_test] is a copy, in a buffer of its own, of
    [Xnormal_RFQ[525:526]], so the scaling of [data_test] does not write to
    [Xnormal_RFQ]. The slice does not raise when the array is short: with
    525 normal RFQ samples or fewer, [data_test] is an empty array, and the
    loop of lines 430-438 then ends with an exception at its first
    iteration. *)
Theorem X20_test_sample_is_a_copy (g : Globals) :
  let rfq := read (store g) (Xnormal_RFQ g) in
  let g' := snd (stmt_data_test g) in
  fst (stmt_data_test g) = Normal tt /\
  read (store g') (data_test g')
  = with_samples rfq (firstn 1 (skipn 525 (samples rfq))) /\
  base (data_test g') = length (store g) /\
  (forall v, base v < length (store g) -> read (store g') v = read (store g) v) /\
  (length (samples rfq) <= 525 -> features g <> [] ->
   exists e, fst (transform_loop g') = Raise e).
Proof.
  cbv zeta. unfold stmt_data_test, np_array, load, alloc. unfold bind, gets, modify.
  cbv beta iota. cbn [fst snd store set_store data_test set_data_test].
  rewrite (read_slice _ _ 525 526) by lia.
  replace (526 - 525) with 1 by lia.
  set (rfq := read (store g) (Xnormal_RFQ g)).
  set (a := with_samples rfq (firstn 1 (skipn 525 (samples rfq)))).
  split; [reflexivity|]. split; [apply read_app_new|]. split; [reflexivity|].
  split; [intros v Hv; now apply read_app_old|].
  intros Hshort Hf.
  assert (Ea : samples a = []).
  { unfold a. cbn [samples with_samples]. rewrite skipn_all2 by lia. reflexivity. }
  unfold transform_loop. unfold bind at 1. unfold gets at 1.
  cbn [features set_data_test set_store].
  destruct (features g) as [|f fs]; [congruence|].
  cbn [length]. unfold range. rewrite Nat.sub_0_r. cbn [seq for_each].
  unfold bind at 1. rewrite transform_body_group.
  unfold transform_channel, channel, load. unfold bind, gets. cbv beta iota.
  cbn [store set_store data_test set_data_test].
  rewrite read_app_new.
  destruct (0 <? nC a); [|eexists; reflexivity].
  unfold ret. rewrite Ea. cbn [channel_of flat_map].
  unfold MinMaxScaler_transform. unfold bind, gets. cbv beta iota.
  destruct (mm_params _); cbn [lift ret raise]; eexists; reflexivity.
Qed.

End PrepExtras.

(** ** class CustomDataset *)

Section DatasetExtras.

Import Dataset.
Local Open Scope list_scope.
Local Open Scope Z_scope.

Lemma subscript_defined {T} (l : list T) (idx : Z) :
  subscript l idx <> None <-> - Z.of_nat (length l) <= idx < Z.of_nat (length l).
Proof.
  unfold subscript.
  destruct (Z.leb_spec 0 idx); destruct (Z.ltb_spec idx (Z.of_nat (length l)));
    cbn [andb];
    try (destruct (Z.leb_spec (- Z.of_nat (length l)) idx));
    try (destruct (Z.ltb_spec idx 0)); cbn [andb];
    rewrite ?nth_error_Some; try lia; split; intros; try lia; congruence.
Qed.

Lemma subscript_wraps {T} (l : list T) (idx : Z) :
  0 <= idx < Z.of_nat (length l) ->
  subscript l (idx - Z.of_nat (length l)) = subscript l idx.
Proof.
  intros H. unfold subscript.
  replace (0 <=? idx - Z.of_nat (length l)) with false by lia.
  replace (0 <=? idx) with true by lia.
  replace (idx <? Z.of_nat (length l)) with true by lia.
  replace (- Z.of_nat (length l) <=? idx - Z.of_nat (length l)) with true by lia.
  replace (idx - Z.of_nat (length l) <? 0) with true by lia.
  cbn [andb]. f_equal. lia.
Qed.

(** X17. [CustomDataset]: [ds[idx]] is defined exactly for
    [-m <= idx < m], where [m] is the smaller of [len(data)] and
    [len(labels)], while [len(ds)] is [len(data)]: with fewer labels than
    data, the indices from [len(labels)] to [len(ds) - 1] raise IndexError
    although they are below [len(ds)]. With as many labels as data, every
    index below [len(ds)] gives the item and the label at that position,
    and [idx - len(ds)] gives the same pair. *)
Theorem X17_dataset_getitem {data_t label_t : Type}
    (d : list data_t) (l : list label_t) (idx : Z) :
  let ds := init d l in
  let m := Z.min (Z.of_nat (length d)) (Z.of_nat (length l)) in
  len ds = Z.of_nat (length d) /\
  (getitem ds idx <> None <-> - m <= idx < m) /\
  (length d = length l -> 0 <= idx < len ds ->
   exists x y, nth_error d (Z.to_nat idx) = Some x /\
               nth_error l (Z.to_nat idx) = Some y /\
               getitem ds idx = Some (x, y) /\
               getitem ds (idx - len ds) = Some (x, y)).
Proof.
  cbv zeta. unfold getitem, len, init. cbn [data labels].
  split; [reflexivity|]. split.
  - pose proof (subscript_defined d idx) as Hd.
    pose proof (subscript_defined l idx) as Hl.
    destruct (subscript d idx) as [x|]; destruct (subscript l idx) as [y|];
      split; intros H; try congruence; try discriminate;
      try (assert (Some x <> None) as Hx by discriminate; apply Hd in Hx);
      try (assert (Some y <> None) as Hy by discriminate; apply Hl in Hy);
      try lia.
    + exfalso. assert (~ (- Z.of_nat (length l) <= idx < Z.of_nat (length l))) as N
        by (intros C; apply Hl in C; congruence). lia.
    + exfalso. assert (~ (- Z.of_nat (length d) <= idx < Z.of_nat (length d))) as N
        by (intros C; apply Hd in C; congruence). lia.
    + exfalso. assert (~ (- Z.of_nat (length d) <= idx < Z.of_nat (length d))) as N
        by (intros C; apply Hd in C; congruence). lia.
  - intros Hlen Hidx.
    assert (Hl : 0 <= idx < Z.of_nat (length l)) by lia.
    pose proof (subscript_wraps d idx Hidx) as Wd.
    pose proof (subscript_wraps l idx Hl) as Wl. rewrite <- Hlen in Wl.
    rewrite Wd, Wl.
    assert (Sd : subscript d idx = nth_error d (Z.to_nat idx)).
    { unfold subscript. replace (0 <=? idx) with true by lia.
      now replace (idx <? Z.of_nat (length d)) with true by lia. }
    assert (Sl : subscript l idx = nth_error l (Z.to_nat idx)).
    { unfold subscript. replace (0 <=? idx) with true by lia.
      now replace (idx <? Z.of_nat (length l)) with true by lia. }
    rewrite Sd, Sl.
    destruct (nth_error d (Z.to_nat idx)) as [x|] eqn:Ex;
      [|apply nth_error_None in Ex; lia].
    destruct (nth_error l (Z.to_nat idx)) as [y|] eqn:Ey;
      [|apply nth_error_None in Ey; lia].
    exists x, y. repeat split; reflexivity.
Qed.

End DatasetExtras.
